(** * TutorAI: the retrieval-and-generation pipeline, embedded in Rocq

    A shallow embedding of the Python services of the backend
    ([timestamp_service.py], [transcription.py], [langgraph_workflows.py],
    [rag.py], [multi_lecture_search.py], [pdf_generator.py], and
    [generate_chunked_summary] and the routes over a lecture's transcript
    of [api/routes/lectures.py]) and the properties stated about them.

    Conventions of the embedding.
    - A Python [str] is a [string]; a character is a code point below 256.
      On that range [\d] is exactly ['0'..'9'] and [str.isspace] is the set
      given by [PyStr.is_space].
    - A Python [float] is a binary64 number, [PrimFloat.float]; every
      operation is the IEEE 754 one, as CPython performs it.  A relevance
      score is only ever compared, never computed with; it is a rational.
    - A Python [int] is a [Z]; an index or a length is a [nat].
    - A raised exception is the [Raise] case of [result], with [str(e)].
    - The backends (language model, vector store, transcript files) are
      the variables of a section, functions of their arguments; a stage
      returns the new state together with the list of backend calls it
      made, oldest first.
    - A compiled graph runs its stages in the order of its edges, each on
      the state the one before returned.

    The file has three parts: the embedding, module by module of the
    source; the vocabulary in which the properties are stated; the
    properties, with the lemmas they rest on. *)

From Stdlib Require Import ZArith List String Ascii Bool Lia Arith.
From Stdlib Require Import QArith.
From Stdlib Require Import Floats.
From Stdlib Require Import DecimalString.
From Stdlib Require Import Sorted Permutation.
Import ListNotations.

#[local] Open Scope string_scope.
#[local] Open Scope Z_scope.

(** ** Results of fallible code *)

Inductive result (A : Type) : Type :=
| Ok (a : A)
| Raise (msg : string).
Arguments Ok {A} a.
Arguments Raise {A} msg.

Definition rbind {A B} (x : result A) (f : A -> result B) : result B :=
  match x with
  | Ok a => f a
  | Raise msg => Raise msg
  end.

Notation "'do' x <- e ; k" := (rbind e (fun x => k))
  (at level 10, x pattern, e at level 100, k at level 200).

(** ** Python strings *)

Module PyStr.

Definition code (c : ascii) : Z := Z.of_N (N_of_ascii c).

Definition nl : ascii := "010"%char.

(** [str.isspace] on code points below 256. *)
Definition is_space (c : ascii) : bool :=
  let n := code c in
  ((9 <=? n) && (n <=? 13)) || ((28 <=? n) && (n <=? 32))
  || (n =? 133) || (n =? 160).

(** [\d] on code points below 256. *)
Definition is_digit (c : ascii) : bool :=
  let n := code c in (48 <=? n) && (n <=? 57).

Definition digit_val (c : ascii) : Z := code c - 48.

Fixpoint lstrip (s : string) : string :=
  match s with
  | String c r => if is_space c then lstrip r else s
  | EmptyString => EmptyString
  end.

Fixpoint rstrip (s : string) : string :=
  match s with
  | String c r =>
      match rstrip r with
      | EmptyString => if is_space c then EmptyString else String c EmptyString
      | r' => String c r'
      end
  | EmptyString => EmptyString
  end.

(** [s.strip()] *)
Definition strip (s : string) : string := rstrip (lstrip s).

(** [s.split(sep)] for a one-character separator: never empty. *)
Fixpoint split (sep : ascii) (s : string) : list string :=
  match s with
  | EmptyString => [EmptyString]
  | String c r =>
      if Ascii.eqb c sep then EmptyString :: split sep r
      else match split sep r with
           | p :: ps => String c p :: ps
           | [] => [String c EmptyString]
           end
  end.

(** [sub in s] *)
Fixpoint contains (sub s : string) : bool :=
  String.prefix sub s
  || match s with
     | String _ r => contains sub r
     | EmptyString => false
     end.

(** [s[i:i+n]] for indices that are not negative. *)
Definition slice (i n : nat) (s : string) : string := String.substring i n s.

(** [s[a:b]] for any integers, as Python clamps them. *)
Definition clamp_index (i : Z) (s : string) : nat :=
  let n := Z.of_nat (String.length s) in
  Z.to_nat (Z.min n (if i <? 0 then Z.max 0 (i + n) else i)).

Definition slice_Z (a b : Z) (s : string) : string :=
  let a' := clamp_index a s in
  let b' := clamp_index b s in
  slice a' (b' - a') s.

(** [len(s)] *)
Definition len (s : string) : Z := Z.of_nat (String.length s).

(** [sep.join(l)] *)
Definition join (sep : string) (l : list string) : string := String.concat sep l.

(** [sep.join(s)] for a string [s]: its characters, joined. *)
Fixpoint chars (s : string) : list string :=
  match s with
  | String c r => String c EmptyString :: chars r
  | EmptyString => []
  end.

Definition join_chars (sep s : string) : string := join sep (chars s).

(** [s.rfind(sub)]: the highest index at which [sub] occurs in [s], or -1. *)
Fixpoint rfind_from (i : Z) (sub s : string) : Z :=
  match s with
  | EmptyString => if String.prefix sub EmptyString then i else -1
  | String _ r =>
      let later := rfind_from (i + 1) sub r in
      if 0 <=? later then later
      else if String.prefix sub s then i else -1
  end.

Definition rfind (sub s : string) : Z := rfind_from 0 sub s.

(** [not s]: the empty string is falsy. *)
Definition falsy (s : string) : bool :=
  match s with
  | EmptyString => true
  | _ => false
  end.

(** [not s] for an [Optional[str]]. *)
Definition falsy_opt (s : option string) : bool :=
  match s with
  | Some s => falsy s
  | None => true
  end.

(** [str(n)] and [f"{n}"] for an integer. *)
Definition of_Z (n : Z) : string := NilZero.string_of_int (Z.to_int n).

Definition of_nat (n : nat) : string := of_Z (Z.of_nat n).

(** [f"{n:02d}"]: at least two characters, the sign included. *)
Definition of_Z_02d (n : Z) : string :=
  if (0 <=? n) && (n <? 10) then "0" ++ of_Z n else of_Z n.

(** [repr(s)], as it appears in the text of a [ValueError]. *)
Definition hex_digit (n : Z) : ascii :=
  ascii_of_N (Z.to_N (if n <? 10 then 48 + n else 87 + n)).

Definition printable (c : ascii) : bool :=
  let n := code c in
  negb ((n <? 32) || ((127 <=? n) && (n <=? 160)) || (n =? 173)).

Definition dquote : ascii := "034"%char.

Definition repr_char (quote c : ascii) : string :=
  if Ascii.eqb c "\" then "\\"
  else if Ascii.eqb c quote then String "\" (String c EmptyString)
  else if Ascii.eqb c nl then "\n"
  else if Ascii.eqb c "013" then "\r"
  else if Ascii.eqb c "009" then "\t"
  else if printable c then String c EmptyString
  else String "\" (String "x" (String (hex_digit (code c / 16))
                               (String (hex_digit (code c mod 16)) EmptyString))).

Fixpoint repr_body (quote : ascii) (s : string) : string :=
  match s with
  | String c r => repr_char quote c ++ repr_body quote r
  | EmptyString => EmptyString
  end.

Definition repr (s : string) : string :=
  let quote :=
    if contains "'" s && negb (contains (String dquote EmptyString) s)
    then dquote else "'"%char in
  String quote (repr_body quote s ++ String quote EmptyString).

(** [int(s)] in base 10: surrounding whitespace, an optional sign, digits
    with single underscores between them. *)
Fixpoint int_digits (acc : Z) (after_digit : bool) (s : string) : option Z :=
  match s with
  | EmptyString => if after_digit then Some acc else None
  | String c r =>
      if is_digit c then int_digits (10 * acc + digit_val c) true r
      else if Ascii.eqb c "_" && after_digit then int_digits acc false r
      else None
  end.

Definition int (s : string) : result Z :=
  let parsed :=
    match strip s with
    | String "-" r => option_map Z.opp (int_digits 0 false r)
    | String "+" r => int_digits 0 false r
    | r => int_digits 0 false r
    end in
  match parsed with
  | Some n => Ok n
  | None => Raise ("invalid literal for int() with base 10: " ++ repr s)
  end.

(** [l[i]] *)
Definition index {A} (l : list A) (i : nat) : result A :=
  match nth_error l i with
  | Some a => Ok a
  | None => Raise "list index out of range"
  end.

(** [range(0, stop, step)] for [0 < step]. *)
Definition range0 (stop step : nat) : list nat :=
  map (fun k => k * step)%nat (seq 0 ((stop + step - 1) / step)).

End PyStr.

(** ** Python floats (binary64) *)

Module PyFloat.

#[local] Open Scope float_scope.

(** The nearest binary64 number to [m * 2^e], ties to even. *)
Definition round_Z (m e : Z) : float :=
  SF2Prim (binary_normalize prec emax m e false).

(** Magnitudes from [overflow_bound] on round to an infinity: it is the
    midpoint of the largest binary64 number and [2^1024]. *)
Definition overflow_bound : Z := 2 ^ 1024 - 2 ^ 970.

(** [float(n)] for an integer. *)
Definition of_int (n : Z) : result float :=
  if (Z.abs n <? overflow_bound)%Z then Ok (round_Z n 0)
  else Raise "int too large to convert to float".

(** [a / b] for integers with [0 < b]: the correctly rounded quotient.
    The quotient is taken with 64 extra bits and a sticky bit that
    records an inexact division, so that one rounding decides. *)
Definition int_truediv (a b : Z) : result float :=
  let n := (Z.abs a * 2 ^ 64)%Z in
  let q := (n / b)%Z in
  let sticky := (if (n mod b =? 0)%Z then 0 else 1)%Z in
  let m := (2 * q + sticky)%Z in
  if (Z.abs a <? overflow_bound * b)%Z
  then Ok (round_Z (if (a <? 0)%Z then (- m)%Z else m) (-65))
  else Raise "integer division result too large for a float".

(** [int(x)]: truncation towards zero. *)
Definition to_int (x : float) : result Z :=
  match Prim2SF x with
  | S754_zero _ => Ok 0%Z
  | S754_finite s m e =>
      let a := (if (0 <=? e)%Z then Z.pos m * 2 ^ e else Z.pos m / 2 ^ (- e))%Z in
      Ok (if s then (- a)%Z else a)
  | S754_nan => Raise "cannot convert float NaN to integer"
  | S754_infinity _ => Raise "cannot convert float infinity to integer"
  end.

(** C's [floor]. *)
Definition floor (x : float) : float :=
  match Prim2SF x with
  | S754_finite s m e =>
      if (0 <=? e)%Z then x
      else
        let d := (2 ^ (- e))%Z in
        let q := (Z.pos m / d)%Z in
        if s then
          round_Z (- (if (Z.pos m mod d =? 0)%Z then q else q + 1))%Z 0
        else
          match q with
          | Z0 => zero
          | _ => round_Z q 0
          end
  | _ => x
  end.

(** C's [fmod x y]: the exact remainder of the truncated division, with
    the sign of [x]. *)
Definition fmod (x y : float) : float :=
  match Prim2SF x, Prim2SF y with
  | S754_nan, _ | _, S754_nan => nan
  | S754_infinity _, _ => nan
  | _, S754_zero _ => nan
  | _, S754_infinity _ => x
  | S754_zero _, _ => x
  | S754_finite sx mx ex, S754_finite _ my ey =>
      let e := Z.min ex ey in
      let r := ((Z.pos mx * 2 ^ (ex - e)) mod (Z.pos my * 2 ^ (ey - e)))%Z in
      SF2Prim (binary_normalize prec emax (if sx then (- r)%Z else r) e sx)
  end.

(** [x % w] for a positive finite [w] ([float_rem] of CPython). *)
Definition rem (x w : float) : float :=
  let m := fmod x w in
  if is_nan m then m
  else if is_zero m then zero
  else if m <? zero then m + w else m.

(** [x // w] for a positive finite [w] ([float_floor_div] of CPython). *)
Definition floordiv (x w : float) : float :=
  let m := fmod x w in
  let d := (x - m) / w in
  let d := if is_nan m || is_zero m then d
           else if m <? zero then d - one else d in
  if is_nan d then d
  else if is_zero d then (if get_sign (x / w) then neg_zero else zero)
  else
    let fl := floor d in
    if 0.5 <? d - fl then fl + one else fl.

(** [f"{x:.2f}"]: the decimal with two fractional digits nearest to the
    exact value of [x], ties to even. *)
Definition fmt_2f (x : float) : string :=
  match Prim2SF x with
  | S754_nan => "nan"
  | S754_infinity s => if s then "-inf" else "inf"
  | S754_zero s => if s then "-0.00" else "0.00"
  | S754_finite s m e =>
      let c :=
        (if 0 <=? e then Z.pos m * 100 * 2 ^ e
         else
           let d := 2 ^ (- e) in
           let n := Z.pos m * 100 in
           let q := n / d in
           let r := n mod d in
           if 2 * r <? d then q
           else if d <? 2 * r then q + 1
           else if Z.even q then q else q + 1)%Z in
      (if s then "-" else EmptyString)
        ++ PyStr.of_Z (c / 100) ++ "." ++ PyStr.of_Z_02d (c mod 100)
  end.

End PyFloat.

(** ** [timestamp_service.py] *)

Module Timestamp.

#[local] Open Scope float_scope.

Record TimestampSegment : Type := mkSegment {
  start_time : float;
  end_time : float;
  text : string;
  start_str : string;
  end_str : string
}.

(** [time_to_seconds] *)
Definition time_to_seconds (time_str : string) : result float :=
  let parts := PyStr.split ":" time_str in
  do p0 <- PyStr.index parts 0;
  do hours <- PyStr.int p0;
  do p1 <- PyStr.index parts 1;
  do minutes <- PyStr.int p1;
  do p2 <- PyStr.index parts 2;
  let seconds_parts := PyStr.split "." p2 in
  do s0 <- PyStr.index seconds_parts 0;
  do seconds <- PyStr.int s0;
  do milliseconds <-
    (if (1 <? List.length seconds_parts)%nat
     then (do s1 <- PyStr.index seconds_parts 1; PyStr.int s1)
     else Ok 0%Z);
  do frac <- PyFloat.int_truediv milliseconds 100;
  do whole <- PyFloat.of_int (hours * 3600 + minutes * 60 + seconds);
  Ok (whole + frac).

(** [seconds_to_time] *)
Definition seconds_to_time (seconds : float) : result string :=
  do hours <- PyFloat.to_int (PyFloat.floordiv seconds 3600);
  do minutes <- PyFloat.to_int (PyFloat.floordiv (PyFloat.rem seconds 3600) 60);
  let secs := PyFloat.rem seconds 60 in
  do whole_seconds <- PyFloat.to_int secs;
  do whole_f <- PyFloat.of_int whole_seconds;
  do milliseconds <- PyFloat.to_int ((secs - whole_f) * 100);
  Ok (PyStr.of_Z_02d hours ++ ":" ++ PyStr.of_Z_02d minutes ++ ":"
      ++ PyStr.of_Z_02d whole_seconds ++ "." ++ PyStr.of_Z_02d milliseconds).

(** [format_timestamp_for_video] *)
Definition format_timestamp_for_video (seconds : float) : result string :=
  do hours <- PyFloat.to_int (PyFloat.floordiv seconds 3600);
  do minutes <- PyFloat.to_int (PyFloat.floordiv (PyFloat.rem seconds 3600) 60);
  do secs <- PyFloat.to_int (PyFloat.rem seconds 60);
  Ok (if (0 <? hours)%Z then
        PyStr.of_Z hours ++ "h" ++ PyStr.of_Z minutes ++ "m" ++ PyStr.of_Z secs ++ "s"
      else if (0 <? minutes)%Z then
        PyStr.of_Z minutes ++ "m" ++ PyStr.of_Z secs ++ "s"
      else PyStr.of_Z secs ++ "s").

(** *** The line pattern

    [re.match(r'\[(\d{2}:\d{2}:\d{2}\.\d{2}) - (\d{2}:\d{2}:\d{2}\.\d{2})\] (.+)', line)]:
    the pattern has one way to match, so the matcher reads it left to
    right.  A failed match is [None], as in Python. *)

Definition obind {A B} (x : option A) (f : A -> option B) : option B :=
  match x with
  | Some a => f a
  | None => None
  end.

#[local] Notation "'try' x <- e ; k" := (obind e (fun x => k))
  (at level 10, x pattern, e at level 100, k at level 200).

(** A literal prefix; the rest of the subject. *)
Fixpoint lit (p s : string) : option string :=
  match p with
  | EmptyString => Some s
  | String a p' =>
      match s with
      | String b s' => if Ascii.eqb a b then lit p' s' else None
      | EmptyString => None
      end
  end.

(** [\d{2}] *)
Definition two_digits (s : string) : option (string * string) :=
  match s with
  | String a (String b r) =>
      if PyStr.is_digit a && PyStr.is_digit b
      then Some (String a (String b EmptyString), r)
      else None
  | _ => None
  end.

(** [\d{2}:\d{2}:\d{2}\.\d{2}] *)
Definition match_timestamp (s : string) : option (string * string) :=
  try (h, r) <- two_digits s;
  try r <- lit ":" r;
  try (m, r) <- two_digits r;
  try r <- lit ":" r;
  try (sec, r) <- two_digits r;
  try r <- lit "." r;
  try (cc, r) <- two_digits r;
  Some (h ++ ":" ++ m ++ ":" ++ sec ++ "." ++ cc, r).

(** The longest prefix without a newline: what a greedy [.*] takes. *)
Fixpoint until_newline (s : string) : string :=
  match s with
  | String c r => if Ascii.eqb c PyStr.nl then EmptyString else String c (until_newline r)
  | EmptyString => EmptyString
  end.

(** [(.+)] *)
Definition dot_plus (s : string) : option string :=
  match until_newline s with
  | EmptyString => None
  | t => Some t
  end.

(** [match.groups()] of the line pattern, when it matches. *)
Definition match_line (line : string) : option (string * string * string) :=
  try r <- lit "[" line;
  try (a, r) <- match_timestamp r;
  try r <- lit " - " r;
  try (b, r) <- match_timestamp r;
  try r <- lit "] " r;
  try t <- dot_plus r;
  Some (a, b, t).

(** The lines the parser iterates over: [transcript.strip().split('\n')]. *)
Definition lines_of (transcript : string) : list string :=
  PyStr.split PyStr.nl (PyStr.strip transcript).

(** One iteration of the loop of [parse_transcript_with_timestamps]. *)
Definition parse_line (segments : list TimestampSegment) (line : string)
  : result (list TimestampSegment) :=
  match match_line line with
  | Some (start_str, end_str, text) =>
      do start_time <- time_to_seconds start_str;
      do end_time <- time_to_seconds end_str;
      Ok (segments ++ [mkSegment start_time end_time text start_str end_str])%list
  | None => Ok segments
  end.

Fixpoint parse_lines (segments : list TimestampSegment) (lines : list string)
  : result (list TimestampSegment) :=
  match lines with
  | [] => Ok segments
  | line :: rest => do segments <- parse_line segments line; parse_lines segments rest
  end.

(** [parse_transcript_with_timestamps] *)
Definition parse_transcript_with_timestamps (transcript : string)
  : result (list TimestampSegment) :=
  parse_lines [] (lines_of transcript).

End Timestamp.

(** ** [transcription.py] *)

Module Transcription.

(** A segment as the speech-to-text engine yields it. *)
Record WhisperSegment : Type := mkWhisper {
  seg_start : float;
  seg_end : float;
  seg_text : string
}.

(** [f"[{seg.start:.2f} - {seg.end:.2f}] {seg.text}"] *)
Definition transcript_line (seg : WhisperSegment) : string :=
  "[" ++ PyFloat.fmt_2f (seg_start seg) ++ " - " ++ PyFloat.fmt_2f (seg_end seg)
      ++ "] " ++ seg_text seg.

(** The text [transcribe] returns and saves, given the engine's segments. *)
Definition transcribe (segments : list WhisperSegment) : string :=
  PyStr.join (String PyStr.nl EmptyString) (map transcript_line segments).

End Transcription.

(** ** [config.py] *)

Definition TOP_K : nat := 4.

(** ** The backends and what is exchanged with them *)

(** A [Document] of the vector store: its text and, in its metadata, the
    similarity score when the key is present. *)
Record Document : Type := mkDocument {
  page_content : string;
  score : option Q
}.

(** A call to a backend. *)
Inductive call : Type :=
| LoadTranscript (lecture_id : string)
| GetCollectionInfo (collection_name : string)
| SimilaritySearch (collection_name query : string) (k : nat)
| VectorStoreSearch (query : string) (k : nat)
| LlmInvoke (prompt : string).

(** ** Citations: the loop shared by [extract_sources_node], [ask_question]
    and the multi-lecture search *)

Module Citation.
Import Timestamp.

(** A source as the question-answering paths build it. *)
Record Source : Type := mkSource {
  src_text : string;
  src_start_time : float;
  src_end_time : float;
  src_start_str : string;
  src_end_str : string;
  src_video_timestamp : string
}.

(** [chunk.strip() in segment.text or segment.text.strip() in chunk] *)
Definition overlaps (chunk : string) (segment : TimestampSegment) : bool :=
  PyStr.contains (PyStr.strip chunk) (text segment)
  || PyStr.contains (PyStr.strip (text segment)) chunk.

(** The inner loop: the first segment that overlaps, where the loop breaks. *)
Definition first_match (chunk : string) (segments : list TimestampSegment)
  : option TimestampSegment :=
  find (overlaps chunk) segments.

Definition source_of (segment : TimestampSegment) : result Source :=
  do video <- format_timestamp_for_video (start_time segment);
  Ok (mkSource (text segment) (start_time segment) (end_time segment)
               (start_str segment) (end_str segment) video).

(** The outer loop of [extract_sources_node] and of [ask_question]: a
    chunk without a matching segment appends nothing. *)
Fixpoint collect_sources (segments : list TimestampSegment) (chunks : list string)
  (sources : list Source) : result (list Source) :=
  match chunks with
  | [] => Ok sources
  | chunk :: rest =>
      match first_match chunk segments with
      | Some segment =>
          do source <- source_of segment;
          collect_sources segments rest (sources ++ [source])
      | None => collect_sources segments rest sources
      end
  end.

(** A result of the multi-lecture search; [relevance_score] is [None]
    when the key is absent from the dictionary. *)
Record SearchResult : Type := mkResult {
  res_lecture_id : string;
  res_text : string;
  res_start_time : float;
  res_end_time : float;
  res_start_str : string;
  res_end_str : string;
  res_video_timestamp : string;
  relevance_score : option Q
}.

(** [doc.metadata.get("score", 0.0)] *)
Definition score_of (doc : Document) : Q :=
  match score doc with
  | Some q => q
  | None => 0%Q
  end.

(** The body of the loop over documents, with its [for ... else]. *)
Definition result_of (lecture_id : string) (segments : list TimestampSegment)
  (doc : Document) : result SearchResult :=
  match first_match (page_content doc) segments with
  | Some segment =>
      do video <- format_timestamp_for_video (start_time segment);
      Ok (mkResult lecture_id (page_content doc) (start_time segment) (end_time segment)
                   (start_str segment) (end_str segment) video (Some (score_of doc)))
  | None =>
      Ok (mkResult lecture_id (page_content doc) 0%float 0%float
                   "00:00:00.00" "00:00:00.00" "0s" (Some (score_of doc)))
  end.

(** The loop over documents: the results appended so far, and the
    exception that ended the loop if there was one. *)
Fixpoint collect_results (lecture_id : string) (segments : list TimestampSegment)
  (docs : list Document) (results : list SearchResult)
  : list SearchResult * option string :=
  match docs with
  | [] => (results, None)
  | doc :: rest =>
      match result_of lecture_id segments doc with
      | Ok r => collect_results lecture_id segments rest (results ++ [r])
      | Raise msg => (results, Some msg)
      end
  end.

(** ["relevance_score" in r] *)
Definition has_score (r : SearchResult) : bool :=
  match relevance_score r with
  | Some _ => true
  | None => false
  end.

(** [x.get("relevance_score", 0)] *)
Definition sort_key (r : SearchResult) : Q :=
  match relevance_score r with
  | Some q => q
  | None => 0%Q
  end.

Definition Qltb (a b : Q) : bool := negb (Qle_bool b a).

(** [l.sort(key=..., reverse=True)]: stable, largest key first.  An
    element goes behind the elements of a larger key and in front of the
    others, which come after it in the list being sorted. *)
Fixpoint insert_desc (x : SearchResult) (l : list SearchResult) : list SearchResult :=
  match l with
  | [] => [x]
  | y :: l' => if Qltb (sort_key x) (sort_key y) then y :: insert_desc x l' else x :: l
  end.

Definition sort_desc (l : list SearchResult) : list SearchResult :=
  fold_right insert_desc [] l.

(** The tail shared by [search_all_lectures_node] and
    [search_multiple_lectures]: sort when some result has the key, then cut. *)
Definition rank (all_results : list SearchResult) (limit : nat) : list SearchResult :=
  let sorted :=
    match all_results with
    | [] => all_results
    | _ => if existsb has_score all_results then sort_desc all_results else all_results
    end in
  firstn limit sorted.

(** The fallback of the retrieval:
    [[transcript[i:i+1000] for i in range(0, len(transcript), 2000)][:5]] *)
Definition fallback_chunks (transcript : string) : list string :=
  firstn 5 (map (fun i => PyStr.slice i 1000 transcript)
                (PyStr.range0 (String.length transcript) 2000)).

End Citation.

(** ** [langgraph_workflows.py] *)

Module Workflows.
Import Timestamp Citation.

(** The state of the question-answering workflow. *)
Module QA.

Record LectureProcessingState : Type := mkQA {
  lecture_id : string;
  transcript : option string;
  question : option string;
  context_chunks : list string;
  answer : option string;
  sources : list Source;
  error : option string;
  metadata : list (string * string)
}.

Definition set_transcript (t : string) (s : LectureProcessingState) :=
  mkQA (lecture_id s) (Some t) (question s) (context_chunks s) (answer s)
       (sources s) (error s) (metadata s).
Definition set_context_chunks (c : list string) (s : LectureProcessingState) :=
  mkQA (lecture_id s) (transcript s) (question s) c (answer s)
       (sources s) (error s) (metadata s).
Definition set_answer (a : string) (s : LectureProcessingState) :=
  mkQA (lecture_id s) (transcript s) (question s) (context_chunks s) (Some a)
       (sources s) (error s) (metadata s).
Definition set_sources (l : list Source) (s : LectureProcessingState) :=
  mkQA (lecture_id s) (transcript s) (question s) (context_chunks s) (answer s)
       l (error s) (metadata s).
Definition set_error (e : string) (s : LectureProcessingState) :=
  mkQA (lecture_id s) (transcript s) (question s) (context_chunks s) (answer s)
       (sources s) (Some e) (metadata s).

End QA.

(** The state of the multi-lecture search workflow. *)
Module Multi.

Record MultiLectureState : Type := mkMulti {
  query : string;
  lecture_ids : list string;
  results : list SearchResult;
  consolidated_answer : option string;
  error : option string
}.

Definition set_results (l : list SearchResult) (s : MultiLectureState) :=
  mkMulti (query s) (lecture_ids s) l (consolidated_answer s) (error s).
Definition set_consolidated_answer (a : string) (s : MultiLectureState) :=
  mkMulti (query s) (lecture_ids s) (results s) (Some a) (error s).
Definition set_error (e : string) (s : MultiLectureState) :=
  mkMulti (query s) (lecture_ids s) (results s) (consolidated_answer s) (Some e).

End Multi.

(** The state of the summarization workflow; an entry of [timestamps] is
    a timestamp with its description. *)
Module Summarization.

Record SummarizationState : Type := mkSummarization {
  lecture_id : string;
  transcript : option string;
  summary : option string;
  key_topics : list string;
  timestamps : list (string * string);
  error : option string
}.

Definition set_transcript (t : string) (s : SummarizationState) :=
  mkSummarization (lecture_id s) (Some t) (summary s) (key_topics s) (timestamps s)
                  (error s).
Definition set_summary (t : string) (s : SummarizationState) :=
  mkSummarization (lecture_id s) (transcript s) (Some t) (key_topics s) (timestamps s)
                  (error s).
Definition set_error (e : string) (s : SummarizationState) :=
  mkSummarization (lecture_id s) (transcript s) (summary s) (key_topics s) (timestamps s)
                  (Some e).

End Summarization.

Import QA.

(** [f"lecture_{lecture_id}"] *)
Definition collection_name (lecture_id : string) : string := "lecture_" ++ lecture_id.

Definition para : string := String PyStr.nl (String PyStr.nl EmptyString).

Definition answer_prompt (context question : string) : string :=
  "
        Based on the following lecture transcript, please answer the user's question comprehensively.
        Use the provided context to give a detailed and accurate answer.
        
        Context:
        "
  ++ context
  ++ "
        
        User Question: "
  ++ question
  ++ "
        
        Please provide a comprehensive answer based on the lecture content above:
        ".

Definition consolidate_prompt (query context : string) : string :=
  "
        Based on the following search results from multiple lectures, provide a comprehensive answer to the user's query.
        
        Query: "
  ++ query
  ++ "
        
        Search Results:
        "
  ++ context
  ++ "
        
        Please provide a consolidated answer that synthesizes information from all relevant lectures:
        ".

Definition summary_prompt (transcript : string) : string :=
  "
        Please provide a comprehensive summary of the following lecture transcript. Include:
        1. Main topics covered
        2. Key concepts and definitions
        3. Important examples or demonstrations
        4. Overall themes and conclusions
        
        Transcript:
        "
  ++ transcript
  ++ "
        
        Summary:
        ".

(** A stage: the state it returns and the backend calls it made. *)
Definition stage (S : Type) : Type := S -> S * list call.

(** Stages in sequence, as the edges of a graph chain them. *)
Definition seq_stage {S} (f g : stage S) : stage S :=
  fun s => let (s1, c1) := f s in let (s2, c2) := g s1 in (s2, c1 ++ c2)%list.

Section Backends.

(** [load_transcript]: the saved text, [None] when there is no file. *)
Variable load_transcript : string -> result (option string).

(** [qdrant_store.get_collection_info]: [None] when the collection is
    missing; it catches every exception of the store itself. *)
Variable CollectionInfo : Type.
Variable get_collection_info : string -> option CollectionInfo.

(** [qdrant_store.similarity_search(collection_name, query, k)] *)
Variable similarity_search : string -> string -> nat -> result (list Document).

(** [get_llm().invoke(prompt)] *)
Variable llm_invoke : string -> result string.

(** *** The question-answering workflow *)

Definition load_transcript_node : stage LectureProcessingState := fun state =>
  let calls := [LoadTranscript (lecture_id state)] in
  match load_transcript (lecture_id state) with
  | Ok loaded =>
      match loaded with
      | Some t =>
          if PyStr.falsy t
          then (set_error ("Transcript not found for lecture " ++ lecture_id state) state, calls)
          else (set_transcript t state, calls)
      | None =>
          (set_error ("Transcript not found for lecture " ++ lecture_id state) state, calls)
      end
  | Raise msg => (set_error ("Error loading transcript: " ++ msg) state, calls)
  end.

Definition retrieve_relevant_chunks : stage LectureProcessingState := fun state =>
  match question state with
  | None => (set_error "No question provided" state, [])
  | Some q =>
      if PyStr.falsy q then (set_error "No question provided" state, [])
      else
        let name := collection_name (lecture_id state) in
        match get_collection_info name with
        | None =>
            (match transcript state with
             | Some t =>
                 if PyStr.falsy t then state
                 else set_context_chunks (fallback_chunks t) state
             | None => state
             end, [GetCollectionInfo name])
        | Some _ =>
            let calls := [GetCollectionInfo name; SimilaritySearch name q TOP_K] in
            match similarity_search name q TOP_K with
            | Ok docs => (set_context_chunks (map page_content docs) state, calls)
            | Raise msg => (set_error ("Error retrieving chunks: " ++ msg) state, calls)
            end
        end
  end.

(** The context of the prompt: the chunks joined by a blank line or,
    without chunks, the transcript, or the empty string without either. *)
Definition answer_context (state : LectureProcessingState) : string :=
  match context_chunks state with
  | [] => match transcript state with
          | Some t => t
          | None => EmptyString
          end
  | chunks => PyStr.join para chunks
  end.

Definition generate_answer_node : stage LectureProcessingState := fun state =>
  match question state with
  | None => (set_error "No question provided" state, [])
  | Some q =>
      if PyStr.falsy q then (set_error "No question provided" state, [])
      else
        let prompt := answer_prompt (answer_context state) q in
        match llm_invoke prompt with
        | Ok response => (set_answer (PyStr.strip response) state, [LlmInvoke prompt])
        | Raise msg => (set_error ("Error generating answer: " ++ msg) state, [LlmInvoke prompt])
        end
  end.

Definition extract_sources_node : stage LectureProcessingState := fun state =>
  match transcript state with
  | None => (state, [])
  | Some t =>
      if PyStr.falsy t then (state, [])
      else
        match (do segments <- parse_transcript_with_timestamps t;
               collect_sources segments (context_chunks state) []) with
        | Ok found => (set_sources found state, [])
        | Raise msg => (set_error ("Error extracting sources: " ++ msg) state, [])
        end
  end.

(** The compiled graph: [load_transcript -> retrieve_chunks ->
    generate_answer -> extract_sources]. *)
Definition lecture_qa_workflow : stage LectureProcessingState :=
  seq_stage load_transcript_node
    (seq_stage retrieve_relevant_chunks
       (seq_stage generate_answer_node extract_sources_node)).

(** [run_lecture_qa]: the initial state and the workflow on it. *)
Definition initial_qa_state (lecture_id question : string) : LectureProcessingState :=
  mkQA lecture_id None (Some question) [] None [] None [].

Definition run_lecture_qa (lecture_id question : string)
  : LectureProcessingState * list call :=
  lecture_qa_workflow (initial_qa_state lecture_id question).

(** *** The multi-lecture search workflow *)

(** [search_lecture_node]: any exception gives the empty list. *)
Definition search_lecture_node (state : Multi.MultiLectureState) (lecture_id : string)
  : list SearchResult * list call :=
  let name := collection_name lecture_id in
  match get_collection_info name with
  | None => ([], [GetCollectionInfo name])
  | Some _ =>
      match similarity_search name (Multi.query state) TOP_K with
      | Raise _ => ([], [GetCollectionInfo name; SimilaritySearch name (Multi.query state) TOP_K])
      | Ok docs =>
          let calls := [GetCollectionInfo name; SimilaritySearch name (Multi.query state) TOP_K;
                        LoadTranscript lecture_id] in
          match load_transcript lecture_id with
          | Raise _ => ([], calls)
          | Ok None => ([], calls)
          | Ok (Some t) =>
              if PyStr.falsy t then ([], calls)
              else
                match parse_transcript_with_timestamps t with
                | Raise _ => ([], calls)
                | Ok segments =>
                    match collect_results lecture_id segments docs [] with
                    | (found, None) => (found, calls)
                    | (_, Some _) => ([], calls)
                    end
                end
          end
      end
  end.

(** The loop of [search_all_lectures_node] over the lecture ids. *)
Fixpoint search_lectures (state : Multi.MultiLectureState) (ids : list string)
  (all_results : list SearchResult) (calls : list call)
  : list SearchResult * list call :=
  match ids with
  | [] => (all_results, calls)
  | lecture_id :: rest =>
      let (found, made) := search_lecture_node state lecture_id in
      search_lectures state rest (all_results ++ found) (calls ++ made)
  end.

Definition search_all_lectures_node : stage Multi.MultiLectureState := fun state =>
  let (all_results, calls) := search_lectures state (Multi.lecture_ids state) [] [] in
  (Multi.set_results (rank all_results 20) state, calls).

(** [f"Lecture {result['lecture_id']} ({result['video_timestamp']}): {result['text']}"] *)
Definition result_line (r : SearchResult) : string :=
  "Lecture " ++ res_lecture_id r ++ " (" ++ res_video_timestamp r ++ "): " ++ res_text r.

Definition consolidate_answer_node : stage Multi.MultiLectureState := fun state =>
  match Multi.results state with
  | [] =>
      (Multi.set_consolidated_answer "No relevant information found across the lectures."
         state, [])
  | _ =>
      let top_results := firstn 10 (Multi.results state) in
      let context := PyStr.join para (map result_line top_results) in
      let prompt := consolidate_prompt (Multi.query state) context in
      match llm_invoke prompt with
      | Ok response =>
          (Multi.set_consolidated_answer (PyStr.strip response) state, [LlmInvoke prompt])
      | Raise msg =>
          (Multi.set_error ("Error consolidating answer: " ++ msg) state, [LlmInvoke prompt])
      end
  end.

Definition multi_lecture_search_workflow : stage Multi.MultiLectureState :=
  seq_stage search_all_lectures_node consolidate_answer_node.

(** *** The summarization workflow: its transcript and summary stages *)

Definition load_transcript_for_summary : stage Summarization.SummarizationState :=
  fun state =>
  let id := Summarization.lecture_id state in
  let calls := [LoadTranscript id] in
  match load_transcript id with
  | Ok (Some t) =>
      if PyStr.falsy t
      then (Summarization.set_error ("Transcript not found for lecture " ++ id) state, calls)
      else (Summarization.set_transcript t state, calls)
  | Ok None =>
      (Summarization.set_error ("Transcript not found for lecture " ++ id) state, calls)
  | Raise msg => (Summarization.set_error ("Error loading transcript: " ++ msg) state, calls)
  end.

Definition generate_summary_node : stage Summarization.SummarizationState := fun state =>
  match Summarization.transcript state with
  | None => (Summarization.set_error "No transcript available for summarization" state, [])
  | Some t =>
      if PyStr.falsy t
      then (Summarization.set_error "No transcript available for summarization" state, [])
      else
        let prompt := summary_prompt t in
        match llm_invoke prompt with
        | Ok response => (Summarization.set_summary (PyStr.strip response) state,
                          [LlmInvoke prompt])
        | Raise msg => (Summarization.set_error ("Error generating summary: " ++ msg) state,
                        [LlmInvoke prompt])
        end
  end.

End Backends.

End Workflows.

(** ** [rag.py] *)

Module Rag.
Import Timestamp Citation.

Definition ask_prompt (transcript question : string) : string :=
  "
    Based on the following lecture transcript, please answer the user's question comprehensively.
    Use the full transcript context to provide a detailed and accurate answer.
    
    Lecture Transcript:
    "
  ++ transcript
  ++ "
    
    User Question: "
  ++ question
  ++ "
    
    Please provide a comprehensive answer based on the lecture content above:
    ".

Section Backends.

Variable load_transcript : string -> result (option string).

(** [vector_store.similarity_search(question, k=5)] *)
Variable vector_store_search : string -> nat -> result (list Document).

Variable llm_invoke : string -> result string.

(** [ask_question]: what it returns or raises, and the backend calls. *)
Definition ask_question (question lecture_id : string)
  : result (string * list Source) * list call :=
  match load_transcript lecture_id with
  | Raise msg => (Raise msg, [LoadTranscript lecture_id])
  | Ok loaded =>
      if PyStr.falsy_opt loaded
      then (Ok ("Transcript not found for this lecture.", []), [LoadTranscript lecture_id])
      else
        let transcript := match loaded with Some t => t | None => EmptyString end in
        let relevant_chunks :=
          match vector_store_search question 5 with
          | Ok docs => map page_content docs
          | Raise _ => fallback_chunks transcript
          end in
        let prompt := ask_prompt transcript question in
        let answer :=
          match llm_invoke prompt with
          | Ok response => PyStr.strip response
          | Raise msg => "Error generating answer: " ++ msg
          end in
        (do segments <- parse_transcript_with_timestamps transcript;
         do sources <- collect_sources segments relevant_chunks [];
         Ok (answer, sources),
         [LoadTranscript lecture_id; VectorStoreSearch question 5; LlmInvoke prompt])
  end.

End Backends.

End Rag.

(** ** [multi_lecture_search.py] *)

Module MultiLectureSearch.
Import Timestamp Citation.

Section Backends.

Variable load_transcript : string -> result (option string).
Variable CollectionInfo : Type.
Variable get_collection_info : string -> option CollectionInfo.
Variable similarity_search : string -> string -> nat -> result (list Document).

(** The body of the loop over lectures: an exception ends the iteration
    and keeps what was appended before it. *)
Definition search_one (query lecture_id : string) (all_results : list SearchResult)
  : list SearchResult :=
  let name := Workflows.collection_name lecture_id in
  match get_collection_info name with
  | None => all_results
  | Some _ =>
      match similarity_search name query TOP_K with
      | Raise _ => all_results
      | Ok docs =>
          match load_transcript lecture_id with
          | Ok (Some t) =>
              if PyStr.falsy t then all_results
              else
                match parse_transcript_with_timestamps t with
                | Raise _ => all_results
                | Ok segments => fst (collect_results lecture_id segments docs all_results)
                end
          | _ => all_results
          end
      end
  end.

(** [search_multiple_lectures] *)
Definition search_multiple_lectures (query : string) (lecture_ids : list string)
  (limit : nat) : list SearchResult :=
  rank (fold_left (fun all_results lecture_id => search_one query lecture_id all_results)
                  lecture_ids [])
       limit.

End Backends.

End MultiLectureSearch.

(** ** [api/routes/lectures.py]: [generate_chunked_summary] *)

Module Summary.

Definition group_size : nat := 3.

Definition short_prompt (transcript : string) : string :=
  "
        Please provide a concise summary of the following lecture transcript:
        
        "
  ++ transcript
  ++ "
        
        Summary:
        ".

Definition chunk_prompt (i n : nat) (chunk : string) : string :=
  "
        Please provide a concise summary of this part of a lecture transcript (Part "
  ++ PyStr.of_nat (i + 1)
  ++ " of "
  ++ PyStr.of_nat n
  ++ "):
        
        "
  ++ chunk
  ++ "
        
        Summary of this part:
        ".

Definition combine_prompt (combined_chunks : string) : string :=
  "
        Please create a coherent, comprehensive summary from these partial summaries of a lecture:
        
        "
  ++ combined_chunks
  ++ "
        
        Final Summary:
        ".

Definition group_prompt (i : nat) (group_text : string) : string :=
  "
            Please combine these partial summaries into a coherent summary (Section "
  ++ PyStr.of_nat (i / group_size + 1)
  ++ "):
            
            "
  ++ group_text
  ++ "
            
            Combined Summary:
            ".

Definition final_prompt (sections : string) : string :=
  "
        Please create a final, comprehensive summary from these section summaries:
        
        "
  ++ sections
  ++ "
        
        Final Summary:
        ".

(** One iteration of the chunking loop, entered with
    [start < len(transcript)]: the chunk appended, and the next [start]
    unless the loop breaks. *)
Definition chunk_step (transcript : string) (start : Z) : string * option Z :=
  let end_ := start + 3500 in
  if PyStr.len transcript <=? end_ then
    (PyStr.slice_Z start (PyStr.len transcript) transcript, None)
  else
    let chunk_text := PyStr.slice_Z start end_ transcript in
    let last_period := PyStr.rfind ". " chunk_text in
    let last_question := PyStr.rfind "? " chunk_text in
    let last_exclamation := PyStr.rfind "! " chunk_text in
    let break_point := Z.max (Z.max last_period last_question) last_exclamation in
    let end_ := if start + 1000 <? break_point then start + break_point + 2 else end_ in
    (PyStr.slice_Z start end_ transcript, Some (end_ - 500)).

(** The [while start < len(transcript)] loop; [None] when the fuel runs
    out before the loop ends. *)
Fixpoint chunk_loop (fuel : nat) (transcript : string) (start : Z) (chunks : list string)
  : option (list string) :=
  if start <? PyStr.len transcript then
    match fuel with
    | O => None
    | S fuel' =>
        match chunk_step transcript start with
        | (chunk, None) => Some (chunks ++ [chunk])%list
        | (chunk, Some next) => chunk_loop fuel' transcript next (chunks ++ [chunk])%list
        end
    end
  else Some chunks.

Definition split_transcript (transcript : string) : option (list string) :=
  chunk_loop (String.length transcript) transcript 0 [].

(** [enumerate(l)] *)
Definition enumerate {A} (l : list A) : list (nat * A) := combine (seq 0 (List.length l)) l.

(** [[l[i:i+group_size] for i in range(0, len(l), group_size)]], with [i]. *)
Definition groups_of (l : list string) : list (nat * list string) :=
  map (fun i => (i, firstn group_size (skipn i l))) (PyStr.range0 (List.length l) group_size).

Section Backends.

Variable llm_invoke : string -> result string.

(** A pass: the prompts sent one after the other, each answer stripped;
    the first exception ends the pass. *)
Fixpoint invoke_all (prompts : list string) (answers : list string) (calls : list call)
  : result (list string) * list call :=
  match prompts with
  | [] => (Ok answers, calls)
  | prompt :: rest =>
      match llm_invoke prompt with
      | Ok response =>
          invoke_all rest (answers ++ [PyStr.strip response]) (calls ++ [LlmInvoke prompt])
      | Raise msg => (Raise msg, calls ++ [LlmInvoke prompt])%list
      end
  end.

Definition invoke_one (prompt : string) (calls : list call) : result string * list call :=
  (match llm_invoke prompt with
   | Ok response => Ok (PyStr.strip response)
   | Raise msg => Raise msg
   end, calls ++ [LlmInvoke prompt])%list.

(** [generate_chunked_summary]; [None] only if the chunking loop ran out
    of fuel. *)
Definition generate_chunked_summary (transcript : string)
  : option (result string * list call) :=
  if PyStr.len transcript <=? 4000 then Some (invoke_one (short_prompt transcript) [])
  else
    match split_transcript transcript with
    | None => None
    | Some chunks =>
        let chunk_prompts :=
          map (fun '(i, chunk) => chunk_prompt i (List.length chunks) chunk) (enumerate chunks) in
        match invoke_all chunk_prompts [] [] with
        | (Raise msg, calls) => Some (Raise msg, calls)
        | (Ok chunk_summaries, calls) =>
            let combined_chunks := PyStr.join Workflows.para chunk_summaries in
            if PyStr.len combined_chunks <=? 4000 then
              Some (invoke_one (combine_prompt combined_chunks) calls)
            else
              let group_prompts :=
                map (fun '(i, group) => group_prompt i (PyStr.join Workflows.para group))
                    (groups_of chunk_summaries) in
              match invoke_all group_prompts [] calls with
              | (Raise msg, calls) => Some (Raise msg, calls)
              | (Ok mid_summaries, calls) =>
                  let sections :=
                    PyStr.join_chars (String PyStr.nl EmptyString)
                      (PyStr.join (String PyStr.nl EmptyString) mid_summaries) in
                  Some (invoke_one (final_prompt sections) calls)
              end
        end
    end.

End Backends.

End Summary.

(** ** Python lists and text, as the rest of the code uses them *)

Module PyList.

(** [l[:k]] for any integer [k]: a negative [k] counts from the end. *)
Definition take {A} (k : Z) (l : list A) : list A :=
  let n := Z.of_nat (List.length l) in
  firstn (Z.to_nat (if k <? 0 then Z.max 0 (k + n) else k)) l.

(** [l[:k]] for an [Optional[int]]: [None] keeps the list. *)
Definition take_opt {A} (k : option Z) (l : list A) : list A :=
  match k with
  | Some k => take k l
  | None => l
  end.

(** [l[::step]] for [0 < step]: the elements at the multiples of [step];
    [skip] elements are passed over before the next one is kept. *)
Fixpoint every_from {A} (skip step : nat) (l : list A) : list A :=
  match l with
  | [] => []
  | x :: r =>
      match skip with
      | O => x :: every_from (step - 1) step r
      | S k => every_from k step r
      end
  end.

Definition every {A} (step : nat) (l : list A) : list A := every_from 0 step l.

(** [l.sort(key=..., reverse=True)] for an integer key: stable, largest
    key first. *)
Fixpoint insert_desc {A} (key : A -> nat) (x : A) (l : list A) : list A :=
  match l with
  | [] => [x]
  | y :: l' => if (key x <? key y)%nat then y :: insert_desc key x l' else x :: l
  end.

Definition sort_desc {A} (key : A -> nat) (l : list A) : list A :=
  fold_right (insert_desc key) [] l.

(** [x in l] for strings. *)
Definition mem (x : string) (l : list string) : bool := existsb (String.eqb x) l.

(** [set(l)]: the distinct elements. *)
Definition set_of (l : list string) : list string := nodup string_dec l.

(** [set(a) - set(b)] *)
Definition set_minus (a b : list string) : list string :=
  filter (fun x => negb (mem x b)) (set_of a).

(** [len(a.intersection(b))] for sets [a] and [b]. *)
Definition intersection_size (a b : list string) : nat :=
  List.length (filter (fun x => mem x b) a).

(** [repr(l)] for a list of strings. *)
Definition repr (l : list string) : string :=
  "[" ++ PyStr.join ", " (map PyStr.repr l) ++ "]".

End PyList.

Module PyText.

(** [str.lower] on code points below 256: the letters [A-Z] and the
    capital letters of Latin-1, the multiplication sign left out. *)
Definition lower_char (c : ascii) : ascii :=
  let n := PyStr.code c in
  if ((65 <=? n) && (n <=? 90)) || ((192 <=? n) && (n <=? 222) && negb (n =? 215))
  then ascii_of_N (Z.to_N (n + 32))
  else c.

Fixpoint lower (s : string) : string :=
  match s with
  | String c r => String (lower_char c) (lower r)
  | EmptyString => EmptyString
  end.

(** [s.split()]: the maximal runs without whitespace; [word] is the run
    being read. *)
Fixpoint words_from (word s : string) : list string :=
  match s with
  | EmptyString => if PyStr.falsy word then [] else [word]
  | String c r =>
      if PyStr.is_space c
      then (if PyStr.falsy word then words_from EmptyString r
            else word :: words_from EmptyString r)
      else words_from (word ++ String c EmptyString) r
  end.

Definition words (s : string) : list string := words_from EmptyString s.

(** [s.count(c)] for a character. *)
Fixpoint count (c : ascii) (s : string) : nat :=
  match s with
  | String a r => ((if Ascii.eqb a c then 1 else 0) + count c r)%nat
  | EmptyString => O
  end.

End PyText.

(** ** [timestamp_service.py]: the keyword search *)

Module Keyword.
Import Timestamp.

(** [set(s.lower().split())] *)
Definition word_set (s : string) : list string :=
  PyList.set_of (PyText.words (PyText.lower s)).

(** [len(query_words.intersection(segment_words))] *)
Definition overlap (query_words : list string) (segment : TimestampSegment) : nat :=
  PyList.intersection_size query_words (word_set (text segment)).

(** The loop over the segments: those that share a word with the query,
    each with its overlap, in the order of the transcript. *)
Fixpoint score_segments (query_words : list string) (segments : list TimestampSegment)
  : list (TimestampSegment * nat) :=
  match segments with
  | [] => []
  | segment :: rest =>
      if (0 <? overlap query_words segment)%nat
      then (segment, overlap query_words segment) :: score_segments query_words rest
      else score_segments query_words rest
  end.

(** [find_relevant_segments] *)
Definition find_relevant_segments (query : string) (segments : list TimestampSegment)
  (max_segments : Z) : list TimestampSegment :=
  let query_words := word_set query in
  let scored_segments := PyList.sort_desc snd (score_segments query_words segments) in
  map fst (PyList.take max_segments scored_segments).

End Keyword.

(** ** [format(value, spec)] for a string value

    What a replacement field [{value:spec}] of an f-string evaluates to.
    The specification is read as
    [[[fill]align][sign][z][#][0][width][grouping][.precision][type]];
    what is left after the optional parts is the one-character type or
    nothing. *)

Module PyFormat.

Definition is_alignment_token (c : ascii) : bool :=
  Ascii.eqb c "<" || Ascii.eqb c ">" || Ascii.eqb c "=" || Ascii.eqb c "^".

Definition is_sign_element (c : ascii) : bool :=
  Ascii.eqb c " " || Ascii.eqb c "+" || Ascii.eqb c "-".

(** An optional one-character flag at the head of the specification. *)
Definition flag (c : ascii) (s : string) : bool * string :=
  match s with
  | String a r => if Ascii.eqb a c then (true, r) else (false, s)
  | EmptyString => (false, s)
  end.

(** The decimal digits at the head of the specification, if any. *)
Fixpoint get_integer (acc : option Z) (s : string) : option Z * string :=
  match s with
  | String c r =>
      if PyStr.is_digit c
      then get_integer (Some (10 * match acc with Some n => n | None => 0 end
                              + PyStr.digit_val c)) r
      else (acc, s)
  | EmptyString => (acc, s)
  end.

Definition PY_SSIZE_T_MAX : Z := 2 ^ 63 - 1.

Definition too_large (n : option Z) : bool :=
  match n with
  | Some n => PY_SSIZE_T_MAX <? n
  | None => false
  end.

Record InternalFormatSpec : Type := mkSpec {
  fill_char : ascii;
  align : ascii;
  sign : option ascii;
  no_neg_0 : bool;
  alternate : bool;
  width : option Z;
  precision : option Z;
  type : ascii
}.

Definition char_text (c : ascii) : string :=
  let n := PyStr.code c in
  if (32 <? n) && (n <? 128) then String c EmptyString
  else "\x" ++ (if n <? 16 then EmptyString else String (PyStr.hex_digit (n / 16)) EmptyString)
            ++ String (PyStr.hex_digit (n mod 16)) EmptyString.

(** The parser of the specification, for a string value: the default
    alignment is to the left and the default type is [s]. *)
Definition parse (spec : string) : result InternalFormatSpec :=
  let '(fill_char, align, fill_char_specified, s) :=
    match spec with
    | String f (String a r) =>
        if is_alignment_token a then (f, a, true, r)
        else if is_alignment_token f then (" "%char, f, false, String a r)
        else (" "%char, "<"%char, false, spec)
    | String f EmptyString =>
        if is_alignment_token f then (" "%char, f, false, EmptyString)
        else (" "%char, "<"%char, false, spec)
    | EmptyString => (" "%char, "<"%char, false, spec)
    end in
  let '(sign, s) :=
    match s with
    | String c r => if is_sign_element c then (Some c, r) else (None, s)
    | EmptyString => (None, s)
    end in
  let '(no_neg_0, s) := flag "z" s in
  let '(alternate, s) := flag "#" s in
  let '(fill_char, s) :=
    if fill_char_specified then (fill_char, s)
    else let '(zero, r) := flag "0" s in ((if zero then "0"%char else fill_char), r) in
  let '(width, s) := get_integer None s in
  if too_large width then Raise "Too many decimal digits in format string"
  else
  let '(comma, s) := flag "," s in
  let '(underscore, s') := flag "_" s in
  if underscore && comma then Raise "Cannot specify both ',' and '_'."
  else if underscore && fst (flag "," s') then Raise "Cannot specify both ',' and '_'."
  else
  do (precision, s) <-
    match flag "." s' with
    | (true, r) =>
        match get_integer None r with
        | (None, _) => Raise "Format specifier missing precision"
        | (Some p, r') =>
            if too_large (Some p) then Raise "Too many decimal digits in format string"
            else Ok (Some p, r')
        end
    | (false, r) => Ok (None, r)
    end;
  if (1 <? String.length s)%nat then
    Raise ("Invalid format specifier '" ++ spec ++ "' for object of type 'str'")
  else
    let type := match s with String c _ => c | EmptyString => "s"%char end in
    if (comma || underscore)
       && negb (existsb (Ascii.eqb type) ["d"; "e"; "f"; "g"; "E"; "G"; "%"; "F"]%char
                || (underscore && existsb (Ascii.eqb type) ["b"; "o"; "x"; "X"]%char))
    then Raise ("Cannot specify '" ++ (if comma then "," else "_") ++ "' with '"
                ++ char_text type ++ "'.")
    else Ok (mkSpec fill_char align sign no_neg_0 alternate width precision type).

Fixpoint pad (n : nat) (c : ascii) : string :=
  match n with
  | O => EmptyString
  | S k => String c (pad k c)
  end.

(** The rendering of a string under a parsed specification. *)
Definition format_string_internal (value : string) (format : InternalFormatSpec)
  : result string :=
  match sign format with
  | Some c =>
      if Ascii.eqb c " " then Raise "Space not allowed in string format specifier"
      else Raise "Sign not allowed in string format specifier"
  | None =>
      if no_neg_0 format
      then Raise "Negative zero coercion (z) not allowed in string format specifier"
      else if alternate format
      then Raise "Alternate form (#) not allowed in string format specifier"
      else if Ascii.eqb (align format) "="
      then Raise "'=' alignment not allowed in string format specifier"
      else
        let len := PyStr.len value in
        let len := match precision format with
                   | Some p => Z.min len p
                   | None => len
                   end in
        let total := match width format with
                     | Some w => Z.max len w
                     | None => len
                     end in
        let lpad := if Ascii.eqb (align format) ">" then total - len
                    else if Ascii.eqb (align format) "^" then (total - len) / 2
                    else 0 in
        let rpad := total - len - lpad in
        Ok (pad (Z.to_nat lpad) (fill_char format)
            ++ PyStr.slice 0 (Z.to_nat len) value
            ++ pad (Z.to_nat rpad) (fill_char format))
  end.

(** [format(value, spec)] *)
Definition format_str (value spec : string) : result string :=
  if PyStr.falsy spec then Ok value
  else
    do format <- parse spec;
    if Ascii.eqb (type format) "s" then format_string_internal value format
    else Raise ("Unknown format code '" ++ char_text (type format)
                ++ "' for object of type 'str'").

End PyFormat.

(** ** [langgraph_workflows.py]: the topic and timestamp stages and the
    entry point of the multi-lecture search *)

Module Insights.
Import Timestamp Citation Workflows.
Import Summarization.

Definition set_key_topics (l : list string) (s : SummarizationState) :=
  mkSummarization (lecture_id s) (transcript s) (summary s) l (timestamps s) (error s).
Definition set_timestamps (l : list (string * string)) (s : SummarizationState) :=
  mkSummarization (lecture_id s) (transcript s) (summary s) (key_topics s) l (error s).

Definition topics_prompt (transcript : string) : string :=
  "
        Based on the following lecture transcript, extract the main topics and key concepts discussed.
        Return them as a comma-separated list.
        
        Transcript:
        "
  ++ transcript
  ++ "
        
        Key topics:
        ".

(** [max(1, len(segments)//20)] *)
Definition sample_step (n : nat) : nat := Nat.max 1 (n / 20).

(** [segments[::max(1, len(segments)//20)]] *)
Definition sample_segments (segments : list TimestampSegment) : list TimestampSegment :=
  PyList.every (sample_step (List.length segments)) segments.

(** [f"{segment.start_str}: {segment.text[:200]}..."] *)
Definition segment_line (segment : TimestampSegment) : string :=
  start_str segment ++ ": " ++ PyStr.slice 0 200 (text segment) ++ "...".

Definition quoted (s : string) : string :=
  String PyStr.dquote (s ++ String PyStr.dquote EmptyString).

(** The text between the braces that follow [format: [] in the prompt of
    the timestamp stage: the string literal ["timestamp"], a colon, and
    the rest, which is the format specification of the field. *)
Definition json_example_value : string := "timestamp".
Definition json_example_spec : string :=
  " " ++ quoted "MM:SS" ++ ", " ++ quoted "description" ++ ": " ++ quoted "Description".

(** The prompt of the timestamp stage, an f-string with two replacement
    fields, evaluated from left to right. *)
Definition timestamps_prompt (segment_texts : list string) : result string :=
  let joined := PyStr.join (String PyStr.nl EmptyString) segment_texts in
  do example <- PyFormat.format_str json_example_value json_example_spec;
  Ok ("
        Based on these lecture segments, identify the most important moments that would be valuable for quick navigation.
        Look for topic introductions, key definitions, important examples, or conclusions.
        
        Segments:
        "
      ++ joined
      ++ "
        
        Return the important timestamps as a JSON array with format: ["
      ++ example
      ++ "]
        ").

Section Backends.

Variable load_transcript : string -> result (option string).
Variable CollectionInfo : Type.
Variable get_collection_info : string -> option CollectionInfo.
Variable similarity_search : string -> string -> nat -> result (list Document).
Variable llm_invoke : string -> result string.

(** [json.loads(response)] as the list of timestamps it decodes to;
    [None] for a [JSONDecodeError]. *)
Variable json_loads : string -> option (list (string * string)).

Definition extract_key_topics_node : stage SummarizationState := fun state =>
  match transcript state with
  | None => (state, [])
  | Some t =>
      if PyStr.falsy t then (state, [])
      else
        let prompt := topics_prompt t in
        match llm_invoke prompt with
        | Ok response =>
            (set_key_topics (map PyStr.strip (PyStr.split "," response)) state,
             [LlmInvoke prompt])
        | Raise msg =>
            (set_error ("Error extracting topics: " ++ msg) state, [LlmInvoke prompt])
        end
  end.

Definition extract_important_timestamps_node : stage SummarizationState := fun state =>
  match transcript state with
  | None => (state, [])
  | Some t =>
      if PyStr.falsy t then (state, [])
      else
        match (do segments <- parse_transcript_with_timestamps t;
               timestamps_prompt (map segment_line (sample_segments segments))) with
        | Raise msg => (set_error ("Error extracting timestamps: " ++ msg) state, [])
        | Ok prompt =>
            match llm_invoke prompt with
            | Ok response =>
                (set_timestamps (match json_loads response with
                                 | Some decoded => decoded
                                 | None => []
                                 end) state, [LlmInvoke prompt])
            | Raise msg =>
                (set_error ("Error extracting timestamps: " ++ msg) state,
                 [LlmInvoke prompt])
            end
        end
  end.

(** [run_multi_lecture_search]: the initial state and the workflow on it. *)
Definition initial_search_state (query : string) (lecture_ids : list string)
  : Multi.MultiLectureState :=
  Multi.mkMulti query lecture_ids [] None None.

Definition run_multi_lecture_search (query : string) (lecture_ids : list string)
  : Multi.MultiLectureState * list call :=
  multi_lecture_search_workflow load_transcript CollectionInfo get_collection_info
    similarity_search
    llm_invoke (initial_search_state query lecture_ids).

End Backends.

End Insights.

(** ** [api/routes/lectures.py]: the routes over a lecture's transcript *)

Module Routes.
Import Timestamp Citation Workflows.

(** What a route gives back: the body it returns, the [HTTPException]
    it raises, or another exception that leaves it. *)
Inductive response (A : Type) : Type :=
| Respond (body : A)
| HTTPException (status_code : nat) (detail : string)
| Uncaught (msg : string).
Arguments Respond {A} body.
Arguments HTTPException {A} status_code detail.
Arguments Uncaught {A} msg.

(** A [TranscriptSegment] has the fields of a [TimestampSegment]. *)
Record TranscriptResponse : Type := mkTranscriptResponse {
  segments : list TimestampSegment;
  total_duration : float
}.

(** The dictionaries of [search_transcript] have the keys of a [Source]. *)
Record TranscriptSearch : Type := mkTranscriptSearch {
  search_results : list Source;
  search_query : string;
  search_total_found : nat
}.

(** The dictionary [ask] returns; [answer] is [None] when the workflow
    left it unset. *)
Record Answer : Type := mkAnswer {
  answer : option string;
  sources : list Source
}.

Record MultiLectureSearchResponse : Type := mkMultiLectureSearchResponse {
  results : list SearchResult;
  consolidated_answer : option string;
  total_found : nat;
  query : string
}.

(** [segments[-1].end_time if segments else 0.0] *)
Definition duration_of (segments : list TimestampSegment) : float :=
  match segments with
  | [] => 0%float
  | _ => end_time (List.last segments (mkSegment 0 0 EmptyString EmptyString EmptyString))
  end.

(** The dictionary built for a segment found by the keyword search. *)
Definition hit_of (seg : TimestampSegment) : Source :=
  mkSource (text seg) (start_time seg) (end_time seg) (start_str seg) (end_str seg)
           (start_str seg).

(** [qdrant_store.similarity_search(question, k=5)], as [ask_question]
    calls the store [load_index] returns: [question] is taken for the
    collection name and the parameter [query] has no argument, so the
    call raises a [TypeError] before the store is reached. *)
Definition similarity_search_without_query (question : string) (k : nat)
  : result (list Document) :=
  Raise "QdrantVectorStore.similarity_search() missing 1 required positional argument: 'query'".

Section Backends.

(** [verify_lecture_ownership(db, lecture_id, user_id)] *)
Variable verify_lecture_ownership : string -> nat -> bool.

(** [get_user_lecture_ids(db, user_id)] *)
Variable get_user_lecture_ids : nat -> list string.

(** The order in which [list] iterates a set of strings, given its
    elements. *)
Variable set_order : list string -> list string.

Variable load_transcript : string -> result (option string).
Variable CollectionInfo : Type.
Variable get_collection_info : string -> option CollectionInfo.
Variable similarity_search : string -> string -> nat -> result (list Document).
Variable llm_invoke : string -> result string.

(** [get_transcript] *)
Definition get_transcript (lecture_id : string) (user_id : nat)
  : response TranscriptResponse * list call :=
  if negb (verify_lecture_ownership lecture_id user_id)
  then (HTTPException 403 "Access denied", [])
  else
    let calls := [LoadTranscript lecture_id] in
    match load_transcript lecture_id with
    | Raise msg => (Uncaught msg, calls)
    | Ok loaded =>
        if PyStr.falsy_opt loaded then (HTTPException 404 "Transcript not found", calls)
        else
          let transcript := match loaded with Some t => t | None => EmptyString end in
          match parse_transcript_with_timestamps transcript with
          | Raise msg => (Uncaught msg, calls)
          | Ok segments =>
              (Respond (mkTranscriptResponse segments (duration_of segments)), calls)
          end
    end.

(** [search_transcript] *)
Definition search_transcript (lecture_id q : string) (limit : Z) (user_id : nat)
  : response TranscriptSearch * list call :=
  if negb (verify_lecture_ownership lecture_id user_id)
  then (HTTPException 403 "Access denied", [])
  else
    let calls := [LoadTranscript lecture_id] in
    match load_transcript lecture_id with
    | Raise msg => (Uncaught msg, calls)
    | Ok loaded =>
        if PyStr.falsy_opt loaded then (HTTPException 404 "Transcript not found", calls)
        else
          let transcript := match loaded with Some t => t | None => EmptyString end in
          match parse_transcript_with_timestamps transcript with
          | Raise msg => (Uncaught msg, calls)
          | Ok segments =>
              let relevant_segments := Keyword.find_relevant_segments q segments limit in
              let results := map hit_of relevant_segments in
              (Respond (mkTranscriptSearch results q (List.length results)), calls)
          end
    end.

(** The fallback of [ask]: [ask_question] on the store of [load_index]. *)
Definition ask_fallback (question lecture_id : string)
  : result (string * list Source) * list call :=
  Rag.ask_question load_transcript similarity_search_without_query llm_invoke
    question lecture_id.

(** [ask]: the workflow, [ask_question] when it reports an error, and
    [ask_question] once more when that raised. *)
Definition ask (lecture_id question : string) (user_id : nat)
  : response Answer * list call :=
  if negb (verify_lecture_ownership lecture_id user_id)
  then (HTTPException 403 "Access denied", [])
  else
    let (final, calls) :=
      run_lecture_qa load_transcript CollectionInfo get_collection_info similarity_search
        llm_invoke lecture_id question in
    if negb (PyStr.falsy_opt (QA.error final)) then
      match ask_fallback question lecture_id with
      | (Ok (answer, sources), made) =>
          (Respond (mkAnswer (Some answer) sources), calls ++ made)%list
      | (Raise _, made) =>
          match ask_fallback question lecture_id with
          | (Ok (answer, sources), again) =>
              (Respond (mkAnswer (Some answer) sources), calls ++ made ++ again)%list
          | (Raise msg, again) => (Uncaught msg, calls ++ made ++ again)%list
          end
      end
    else (Respond (mkAnswer (QA.answer final) (QA.sources final)), calls).

(** [multi_lecture_search] *)
Definition multi_lecture_search (query : string) (lecture_ids : list string)
  (limit : option Z) (user_id : nat)
  : response MultiLectureSearchResponse * list call :=
  let user_lecture_ids := get_user_lecture_ids user_id in
  let invalid_lectures := PyList.set_minus lecture_ids user_lecture_ids in
  match invalid_lectures with
  | _ :: _ =>
      (HTTPException 403
         ("Access denied to lectures: " ++ PyList.repr (set_order invalid_lectures)), [])
  | [] =>
      let (final, calls) :=
        Insights.run_multi_lecture_search load_transcript CollectionInfo
          get_collection_info similarity_search llm_invoke query lecture_ids in
      if negb (PyStr.falsy_opt (Multi.error final))
      then (HTTPException 500
              (match Multi.error final with Some e => e | None => EmptyString end), calls)
      else
        (Respond (mkMultiLectureSearchResponse
                    (PyList.take_opt limit (Multi.results final))
                    (Multi.consolidated_answer final)
                    (List.length (Multi.results final))
                    query), calls)
  end.

End Backends.

End Routes.

(** ** [pdf_generator.py] *)

Module Pdf.
Import Timestamp.

Definition PDF_DIR : string := "data/pdfs".

(** What the generator does, call by call: the directory it makes and
    the calls on the [LecturePDF] object. *)
Inductive effect : Type :=
| MakeDirs (path : string)
| AddPage
| SetFont (family style : string) (size : Z)
| SetFillColor (r g b : Z)
| Cell (w h : Z) (txt : string) (border ln : Z) (align : string) (fill : bool)
| MultiCell (w h : Z) (txt : string)
| Ln (h : option Z)
| Output (path : string).

(** [LecturePDF.chapter_body] *)
Definition chapter_body (body : string) : list effect :=
  [SetFont "Arial" EmptyString 11; MultiCell 0 5 body; Ln None].

(** [parse_timestamp_line]: the pattern of the parser. *)
Definition parse_timestamp_line (line : string) : option (string * string * string) :=
  match_line line.

(** [os.path.join(PDF_DIR, filename)] *)
Definition path_join (dir filename : string) : string :=
  match filename with
  | String "/" _ => filename
  | _ => dir ++ "/" ++ filename
  end.

(** The state of the loop over the lines: the lines gathered for the
    segment being read, the segments counted, the calls made. *)
Definition loop_state : Type := (list string * Z * list effect)%type.

(** One iteration of the loop of [generate_transcript_pdf]. *)
Definition pdf_line (state : loop_state) (line : string) : loop_state :=
  let '(current_segment, segment_count, effects) := state in
  match parse_timestamp_line line with
  | Some (start_time, end_time, text) =>
      let effects :=
        match current_segment with
        | [] => effects
        | _ => effects ++ chapter_body (PyStr.join (String PyStr.nl EmptyString)
                                                   current_segment)
        end%list in
      let effects :=
        (effects ++ [SetFont "Arial" "B" 10; SetFillColor 240 240 240;
                     Cell 0 8 ("Timestamp: " ++ start_time ++ " - " ++ end_time)
                          0 1 "L" true;
                     SetFont "Arial" EmptyString 11])%list in
      let segment_count := segment_count + 1 in
      ([text], segment_count,
       if segment_count mod 10 =? 0 then (effects ++ [AddPage])%list else effects)
  | None => ((current_segment ++ [line])%list, segment_count, effects)
  end.

(** [generate_transcript_pdf]: the path it returns and what it did.  The
    two texts are what [datetime.now().strftime] gives at its two calls,
    for the file name and for the title page. *)
Definition generate_transcript_pdf (stamp_name stamp_title : string)
  (transcript lecture_id : string) (filename : option string)
  : string * list effect :=
  let filename :=
    if PyStr.falsy_opt filename
    then "lecture_" ++ lecture_id ++ "_" ++ stamp_name ++ ".pdf"
    else match filename with Some f => f | None => EmptyString end in
  let pdf_path := path_join PDF_DIR filename in
  let title :=
    [MakeDirs PDF_DIR; AddPage;
     SetFont "Arial" "B" 16;
     Cell 0 10 ("Lecture Transcript - " ++ lecture_id) 0 1 "C" false;
     SetFont "Arial" "I" 10;
     Cell 0 8 ("Generated on " ++ stamp_title) 0 1 "C" false;
     Ln (Some 10)] in
  let '(current_segment, _, effects) :=
    fold_left pdf_line (lines_of transcript) ([], 0, title) in
  let effects :=
    match current_segment with
    | [] => effects
    | _ => effects ++ chapter_body (PyStr.join (String PyStr.nl EmptyString)
                                               current_segment)
    end%list in
  (pdf_path, (effects ++ [Output pdf_path])%list).

(** [generate_summary_pdf] *)
Definition generate_summary_pdf (stamp_name stamp_title : string)
  (summary lecture_id : string) (filename : option string)
  : string * list effect :=
  let filename :=
    if PyStr.falsy_opt filename
    then "summary_" ++ lecture_id ++ "_" ++ stamp_name ++ ".pdf"
    else match filename with Some f => f | None => EmptyString end in
  let pdf_path := path_join PDF_DIR filename in
  (pdf_path,
   [MakeDirs PDF_DIR; AddPage;
    SetFont "Arial" "B" 16;
    Cell 0 10 ("Lecture Summary - " ++ lecture_id) 0 1 "C" false;
    SetFont "Arial" "I" 10;
    Cell 0 8 ("Generated on " ++ stamp_title) 0 1 "C" false;
    Ln (Some 15);
    SetFont "Arial" EmptyString 12;
    MultiCell 0 8 summary;
    Output pdf_path]).

End Pdf.

(* ================================================================== *)
(** * Vocabulary of the properties *)

Module TimestampSpec.
Import Timestamp.

(** The shape [dd:dd:dd.dd] of a timestamp. *)
Inductive timestamp_shape : string -> Prop :=
| shape_intro (h1 h2 m1 m2 s1 s2 c1 c2 : ascii) :
    PyStr.is_digit h1 = true -> PyStr.is_digit h2 = true ->
    PyStr.is_digit m1 = true -> PyStr.is_digit m2 = true ->
    PyStr.is_digit s1 = true -> PyStr.is_digit s2 = true ->
    PyStr.is_digit c1 = true -> PyStr.is_digit c2 = true ->
    timestamp_shape
      (String h1 (String h2 (String ":" (String m1 (String m2 (String ":"
      (String s1 (String s2 (String "." (String c1 (String c2 EmptyString))))))))))).

(** [sep] does not occur in [s]. *)
Fixpoint free_of (sep : ascii) (s : string) : bool :=
  match s with
  | String c r => negb (Ascii.eqb c sep) && free_of sep r
  | EmptyString => true
  end.

(** A text that [.+] takes whole: not empty, no newline. *)
Definition one_line (t : string) : Prop :=
  t <> EmptyString /\ free_of PyStr.nl t = true.

(** The line [[a - b] t] of the pattern. *)
Definition timestamped_line (a b t : string) : string :=
  "[" ++ a ++ " - " ++ b ++ "] " ++ t.

(** A line of the pattern [[HH:MM:SS.cc - HH:MM:SS.cc] text]. *)
Definition matches_pattern (line : string) : Prop :=
  exists a b t, timestamp_shape a /\ timestamp_shape b /\ one_line t
                /\ line = timestamped_line a b t.

(** The segment of a line of the pattern. *)
Definition segment_of (a b t : string) (seg : TimestampSegment) : Prop :=
  time_to_seconds a = Ok (start_time seg) /\ time_to_seconds b = Ok (end_time seg)
  /\ text seg = t /\ start_str seg = a /\ end_str seg = b.

(** The parse the specification describes: one segment for each line of
    the pattern, in the order of the lines; any other line gives nothing. *)
Inductive line_by_line : list string -> list TimestampSegment -> Prop :=
| lbl_nil : line_by_line [] []
| lbl_segment (a b t : string) (seg : TimestampSegment) lines segs :
    timestamp_shape a -> timestamp_shape b -> one_line t ->
    segment_of a b t seg ->
    line_by_line lines segs ->
    line_by_line (timestamped_line a b t :: lines) (seg :: segs)
| lbl_drop (line : string) lines segs :
    ~ matches_pattern line ->
    line_by_line lines segs ->
    line_by_line (line :: lines) segs.

(** [time_to_seconds] written over the four fields of a timestamp. *)
Definition seconds_of_fields (h m s c : Z) : result float :=
  do frac <- PyFloat.int_truediv c 100;
  do whole <- PyFloat.of_int (h * 3600 + m * 60 + s);
  Ok (whole + frac)%float.

Definition field (a b : ascii) : Z := 10 * PyStr.digit_val a + PyStr.digit_val b.

(** The timestamp [HH:MM:SS.cc] of four fields. *)
Definition timestamp_of (h m s c : Z) : string :=
  PyStr.of_Z_02d h ++ ":" ++ PyStr.of_Z_02d m ++ ":" ++ PyStr.of_Z_02d s
  ++ "." ++ PyStr.of_Z_02d c.

(** [seconds_to_time(time_to_seconds(s)) == s] *)
Definition round_trips (s : string) : bool :=
  match (do seconds <- time_to_seconds s; seconds_to_time seconds) with
  | Ok s' => String.eqb s s'
  | Raise _ => false
  end.

(** The centiseconds [cc] for which [HH:MM:SS.cc] does not come back. *)
Definition lost_centiseconds (h m s : Z) : list Z :=
  filter (fun c => negb (round_trips (timestamp_of h m s c))) (map Z.of_nat (seq 0 100)).

Definition NL : string := String PyStr.nl EmptyString.

(** The transcript of the specification's parser example. *)
Definition example_transcript : string :=
  "[00:00:01.00 - 00:00:02.50] Hello" ++ NL ++ "garbage" ++ NL
  ++ "[00:00:02.50 - 00:00:03.00] World".

End TimestampSpec.

Module RankSpec.
Import Citation.

(** [a] may stand before [b] when results are ranked by falling score. *)
Definition by_score_desc (a b : SearchResult) : Prop :=
  (sort_key b <= sort_key a)%Q.

End RankSpec.

Module WorkflowSpec.
Import Timestamp Citation Workflows Workflows.QA.

(** A chunk that some segment overlaps. *)
Definition has_match (segments : list TimestampSegment) (chunk : string) : bool :=
  match first_match chunk segments with
  | Some _ => true
  | None => false
  end.

(** The citation of a result, as the multi-lecture search fills it in
    when no segment matches. *)
Definition empty_citation (r : SearchResult) : Prop :=
  res_start_time r = 0%float /\ res_end_time r = 0%float
  /\ res_start_str r = "00:00:00.00" /\ res_end_str r = "00:00:00.00"
  /\ res_video_timestamp r = "0s".

(** *** A lecture of one line, for the examples *)

Definition one_line_transcript : string := "[00:00:01.00 - 00:00:02.50] Hello".

Definition hello_segment : TimestampSegment :=
  mkSegment 1 2.5 "Hello" "00:00:01.00" "00:00:02.50".

Definition hello_source : Source :=
  mkSource "Hello" 1 2.5 "00:00:01.00" "00:00:02.50" "1s".

(** Backends of the examples: every lecture has the one-line transcript,
    the model answers ["An answer."], the store returns the two documents
    ["Hello"] (score 0.9) and ["Goodbye"] (score 0.7). *)
Definition transcript_found (lecture_id : string) : result (option string) :=
  Ok (Some one_line_transcript).

Definition transcript_missing (lecture_id : string) : result (option string) :=
  Ok None.

Definition model_answers (prompt : string) : result string := Ok "An answer.".

Definition two_documents : list Document :=
  [mkDocument "Hello" (Some (9 # 10)); mkDocument "Goodbye" (Some (7 # 10))].

Definition store_finds (collection_name query : string) (k : nat)
  : result (list Document) := Ok two_documents.

Definition vector_store_finds (query : string) (k : nat) : result (list Document) :=
  Ok two_documents.

Definition no_collection (collection_name : string) : option unit := None.

Definition every_collection (collection_name : string) : option unit := Some tt.

(** The state after retrieval returned the two documents. *)
Definition two_chunk_state : LectureProcessingState :=
  mkQA "L1" (Some one_line_transcript) (Some "What is said?") ["Hello"; "Goodbye"]
       None [] None [].

(** The state after [load_transcript_node] found no transcript. *)
Definition failed_state : LectureProcessingState :=
  mkQA "L1" None (Some "What is said?") [] None []
       (Some "Transcript not found for lecture L1") [].

(** *** Two lectures, for the ranking example: lecture B scores 0.7 and is
    searched first, lecture A scores 0.9. *)
Definition scores_by_lecture (collection_name query : string) (k : nat)
  : result (list Document) :=
  if String.eqb collection_name "lecture_A"
  then Ok [mkDocument "Hello" (Some (9 # 10))]
  else Ok [mkDocument "Hello" (Some (7 # 10))].

Definition ranking_state : Multi.MultiLectureState :=
  Multi.mkMulti "Hello" ["B"; "A"] [] None None.

Definition result_of_lecture (lecture_id : string) (s : Q) : SearchResult :=
  mkResult lecture_id "Hello" 1 2.5 "00:00:01.00" "00:00:02.50" "1s" (Some s).

(** *** A long transcript without a sentence boundary, for the summary *)

Fixpoint repeat_char (c : ascii) (n : nat) : string :=
  match n with
  | O => EmptyString
  | S n' => String c (repeat_char c n')
  end.

Definition long_transcript : string := repeat_char "a" 5000.

End WorkflowSpec.

Module SummarySpec.

(** The calls of a summary of [n] chunks that nothing interrupted: a pass
    over the chunks or none, then a pass over the groups of three or none
    (and none without the first), then the final call. *)
Definition three_passes (n : nat) (calls : list call) : Prop :=
  exists per_chunk grouped final,
    calls = map LlmInvoke (per_chunk ++ grouped ++ [final])
    /\ (per_chunk = [] \/ List.length per_chunk = n)
    /\ (grouped = []
        \/ (List.length per_chunk = n /\ List.length grouped = ((n + 2) / 3)%nat)).

End SummarySpec.

Module TextSpec.

(** Every character of [s] satisfies [p]. *)
Fixpoint all_chars (p : ascii -> bool) (s : string) : bool :=
  match s with
  | String c r => p c && all_chars p r
  | EmptyString => true
  end.

(** A character that is not whitespace. *)
Definition solid (c : ascii) : bool := negb (PyStr.is_space c).

End TextSpec.

Module ChunkSpec.

(** [chunk[500:]]: a chunk without the characters it repeats. *)
Definition after_overlap (chunk : string) : string :=
  PyStr.slice_Z 500 (PyStr.len chunk) chunk.

(** The chunks put together again: the first whole, each later one
    without its first 500 characters. *)
Definition reassemble (chunks : list string) : string :=
  match chunks with
  | [] => EmptyString
  | chunk :: rest => chunk ++ String.concat EmptyString (map after_overlap rest)
  end.

(** What the chunking loop has gathered when it is at [start]: nothing
    yet, or chunks that cover the transcript up to [start + 500]. *)
Definition covered (transcript : string) (start : Z) (chunks : list string) : Prop :=
  match chunks with
  | [] => start = 0
  | _ => reassemble chunks = String.substring 0 (Z.to_nat (start + 500)) transcript
         /\ start + 500 <= PyStr.len transcript
  end.

End ChunkSpec.

Module KeywordSpec.
Import Timestamp Keyword.

(** The number of distinct words a segment shares with the query. *)
Definition shared (query : string) (segment : TimestampSegment) : nat :=
  overlap (word_set query) segment.

(** [a] may stand before [b] when segments are ranked by falling overlap. *)
Definition by_overlap_desc (query : string) (a b : TimestampSegment) : Prop :=
  (shared query b <= shared query a)%nat.

(** The segments that share exactly [k] words with the query, in order. *)
Definition sharing (query : string) (k : nat) (segments : list TimestampSegment)
  : list TimestampSegment :=
  filter (fun segment => (shared query segment =? k)%nat) segments.

End KeywordSpec.

Module TraceSpec.

(** The calls to the language model in a trace. *)
Definition llm_calls (calls : list call) : list call :=
  filter (fun c => match c with LlmInvoke _ => true | _ => false end) calls.

(** The loads of a transcript in a trace. *)
Definition transcript_loads (calls : list call) : list call :=
  filter (fun c => match c with LoadTranscript _ => true | _ => false end) calls.

End TraceSpec.

Module RouteSpec.
Import Timestamp Transcription.

(** *** A lecture as [transcribe] saves it, and who owns what *)

Definition whisper_segments : list WhisperSegment :=
  [mkWhisper 0 2.5 " Hello"; mkWhisper 2.5 7.25 " World"].

Definition transcript_transcribed (lecture_id : string) : result (option string) :=
  Ok (Some (transcribe whisper_segments)).

Definition transcript_unreadable (lecture_id : string) : result (option string) :=
  Raise "Permission denied".

(** User 1 owns the lectures A and B, nobody else owns anything. *)
Definition lectures_of (user_id : nat) : list string :=
  if (user_id =? 1)%nat then ["A"; "B"] else [].

Definition owns (lecture_id : string) (user_id : nat) : bool :=
  PyList.mem lecture_id (lectures_of user_id).

Definition in_order (elements : list string) : list string := elements.

(** The last element of a list, when it has one. *)
Definition last_of {A} (l : list A) : option A :=
  match l with
  | [] => None
  | x :: r => Some (List.last r x)
  end.

End RouteSpec.

Module SpellSpec.
Import Summary.

(** Every second character of a text, from the first on. *)
Fixpoint every_other (s : string) : string :=
  match s with
  | String c (String _ r) => String c (every_other r)
  | _ => s
  end.

(** A text with a newline at every second place. *)
Definition one_per_line (s : string) : Prop :=
  forall k, (2 * k + 1 < String.length s)%nat ->
            String.get (2 * k + 1) s = Some PyStr.nl.

(** The prompts of the pass over the chunks and of the pass over the
    groups of partial summaries, as [generate_chunked_summary] builds
    them. *)
Definition chunk_prompts (chunks : list string) : list string :=
  map (fun '(i, chunk) => chunk_prompt i (List.length chunks) chunk) (enumerate chunks).

Definition group_prompts (chunk_summaries : list string) : list string :=
  map (fun '(i, group) => group_prompt i (PyStr.join Workflows.para group))
      (groups_of chunk_summaries).

(** A model that answers every prompt with 2500 letters. *)
Definition model_rambles (prompt : string) : result string :=
  Ok (WorkflowSpec.repeat_char "b" 2500).

End SpellSpec.

Module ClockSpec.
Import Timestamp.

(** [HH:MM:SS.00] for a whole number of seconds, in integer arithmetic. *)
Definition clock_of (n : Z) : string :=
  PyStr.of_Z_02d (n / 3600) ++ ":" ++ PyStr.of_Z_02d (n mod 3600 / 60) ++ ":"
  ++ PyStr.of_Z_02d (n mod 60) ++ ".00".

(** The player's form of a whole number of seconds, in integer arithmetic. *)
Definition video_of (n : Z) : string :=
  let h := n / 3600 in
  let m := n mod 3600 / 60 in
  let s := n mod 60 in
  if 0 <? h then PyStr.of_Z h ++ "h" ++ PyStr.of_Z m ++ "m" ++ PyStr.of_Z s ++ "s"
  else if 0 <? m then PyStr.of_Z m ++ "m" ++ PyStr.of_Z s ++ "s"
  else PyStr.of_Z s ++ "s".

Definition result_is (r : result string) (s : string) : bool :=
  match r with
  | Ok s' => String.eqb s' s
  | Raise _ => false
  end.

(** Both formatters, on the float of [n], give what integer arithmetic gives. *)
Definition formats_exactly (n : Z) : bool :=
  match PyFloat.of_int n with
  | Ok x => result_is (seconds_to_time x) (clock_of n)
            && result_is (format_timestamp_for_video x) (video_of n)
  | Raise _ => false
  end.

(** [f] holds on the [count] integers from [n] on. *)
Fixpoint holds_from (count : nat) (n : Z) (f : Z -> bool) : bool :=
  match count with
  | O => true
  | S k => f n && holds_from k (n + 1) f
  end.

End ClockSpec.

Module FieldSpec.

(** The number that a string of digits writes, after [acc]. *)
Fixpoint digits_value (acc : Z) (s : string) : Z :=
  match s with
  | String c r => digits_value (10 * acc + PyStr.digit_val c) r
  | EmptyString => acc
  end.

Definition number (s : string) : Z := digits_value 0 s.

(** A field of digits: not empty, digits only. *)
Definition digits (s : string) : Prop :=
  s <> EmptyString /\ TextSpec.all_chars PyStr.is_digit s = true.

End FieldSpec.

Module PdfSpec.
Import Timestamp Pdf.

(** The lines of text written in the bodies, in order. *)
Definition body_lines (effects : list effect) : list string :=
  flat_map (fun e => match e with
                     | MultiCell _ _ txt => PyStr.split PyStr.nl txt
                     | _ => []
                     end) effects.

(** The timestamp headers written, in order. *)
Definition headers (effects : list effect) : list string :=
  flat_map (fun e => match e with
                     | Cell _ 8 txt _ _ "L" _ => [txt]
                     | _ => []
                     end) effects.

(** The page breaks. *)
Definition page_breaks (effects : list effect) : nat :=
  List.length (filter (fun e => match e with AddPage => true | _ => false end) effects).

(** What a line contributes to a body: its text when it is of the
    pattern, the line itself otherwise. *)
Definition line_text (line : string) : string :=
  match match_line line with
  | Some (_, _, text) => text
  | None => line
  end.

(** The header of a segment. *)
Definition header_of (seg : TimestampSegment) : string :=
  "Timestamp: " ++ start_str seg ++ " - " ++ end_str seg.

End PdfSpec.

(* ================================================================== *)
(** * Properties *)

(** ** The timestamp parser *)

Module TimestampFacts.
Import Timestamp TimestampSpec.

Lemma append_assoc (a b c : string) : (a ++ b) ++ c = a ++ (b ++ c).
Proof. induction a as [|x a IH]; cbn [append]; [reflexivity | now rewrite IH]. Qed.

Lemma digit_cases (c : ascii) :
  PyStr.is_digit c = true ->
  In c ["0"; "1"; "2"; "3"; "4"; "5"; "6"; "7"; "8"; "9"]%char.
Proof.
  destruct c as [[|] [|] [|] [|] [|] [|] [|] [|]]; cbv; intros H;
    try discriminate H; tauto.
Qed.

Lemma digit_not (c x : ascii) :
  PyStr.is_digit c = true -> PyStr.is_digit x = false -> Ascii.eqb c x = false.
Proof.
  intros Hc Hx. destruct (Ascii.eqb_spec c x) as [->|]; congruence.
Qed.

Lemma digit_val_range (c : ascii) :
  PyStr.is_digit c = true -> 0 <= PyStr.digit_val c <= 9.
Proof.
  unfold PyStr.is_digit, PyStr.digit_val. intros H.
  apply andb_true_iff in H as [H1 H2]. lia.
Qed.

(** [int] on a two-digit field. *)
Lemma int_two_digits (a b : ascii) :
  PyStr.is_digit a = true -> PyStr.is_digit b = true ->
  PyStr.int (String a (String b EmptyString)) = Ok (field a b).
Proof.
  intros Ha Hb.
  apply digit_cases in Ha; apply digit_cases in Hb.
  repeat (destruct Ha as [<-|Ha]; [|]); try contradiction;
    repeat (destruct Hb as [<-|Hb]; [|]); try contradiction; reflexivity.
Qed.

Lemma split_free (sep : ascii) (p : string) :
  free_of sep p = true -> PyStr.split sep p = [p].
Proof.
  induction p as [|c p IH]; cbn [free_of PyStr.split]; [reflexivity|].
  intros H. apply andb_true_iff in H as [Hc Hp].
  apply negb_true_iff in Hc. rewrite Hc, (IH Hp). reflexivity.
Qed.

Lemma split_app (sep : ascii) (p r : string) :
  free_of sep p = true ->
  PyStr.split sep (p ++ String sep r) = p :: PyStr.split sep r.
Proof.
  induction p as [|c p IH]; cbn [free_of PyStr.split append].
  - intros _. now rewrite Ascii.eqb_refl.
  - intros H. apply andb_true_iff in H as [Hc Hp].
    apply negb_true_iff in Hc. rewrite Hc, (IH Hp). reflexivity.
Qed.

(** The pieces of a split hold no separator. *)
Lemma split_pieces_free (sep : ascii) (s : string) :
  Forall (fun p => free_of sep p = true) (PyStr.split sep s).
Proof.
  induction s as [|c s IH]; cbn [PyStr.split].
  - now repeat constructor.
  - destruct (Ascii.eqb c sep) eqn:Hc.
    + now constructor.
    + destruct (PyStr.split sep s) as [|p ps].
      * repeat constructor. cbn [free_of]. now rewrite Hc.
      * inversion IH as [|? ? Hp Hps]; subst.
        constructor; [|assumption]. cbn [free_of]. now rewrite Hc, Hp.
Qed.

Lemma free_of_two (sep a b : ascii) :
  PyStr.is_digit a = true -> PyStr.is_digit b = true -> PyStr.is_digit sep = false ->
  free_of sep (String a (String b EmptyString)) = true.
Proof.
  intros Ha Hb Hs. cbn [free_of].
  now rewrite (digit_not a sep Ha Hs), (digit_not b sep Hb Hs).
Qed.

Lemma time_to_seconds_fields (h1 h2 m1 m2 s1 s2 c1 c2 : ascii) :
  PyStr.is_digit h1 = true -> PyStr.is_digit h2 = true ->
  PyStr.is_digit m1 = true -> PyStr.is_digit m2 = true ->
  PyStr.is_digit s1 = true -> PyStr.is_digit s2 = true ->
  PyStr.is_digit c1 = true -> PyStr.is_digit c2 = true ->
  time_to_seconds
    (String h1 (String h2 (String ":" (String m1 (String m2 (String ":"
    (String s1 (String s2 (String "." (String c1 (String c2 EmptyString)))))))))))
  = seconds_of_fields (field h1 h2) (field m1 m2) (field s1 s2) (field c1 c2).
Proof.
  intros H1 H2 H3 H4 H5 H6 H7 H8.
  pose (hh := String h1 (String h2 EmptyString)).
  pose (mm := String m1 (String m2 EmptyString)).
  pose (ss := String s1 (String s2 EmptyString)).
  pose (cc := String c1 (String c2 EmptyString)).
  assert (Hparts : PyStr.split ":" (hh ++ String ":" (mm ++ String ":" (ss ++ String "." cc)))
                   = [hh; mm; ss ++ String "." cc]).
  { rewrite !split_app by (now apply free_of_two).
    rewrite split_free; [reflexivity|].
    subst ss cc. cbn [append free_of].
    rewrite (digit_not s1 ":"), (digit_not s2 ":"), (digit_not c1 ":"), (digit_not c2 ":")
      by (assumption || reflexivity).
    reflexivity. }
  assert (Hsecs : PyStr.split "." (ss ++ String "." cc) = [ss; cc]).
  { rewrite split_app by (now apply free_of_two).
    rewrite split_free by (now apply free_of_two). reflexivity. }
  unfold time_to_seconds.
  change (PyStr.split ":" _)
    with (PyStr.split ":" (hh ++ String ":" (mm ++ String ":" (ss ++ String "." cc)))).
  rewrite Hparts. cbn [PyStr.index nth_error rbind].
  rewrite Hsecs. cbn [PyStr.index nth_error rbind List.length].
  subst hh mm ss cc.
  rewrite !int_two_digits by assumption.
  reflexivity.
Qed.

Lemma field_range (a b : ascii) :
  PyStr.is_digit a = true -> PyStr.is_digit b = true -> 0 <= field a b <= 99.
Proof.
  intros Ha Hb. unfold field.
  pose proof (digit_val_range a Ha). pose proof (digit_val_range b Hb). lia.
Qed.

(** On two-digit fields no conversion overflows. *)
Lemma seconds_of_fields_total (h m s c : Z) :
  0 <= h <= 99 -> 0 <= m <= 99 -> 0 <= s <= 99 -> 0 <= c <= 99 ->
  exists f, seconds_of_fields h m s c = Ok f.
Proof.
  intros Hh Hm Hs Hc. unfold seconds_of_fields, PyFloat.of_int, PyFloat.int_truediv.
  assert (Hbig : 1048576 < PyFloat.overflow_bound) by (vm_compute; reflexivity).
  destruct (Z.ltb_spec (Z.abs (h * 3600 + m * 60 + s)) PyFloat.overflow_bound) as [_|Hge];
    [|exfalso; lia].
  destruct (Z.ltb_spec (Z.abs c) (PyFloat.overflow_bound * 100)) as [_|Hge];
    [|exfalso; lia].
  cbn [rbind]. eauto.
Qed.

(** [time_to_seconds] raises nothing on a timestamp. *)
Lemma time_to_seconds_total (ts : string) :
  timestamp_shape ts -> exists f, time_to_seconds ts = Ok f.
Proof.
  intros [h1 h2 m1 m2 s1 s2 c1 c2 H1 H2 H3 H4 H5 H6 H7 H8].
  rewrite time_to_seconds_fields by assumption.
  apply seconds_of_fields_total; auto using field_range.
Qed.

(** *** The matcher and the shape of a line *)

Lemma lit_inv (p s r : string) : lit p s = Some r -> s = p ++ r.
Proof.
  revert s; induction p as [|a p IH]; intros s; cbn [lit append].
  - now intros [= ->].
  - destruct s as [|b s]; [discriminate|].
    destruct (Ascii.eqb_spec a b) as [->|]; [|discriminate].
    intros H. now rewrite (IH _ H).
Qed.

Lemma lit_app (p r : string) : lit p (p ++ r) = Some r.
Proof.
  induction p as [|a p IH]; cbn [lit append]; [reflexivity|].
  now rewrite Ascii.eqb_refl.
Qed.

Lemma two_digits_inv (s d r : string) :
  two_digits s = Some (d, r) ->
  exists a b, PyStr.is_digit a = true /\ PyStr.is_digit b = true /\
              d = String a (String b EmptyString) /\ s = String a (String b r).
Proof.
  destruct s as [|a [|b s]]; cbn [two_digits]; try discriminate.
  destruct (PyStr.is_digit a) eqn:Ha, (PyStr.is_digit b) eqn:Hb;
    cbn [andb]; try discriminate.
  intros [= <- <-]. exists a, b. auto.
Qed.

Lemma match_timestamp_inv (s ts r : string) :
  match_timestamp s = Some (ts, r) -> timestamp_shape ts /\ s = ts ++ r.
Proof.
  unfold match_timestamp, obind. intros H.
  destruct (two_digits s) as [[h r1]|] eqn:E1; [|discriminate].
  destruct (lit ":" r1) as [r2|] eqn:E2; [|discriminate].
  destruct (two_digits r2) as [[m r3]|] eqn:E3; [|discriminate].
  destruct (lit ":" r3) as [r4|] eqn:E4; [|discriminate].
  destruct (two_digits r4) as [[sec r5]|] eqn:E5; [|discriminate].
  destruct (lit "." r5) as [r6|] eqn:E6; [|discriminate].
  destruct (two_digits r6) as [[cc r7]|] eqn:E7; [|discriminate].
  injection H as <- <-.
  apply two_digits_inv in E1 as (h1 & h2 & ? & ? & -> & ->).
  apply two_digits_inv in E3 as (m1 & m2 & ? & ? & -> & ->).
  apply two_digits_inv in E5 as (s1 & s2 & ? & ? & -> & ->).
  apply two_digits_inv in E7 as (c1 & c2 & ? & ? & -> & ->).
  apply lit_inv in E2 as ->. apply lit_inv in E4 as ->. apply lit_inv in E6 as ->.
  split; [now constructor | reflexivity].
Qed.

Lemma match_timestamp_shape (ts r : string) :
  timestamp_shape ts -> match_timestamp (ts ++ r) = Some (ts, r).
Proof.
  intros [h1 h2 m1 m2 s1 s2 c1 c2 H1 H2 H3 H4 H5 H6 H7 H8].
  unfold match_timestamp.
  repeat (cbn [append two_digits andb obind lit];
          rewrite ?Ascii.eqb_refl, ?H1, ?H2, ?H3, ?H4, ?H5, ?H6, ?H7, ?H8).
  reflexivity.
Qed.

Lemma free_of_app (sep : ascii) (p r : string) :
  free_of sep (p ++ r) = free_of sep p && free_of sep r.
Proof.
  induction p as [|c p IH]; cbn [append free_of]; [reflexivity|].
  now rewrite IH, andb_assoc.
Qed.

Lemma until_newline_free (t : string) :
  free_of PyStr.nl t = true -> until_newline t = t.
Proof.
  induction t as [|c t IH]; cbn [free_of until_newline]; [reflexivity|].
  intros H. apply andb_true_iff in H as [Hc Ht].
  apply negb_true_iff in Hc. now rewrite Hc, (IH Ht).
Qed.

(** Every line of the pattern matches, with the groups read off. *)
Lemma match_line_shape (a b t : string) :
  timestamp_shape a -> timestamp_shape b -> one_line t ->
  match_line (timestamped_line a b t) = Some (a, b, t).
Proof.
  intros Ha Hb [Hne Hfree]. unfold match_line, timestamped_line.
  rewrite lit_app. cbn [obind].
  rewrite (match_timestamp_shape a _ Ha). cbn [obind].
  rewrite lit_app. cbn [obind].
  rewrite (match_timestamp_shape b _ Hb). cbn [obind].
  rewrite lit_app. cbn [obind].
  unfold dot_plus. rewrite (until_newline_free t Hfree).
  destruct t; [contradiction|reflexivity].
Qed.

(** On a line without a newline, a match is a line of the pattern. *)
Lemma match_line_inv (line a b t : string) :
  free_of PyStr.nl line = true ->
  match_line line = Some (a, b, t) ->
  timestamp_shape a /\ timestamp_shape b /\ one_line t /\ line = timestamped_line a b t.
Proof.
  unfold match_line, obind. intros Hline H.
  destruct (lit "[" line) as [r1|] eqn:E1; [|discriminate].
  destruct (match_timestamp r1) as [[a' r2]|] eqn:E2; [|discriminate].
  destruct (lit " - " r2) as [r3|] eqn:E3; [|discriminate].
  destruct (match_timestamp r3) as [[b' r4]|] eqn:E4; [|discriminate].
  destruct (lit "] " r4) as [r5|] eqn:E5; [|discriminate].
  destruct (dot_plus r5) as [t'|] eqn:E6; [|discriminate].
  injection H as <- <- <-.
  apply lit_inv in E1 as ->. apply match_timestamp_inv in E2 as [Ha ->].
  apply lit_inv in E3 as ->. apply match_timestamp_inv in E4 as [Hb ->].
  apply lit_inv in E5 as ->.
  rewrite !free_of_app in Hline.
  repeat (apply andb_true_iff in Hline as [? Hline]).
  unfold dot_plus in E6. rewrite (until_newline_free r5 Hline) in E6.
  destruct r5 as [|c r5]; [discriminate|]. injection E6 as <-.
  repeat split; auto. discriminate.
Qed.

Lemma match_line_none (line : string) :
  match_line line = None -> ~ matches_pattern line.
Proof.
  intros Hnone (a & b & t & Ha & Hb & Ht & ->).
  rewrite (match_line_shape a b t Ha Hb Ht) in Hnone. discriminate.
Qed.

(** *** The loop of the parser *)

Lemma parse_lines_spec (lines : list string) :
  Forall (fun l => free_of PyStr.nl l = true) lines ->
  forall acc, exists segs,
    parse_lines acc lines = Ok (acc ++ segs)%list /\ line_by_line lines segs.
Proof.
  induction 1 as [|line lines Hline _ IH]; intros acc; cbn [parse_lines].
  - exists []. rewrite app_nil_r. split; [reflexivity | constructor].
  - unfold parse_line.
    destruct (match_line line) as [[[a b] t]|] eqn:Hm.
    + destruct (match_line_inv line a b t Hline Hm) as (Ha & Hb & Ht & ->).
      destruct (time_to_seconds_total a Ha) as [ts Hts].
      destruct (time_to_seconds_total b Hb) as [te Hte].
      rewrite Hts, Hte. cbn [rbind].
      destruct (IH (acc ++ [mkSegment ts te t a b])%list) as (segs & Hsegs & Hlbl).
      exists (mkSegment ts te t a b :: segs). split.
      * rewrite Hsegs, <- app_assoc. reflexivity.
      * constructor; auto. repeat split; assumption.
    + cbn [rbind]. destruct (IH acc) as (segs & Hsegs & Hlbl).
      exists segs. split; [assumption|].
      apply lbl_drop; [now apply match_line_none | assumption].
Qed.

Lemma parse_spec (transcript : string) :
  exists segments,
    parse_transcript_with_timestamps transcript = Ok segments
    /\ line_by_line (lines_of transcript) segments.
Proof.
  destruct (parse_lines_spec (lines_of transcript) (split_pieces_free _ _) [])
    as (segs & Hsegs & Hlbl).
  exists segs. split; assumption.
Qed.

Lemma line_by_line_in (lines : list string) (segs : list TimestampSegment) :
  line_by_line lines segs ->
  forall seg, In seg segs ->
    exists a b t, In (timestamped_line a b t) lines
                  /\ timestamp_shape a /\ timestamp_shape b /\ one_line t
                  /\ segment_of a b t seg.
Proof.
  induction 1 as [|a b t seg0 lines segs Ha Hb Ht Hseg _ IH|line lines segs _ _ IH];
    intros seg Hin.
  - destruct Hin.
  - destruct Hin as [<-|Hin].
    + exists a, b, t. cbn [In]. auto 10.
    + destruct (IH seg Hin) as (a' & b' & t' & ? & ?).
      exists a', b', t'. cbn [In]. auto.
  - destruct (IH seg Hin) as (a' & b' & t' & ? & ?).
    exists a', b', t'. cbn [In]. auto.
Qed.

(** Joining lines and splitting again gives the lines back. *)
Lemma split_join (lines : list string) :
  lines <> [] ->
  Forall (fun l => free_of PyStr.nl l = true) lines ->
  PyStr.split PyStr.nl (PyStr.join NL lines) = lines.
Proof.
  intros Hne Hfree. induction Hfree as [|l lines Hl Hlines IH]; [contradiction|].
  destruct lines as [|l' lines]; cbn [PyStr.join String.concat].
  - now apply split_free.
  - unfold NL at 1. cbn [append].
    rewrite split_app by assumption. f_equal. apply IH. discriminate.
Qed.

(** The segment of a line is determined by the line. *)
Lemma segment_of_unique (a b t : string) (seg seg' : TimestampSegment) :
  segment_of a b t seg -> segment_of a b t seg' -> seg = seg'.
Proof.
  intros (Hs & He & Ht & Ha & Hb) (Hs' & He' & Ht' & Ha' & Hb').
  destruct seg, seg'; cbn in *. congruence.
Qed.

(** The line-by-line parse of a list of lines is unique. *)
Lemma line_by_line_unique (lines : list string) (segs segs' : list TimestampSegment) :
  line_by_line lines segs -> line_by_line lines segs' -> segs = segs'.
Proof.
  intros H. revert segs'.
  induction H as [|a b t seg lines segs Ha Hb Ht Hseg _ IH|line lines segs Hno _ IH];
    intros segs' H'.
  - now inversion H'.
  - inversion H' as [|a' b' t' seg' ? segs2 Ha' Hb' Ht' Hseg' Hrest Hline|? ? ? Hno' Hrest];
      subst.
    + assert (Hsame : timestamped_line a' b' t' = timestamped_line a b t)
        by (unfold timestamped_line; cbn [append]; now f_equal).
      pose proof (match_line_shape a b t Ha Hb Ht) as Hm.
      rewrite <- Hsame, (match_line_shape a' b' t' Ha' Hb' Ht') in Hm.
      injection Hm as -> -> ->.
      now rewrite (segment_of_unique _ _ _ _ _ Hseg Hseg'), (IH _ Hrest).
    + exfalso. apply Hno'. now exists a, b, t.
  - inversion H' as [|a' b' t' seg' ? segs2 Ha' Hb' Ht' Hseg' Hrest Hline|? ? ? Hno' Hrest];
      subst.
    + exfalso. apply Hno. now exists a', b', t'.
    + now apply IH.
Qed.

End TimestampFacts.

(** ** What [transcribe] writes *)

Module TranscriptionFacts.
Import Timestamp TimestampSpec TimestampFacts Transcription.

Lemma string_of_uint_free (d : Decimal.uint) :
  free_of ":" (NilEmpty.string_of_uint d) = true.
Proof. induction d; cbn [NilEmpty.string_of_uint free_of]; auto. Qed.

(** A printed integer holds no colon and is not empty. *)
Lemma of_Z_free (n : Z) :
  free_of ":" (PyStr.of_Z n) = true /\ PyStr.of_Z n <> EmptyString.
Proof.
  unfold PyStr.of_Z, NilZero.string_of_int.
  assert (Hu : forall d, free_of ":" (NilZero.string_of_uint d) = true
                         /\ NilZero.string_of_uint d <> EmptyString).
  { intros d. unfold NilZero.string_of_uint.
    destruct d; try (split; [reflexivity | discriminate]);
      (split; [apply (string_of_uint_free (_ d)) | discriminate]). }
  destruct (Z.to_int n) as [d|d]; [apply Hu|].
  split; [cbn [free_of]; apply Hu | discriminate].
Qed.

Lemma of_Z_02d_nonempty (n : Z) : PyStr.of_Z_02d n <> EmptyString.
Proof.
  unfold PyStr.of_Z_02d. destruct ((0 <=? n) && (n <? 10)).
  - discriminate.
  - apply of_Z_free.
Qed.

Lemma two_digits_not_digit (c : ascii) (s : string) :
  PyStr.is_digit c = false -> two_digits (String c s) = None.
Proof. intros H. destruct s; cbn [two_digits]; [reflexivity | now rewrite H]. Qed.

(** Digits, a point and at least one more character do not begin a
    timestamp: its third character is a colon. *)
Lemma no_timestamp_before_point (d t r : string) :
  free_of ":" d = true -> d <> EmptyString -> t <> EmptyString ->
  match_timestamp (d ++ "." ++ t ++ r) = None.
Proof.
  intros Hd Hne Ht. unfold match_timestamp.
  destruct d as [|d1 [|d2 d]]; [contradiction| |].
  - destruct t as [|t1 t]; [contradiction|].
    cbn [append two_digits]. now rewrite andb_false_r.
  - cbn [append two_digits].
    destruct (PyStr.is_digit d1 && PyStr.is_digit d2); [|reflexivity].
    cbn [obind]. cbn [free_of] in Hd.
    repeat (apply andb_true_iff in Hd as [_ Hd]).
    destruct d as [|d3 d]; cbn [append lit]; [reflexivity|].
    cbn [free_of] in Hd. apply andb_true_iff in Hd as [Hd3 _].
    apply negb_true_iff in Hd3. rewrite Ascii.eqb_sym, Hd3. reflexivity.
Qed.

(** No float printed with [.2f] begins a timestamp. *)
Lemma fmt_2f_no_timestamp (x : float) (r : string) :
  match_timestamp (PyFloat.fmt_2f x ++ r) = None.
Proof.
  unfold PyFloat.fmt_2f.
  destruct (Prim2SF x) as [s|s| |s m e];
    [destruct s; reflexivity | destruct s; reflexivity | reflexivity |].
  cbv zeta.
  match goal with |- context [PyStr.of_Z (?q / 100)] => set (c := q) end.
  destruct s.
  - cbn [append]. unfold match_timestamp.
    now rewrite two_digits_not_digit.
  - cbn [append]. rewrite !append_assoc.
    destruct (of_Z_free (c / 100)) as [Hfree Hne].
    apply no_timestamp_before_point; auto using of_Z_02d_nonempty.
Qed.

(** No line written by [transcribe] matches the pattern of the parser. *)
Lemma transcript_line_no_match (seg : WhisperSegment) :
  match_line (transcript_line seg) = None.
Proof.
  unfold match_line, transcript_line. cbn [append lit Ascii.eqb Bool.eqb obind].
  now rewrite fmt_2f_no_timestamp.
Qed.

End TranscriptionFacts.

(** ** The claims about the timestamp service *)

Section TimestampClaims.
Import Timestamp TimestampSpec TimestampFacts Transcription TranscriptionFacts.

(** C1.  The round trip fails on the code: [seconds_to_time] truncates
    [(secs - whole_seconds) * 100], and for ["00:00:00.29"] that product is
    [28.999999999999996], so the centiseconds come back as [28]; likewise
    ["12:34:56.78"] comes back as ["12:34:56.77"], while ["01:02:03.50"],
    whose fraction is a binary fraction, comes back unchanged.  Of the
    hundred timestamps [00:00:00.cc] three do not come back ([cc] = 29, 57,
    58), of the hundred [12:34:56.cc] forty-eight.  The
    docstring of [seconds_to_time] ("Convert seconds back to HH:MM:SS.ms
    format") states the round trip the claim asks for. *)
Theorem seconds_to_time_drops_a_centisecond :
  (do seconds <- time_to_seconds "00:00:00.29"; seconds_to_time seconds)
  = Ok "00:00:00.28"
  /\ (do seconds <- time_to_seconds "12:34:56.78"; seconds_to_time seconds)
     = Ok "12:34:56.77"
  /\ (do seconds <- time_to_seconds "01:02:03.50"; seconds_to_time seconds)
     = Ok "01:02:03.50"
  /\ lost_centiseconds 0 0 0 = [29; 57; 58]
  /\ List.length (lost_centiseconds 12 34 56) = 48%nat.
Proof. repeat split; vm_compute; reflexivity. Qed.



(** C8, as stated, fails: the parser never compares the two timestamps of
    a line, and a line whose end precedes its start gives a segment with
    [start_time > end_time]. *)
Lemma parse_keeps_reversed_interval :
  parse_transcript_with_timestamps "[00:00:05.00 - 00:00:01.00] x"
  = Ok [mkSegment 5 1 "x" "00:00:05.00" "00:00:01.00"]
  /\ (5 <=? 1)%float = false.
Proof. split; vm_compute; reflexivity. Qed.

(** C8, amended.  Every segment returned by
    [parse_transcript_with_timestamps] comes from a line
    [[start_str - end_str] text] of the transcript and has
    [start_time = time_to_seconds(start_str)] and
    [end_time = time_to_seconds(end_str)]: the two times are those written
    on the line, in the order written, and nothing orders them. *)
Theorem segment_times_are_those_of_its_line :
  forall transcript segments seg,
    parse_transcript_with_timestamps transcript = Ok segments ->
    In seg segments ->
    In (timestamped_line (start_str seg) (end_str seg) (text seg)) (lines_of transcript)
    /\ timestamp_shape (start_str seg) /\ timestamp_shape (end_str seg)
    /\ time_to_seconds (start_str seg) = Ok (start_time seg)
    /\ time_to_seconds (end_str seg) = Ok (end_time seg).
Proof.
  intros transcript segments seg Hparse Hin.
  destruct (parse_spec transcript) as (segs & Hsegs & Hlbl).
  rewrite Hparse in Hsegs. injection Hsegs as <-.
  destruct (line_by_line_in _ _ Hlbl seg Hin)
    as (a & b & t & Hline & Ha & Hb & _ & Hts & Hte & <- & <- & <-).
  auto.
Qed.

Lemma segment_times_are_those_of_its_line_witness :
  let seg := mkSegment 5 1 "x" "00:00:05.00" "00:00:01.00" in
  time_to_seconds (start_str seg) = Ok (start_time seg)
  /\ time_to_seconds (end_str seg) = Ok (end_time seg).
Proof.
  intros seg.
  assert (Hparse : parse_transcript_with_timestamps "[00:00:05.00 - 00:00:01.00] x"
                   = Ok [seg]) by (vm_compute; reflexivity).
  assert (Hin : In seg [seg]) by (left; reflexivity).
  destruct (segment_times_are_those_of_its_line _ _ _ Hparse Hin)
    as (_ & _ & _ & H1 & H2).
  split; assumption.
Defined.

(** C9.  The parser does not accept what [transcribe] writes: a line of
    [transcribe] carries its times as seconds with two decimals
    ([[0.00 - 2.50]  Hello]), never as [HH:MM:SS.cc], so no such line
    matches the pattern and the parse of a saved transcript is empty. *)
Theorem transcribed_lines_never_match :
  (forall seg, match_line (transcript_line seg) = None)
  /\ transcribe [mkWhisper 0 2.5 " Hello"; mkWhisper 2.5 7.25 " World"]
     = "[0.00 - 2.50]  Hello" ++ NL ++ "[2.50 - 7.25]  World"
  /\ parse_transcript_with_timestamps
       (transcribe [mkWhisper 0 2.5 " Hello"; mkWhisper 2.5 7.25 " World"])
     = Ok [].
Proof.
  split; [exact transcript_line_no_match|]. split; vm_compute; reflexivity.
Qed.

End TimestampClaims.

(** ** Ranking *)

Module RankFacts.
Import Citation RankSpec.

Lemma Qltb_true (a b : Q) : Qltb a b = true -> (a <= b)%Q.
Proof.
  unfold Qltb. intros H. apply negb_true_iff in H.
  destruct (Qlt_le_dec a b) as [Hlt|Hle]; [now apply Qlt_le_weak|].
  apply Qle_bool_iff in Hle. congruence.
Qed.

Lemma Qltb_false (a b : Q) : Qltb a b = false -> (b <= a)%Q.
Proof.
  unfold Qltb. intros H. apply negb_false_iff in H. now apply Qle_bool_iff.
Qed.

Lemma firstn_In {A} (n : nat) (l : list A) (x : A) : In x (firstn n l) -> In x l.
Proof.
  intros H. rewrite <- (firstn_skipn n l). apply in_or_app. now left.
Qed.

Lemma insert_desc_perm (x : SearchResult) (l : list SearchResult) :
  Permutation (x :: l) (insert_desc x l).
Proof.
  induction l as [|y l IH]; cbn [insert_desc]; [reflexivity|].
  destruct (Qltb (sort_key x) (sort_key y)); [|reflexivity].
  rewrite perm_swap. now constructor.
Qed.

Lemma sort_desc_perm (l : list SearchResult) : Permutation l (sort_desc l).
Proof.
  induction l as [|x l IH]; cbn [sort_desc fold_right]; [constructor|].
  fold (sort_desc l). rewrite <- insert_desc_perm. now constructor.
Qed.

Lemma insert_desc_sorted (x : SearchResult) (l : list SearchResult) :
  StronglySorted by_score_desc l -> StronglySorted by_score_desc (insert_desc x l).
Proof.
  induction 1 as [|y l Hsorted IH Hall]; cbn [insert_desc].
  - repeat constructor.
  - destruct (Qltb (sort_key x) (sort_key y)) eqn:Hxy.
    + constructor; [assumption|].
      apply (Permutation_Forall (insert_desc_perm x l)).
      constructor; [|assumption]. now apply Qltb_true.
    + apply Qltb_false in Hxy.
      constructor; [now constructor|].
      constructor; [assumption|].
      eapply Forall_impl; [|exact Hall].
      intros z Hz. unfold by_score_desc in *. now apply Qle_trans with (sort_key y).
Qed.

Lemma sort_desc_sorted (l : list SearchResult) :
  StronglySorted by_score_desc (sort_desc l).
Proof.
  induction l as [|x l IH]; cbn [sort_desc fold_right]; [constructor|].
  now apply insert_desc_sorted.
Qed.

Lemma firstn_sorted (n : nat) (l : list SearchResult) :
  StronglySorted by_score_desc l -> StronglySorted by_score_desc (firstn n l).
Proof.
  intros H. revert n. induction H as [|x l Hs IH Hall]; intros [|n]; cbn [firstn];
    try constructor; auto.
  apply Forall_forall. intros y Hy.
  rewrite Forall_forall in Hall. apply Hall.
  now apply (firstn_In n l y).
Qed.

(** Without any score every key is the default: any order is sorted. *)
Lemma unscored_sorted (l : list SearchResult) :
  existsb has_score l = false -> StronglySorted by_score_desc l.
Proof.
  intros H.
  assert (Hkeys : Forall (fun r => sort_key r = 0%Q) l).
  { apply Forall_forall. intros r Hr.
    destruct (has_score r) eqn:Hs.
    - assert (existsb has_score l = true) by (apply existsb_exists; eauto). congruence.
    - unfold has_score in Hs. unfold sort_key. now destruct (relevance_score r). }
  clear H. induction Hkeys as [|x l Hx Hl IH]; constructor; auto.
  eapply Forall_impl; [|exact Hl].
  intros y Hy. unfold by_score_desc. rewrite Hx, Hy. apply Qle_refl.
Qed.

(** Whatever the pool, [rank] gives at most [limit] results, largest
    score first, all taken from the pool. *)
Lemma rank_sorted (l : list SearchResult) (limit : nat) :
  StronglySorted by_score_desc (rank l limit).
Proof.
  unfold rank. apply firstn_sorted.
  destruct l as [|x l]; [constructor|].
  destruct (existsb has_score (x :: l)) eqn:He.
  - apply sort_desc_sorted.
  - now apply unscored_sorted.
Qed.

Lemma rank_length (l : list SearchResult) (limit : nat) :
  (List.length (rank l limit) <= limit)%nat.
Proof. unfold rank. apply firstn_le_length. Qed.

Lemma rank_scored (l : list SearchResult) (limit : nat) :
  Forall (fun r => has_score r = true) l ->
  rank l limit = firstn limit (sort_desc l).
Proof.
  unfold rank. destruct l as [|x l]; [reflexivity|].
  intros H. inversion H as [|? ? Hx _]; subst.
  cbn [existsb]. now rewrite Hx.
Qed.

Lemma rank_incl (l : list SearchResult) (limit : nat) (r : SearchResult) :
  In r (rank l limit) -> In r l.
Proof.
  unfold rank. intros H. apply firstn_In in H.
  destruct l as [|x l]; [assumption|].
  destruct (existsb has_score (x :: l)); [|assumption].
  now apply (Permutation_in _ (Permutation_sym (sort_desc_perm (x :: l)))).
Qed.

(** In a list sorted by falling score, the earlier of two results has
    the score that is not smaller. *)
Lemma sorted_positions (l : list SearchResult) :
  StronglySorted by_score_desc l ->
  forall i j a b, nth_error l i = Some a -> nth_error l j = Some b ->
    (i < j)%nat -> (sort_key b <= sort_key a)%Q.
Proof.
  induction 1 as [|x l Hs IH Hall]; intros i j a b Hi Hj Hlt.
  - now destruct i.
  - destruct j as [|j]; [lia|]. cbn [nth_error] in Hj.
    destruct i as [|i]; cbn [nth_error] in Hi.
    + injection Hi as <-. rewrite Forall_forall in Hall.
      apply Hall. now apply nth_error_In with j.
    + apply (IH i j); auto. lia.
Qed.

(** Hence a result of a larger score stands before one of a smaller. *)
Lemma larger_score_first (l : list SearchResult) :
  StronglySorted by_score_desc l ->
  forall i j a b, nth_error l i = Some a -> nth_error l j = Some b ->
    (sort_key b < sort_key a)%Q -> (i < j)%nat.
Proof.
  intros Hs i j a b Hi Hj Hlt.
  destruct (Nat.lt_trichotomy i j) as [H|[H|H]]; [assumption| |].
  - subst j. rewrite Hi in Hj. injection Hj as <-.
    exfalso. now apply (Qlt_irrefl (sort_key a)).
  - exfalso. pose proof (sorted_positions l Hs j i b a Hj Hi H) as Hle.
    apply (Qlt_irrefl (sort_key a)). now apply Qle_lt_trans with (sort_key b).
Qed.

End RankFacts.

(** ** Citations *)

Module CitationFacts.
Import Timestamp Citation RankSpec WorkflowSpec.

(** The sources are as many as the chunks that some segment overlaps. *)
Lemma collect_sources_length (segments : list TimestampSegment) (chunks : list string) :
  forall acc out,
    collect_sources segments chunks acc = Ok out ->
    List.length out
    = (List.length acc + List.length (filter (has_match segments) chunks))%nat.
Proof.
  induction chunks as [|chunk chunks IH]; intros acc out; cbn [collect_sources filter].
  - intros [= <-]. cbn [List.length]. lia.
  - unfold has_match at 1.
    destruct (first_match chunk segments) as [segment|].
    + destruct (source_of segment) as [source|msg]; cbn [rbind]; [|discriminate].
      intros H. rewrite (IH _ _ H), length_app. cbn [List.length]. lia.
    + apply IH.
Qed.

(** The loop with [for ... else] appends one result for every document. *)
Lemma collect_results_length (lecture_id : string) (segments : list TimestampSegment)
  (docs : list Document) :
  forall acc out,
    collect_results lecture_id segments docs acc = (out, None) ->
    List.length out = (List.length acc + List.length docs)%nat.
Proof.
  induction docs as [|doc docs IH]; intros acc out; cbn [collect_results].
  - intros [= <-]. cbn [List.length]. lia.
  - destruct (result_of lecture_id segments doc) as [r|msg]; [|discriminate].
    intros H. rewrite (IH _ _ H), length_app. cbn [List.length]. lia.
Qed.

Lemma result_of_scored (lecture_id : string) (segments : list TimestampSegment)
  (doc : Document) (r : SearchResult) :
  result_of lecture_id segments doc = Ok r -> has_score r = true.
Proof.
  unfold result_of.
  destruct (first_match (page_content doc) segments) as [segment|].
  - destruct (format_timestamp_for_video (start_time segment)); cbn [rbind];
      [|discriminate].
    now intros [= <-].
  - now intros [= <-].
Qed.

(** Without a matching segment the result carries the empty citation. *)
Lemma result_of_unmatched (lecture_id : string) (segments : list TimestampSegment)
  (doc : Document) :
  first_match (page_content doc) segments = None ->
  exists r, result_of lecture_id segments doc = Ok r /\ empty_citation r.
Proof.
  intros H. unfold result_of. rewrite H.
  eexists. split; [reflexivity|]. repeat split.
Qed.

Lemma collect_results_scored (lecture_id : string) (segments : list TimestampSegment)
  (docs : list Document) :
  forall acc, Forall (fun r => has_score r = true) acc ->
    Forall (fun r => has_score r = true) (fst (collect_results lecture_id segments docs acc)).
Proof.
  induction docs as [|doc docs IH]; intros acc Hacc; cbn [collect_results]; [assumption|].
  destruct (result_of lecture_id segments doc) as [r|msg] eqn:Hr; [|assumption].
  apply IH. apply Forall_app. split; [assumption|].
  constructor; [|constructor]. now apply (result_of_scored _ _ _ _ Hr).
Qed.

End CitationFacts.

(** ** The workflows *)

Section WorkflowClaims.
Import Timestamp Citation Workflows Workflows.QA RankSpec RankFacts WorkflowSpec
  CitationFacts.

Variable load_transcript : string -> result (option string).
Variable CollectionInfo : Type.
Variable get_collection_info : string -> option CollectionInfo.
Variable similarity_search : string -> string -> nat -> result (list Document).
Variable llm_invoke : string -> result string.

#[local] Abbreviation search_lecture :=
  (search_lecture_node load_transcript CollectionInfo get_collection_info similarity_search).
#[local] Abbreviation search_all :=
  (search_all_lectures_node load_transcript CollectionInfo get_collection_info
     similarity_search).
#[local] Abbreviation retrieve :=
  (retrieve_relevant_chunks CollectionInfo get_collection_info similarity_search).
#[local] Abbreviation generate := (generate_answer_node llm_invoke).
#[local] Abbreviation consolidate := (consolidate_answer_node llm_invoke).

Lemma search_lecture_node_scored (state : Multi.MultiLectureState) (lecture_id : string) :
  Forall (fun r => has_score r = true) (fst (search_lecture state lecture_id)).
Proof.
  unfold search_lecture_node.
  destruct (get_collection_info _); [|constructor].
  destruct (similarity_search _ _ _) as [docs|]; [|constructor].
  destruct (load_transcript lecture_id) as [[t|]|]; try constructor.
  destruct (PyStr.falsy t); [constructor|].
  destruct (parse_transcript_with_timestamps t) as [segments|]; [|constructor].
  pose proof (collect_results_scored lecture_id segments docs [] (Forall_nil _)) as H.
  destruct (collect_results lecture_id segments docs []) as [found [msg|]];
    [constructor | exact H].
Qed.

Lemma search_lectures_pools (state : Multi.MultiLectureState) (ids : list string) :
  forall acc calls,
    fst (search_lectures load_transcript CollectionInfo get_collection_info
           similarity_search state ids acc calls)
    = (acc ++ flat_map (fun id => fst (search_lecture state id)) ids)%list.
Proof.
  induction ids as [|id ids IH]; intros acc calls; cbn [search_lectures flat_map].
  - now rewrite app_nil_r.
  -     destruct (search_lecture state id) as [found made] eqn:Hs.
    rewrite IH. cbn [fst]. now rewrite app_assoc.
Qed.

(** C5.  [search_all_lectures_node] pools the results of the supplied
    lecture ids in their order, a lecture without a collection giving
    none; it leaves the error field as it was; its results are the first
    20 of the pool sorted by falling relevance score, hence at most 20,
    sorted, and a result of score 0.9 stands before every result of score
    0.7.  [search_multiple_lectures] ranks the same way, up to its limit. *)
Theorem search_all_lectures_pools_sorts_truncates (state : Multi.MultiLectureState) :
  let pooled := flat_map (fun id => fst (search_lecture state id)) (Multi.lecture_ids state) in
  let found := Multi.results (fst (search_all state)) in
  found = firstn 20 (sort_desc pooled)
  /\ Permutation pooled (sort_desc pooled)
  /\ (forall id, get_collection_info (collection_name id) = None ->
                 fst (search_lecture state id) = [])
  /\ Multi.error (fst (search_all state)) = Multi.error state
  /\ (List.length found <= 20)%nat
  /\ StronglySorted by_score_desc found
  /\ (forall i j a b,
         nth_error found i = Some a -> nth_error found j = Some b ->
         sort_key a == 9 # 10 -> sort_key b == 7 # 10 -> (i < j)%nat)
  /\ (forall query ids limit,
         let ranked :=
           MultiLectureSearch.search_multiple_lectures load_transcript CollectionInfo
             get_collection_info similarity_search query ids limit in
         (List.length ranked <= limit)%nat /\ StronglySorted by_score_desc ranked).
Proof.
  intros pooled found.
  assert (Hfound : found = rank pooled 20).
  { subst found pooled. unfold search_all_lectures_node.
    pose proof (search_lectures_pools state (Multi.lecture_ids state) [] []) as Hp.
    destruct (search_lectures _ _ _ _ state (Multi.lecture_ids state) [] [])
      as [all_results calls].
    cbn [fst Multi.results Multi.set_results] in *. now rewrite Hp. }
  assert (Hscored : Forall (fun r => has_score r = true) pooled).
  { subst pooled. apply Forall_flat_map. apply Forall_forall.
    intros id _. apply search_lecture_node_scored. }
  assert (Hsorted : StronglySorted by_score_desc found)
    by (rewrite Hfound; apply rank_sorted).
  repeat split.
  - rewrite Hfound. now apply rank_scored.
  - apply sort_desc_perm.
  - intros id Hnone. unfold search_lecture_node. now rewrite Hnone.
  - unfold search_all_lectures_node.
    now destruct (search_lectures _ _ _ _ state (Multi.lecture_ids state) [] []).
  - rewrite Hfound. apply rank_length.
  - exact Hsorted.
  - intros i j a b Hi Hj Ha Hb.
    apply (larger_score_first found Hsorted i j a b Hi Hj).
    rewrite Ha, Hb. reflexivity.
  - apply rank_length.
  - apply rank_sorted.
Qed.

(** C7.  With no results [consolidate_answer_node] sets the fixed
    message and makes no backend call; whenever it calls the language
    model there is at least one result, and then it calls it once. *)
Theorem consolidate_short_circuits_without_results (state : Multi.MultiLectureState) :
  (Multi.results state = [] ->
   consolidate state
   = (Multi.set_consolidated_answer "No relevant information found across the lectures."
        state, []))
  /\ (snd (consolidate state) <> [] -> Multi.results state <> [])
  /\ (Multi.results state <> [] ->
      snd (consolidate state)
      = [LlmInvoke (consolidate_prompt (Multi.query state)
           (PyStr.join para (map result_line (firstn 10 (Multi.results state)))))]).
Proof.
  unfold consolidate_answer_node.
  destruct (Multi.results state) as [|r rs] eqn:Hr.
  - repeat split; [intros H; now contradiction H | intros H; now contradiction H].
  - repeat split; try discriminate.
    intros _. now destruct (llm_invoke _).
Qed.

(** *** The windows of the retrieval fallback *)

Lemma substring_length_le (i n : nat) (s : string) :
  (String.length (String.substring i n s) <= n)%nat.
Proof.
  revert i n. induction s as [|c s IH]; intros [|i] [|n]; cbn [String.substring String.length];
    try lia.
  - specialize (IH 0%nat n). lia.
  - apply (IH i 0%nat).
  - apply (IH i (S n)).
Qed.

(** The fallback chunks are the windows [transcript[2000k : 2000k + 1000]],
    [k = 0, 1, ...], as long as [2000k] lies inside the transcript, and at
    most five of them. *)
Lemma fallback_chunks_windows (t : string) :
  List.length (fallback_chunks t) = Nat.min 5 ((String.length t + 1999) / 2000)
  /\ (List.length (fallback_chunks t) <= 5)%nat
  /\ (forall k, (k < List.length (fallback_chunks t))%nat ->
                nth_error (fallback_chunks t) k = Some (PyStr.slice (2000 * k) 1000 t)
                /\ (2000 * k < String.length t)%nat)
  /\ Forall (fun chunk => (String.length chunk <= 1000)%nat) (fallback_chunks t).
Proof.
  unfold fallback_chunks, PyStr.range0.
  set (m := ((String.length t + 2000 - 1) / 2000)%nat).
  assert (Hm : m = ((String.length t + 1999) / 2000)%nat) by (subst m; f_equal; lia).
  assert (Hlen : List.length
            (firstn 5 (map (fun i => PyStr.slice i 1000 t)
                           (map (fun k => (k * 2000)%nat) (seq 0 m))))
          = Nat.min 5 m)
    by now rewrite length_firstn, !length_map, length_seq.
  rewrite Hlen, <- Hm.
  repeat split.
  - apply Nat.le_min_l.
  - rewrite nth_error_firstn.
    destruct (Nat.ltb_spec k 5) as [_|]; [|lia].
    rewrite !nth_error_map, nth_error_seq.
    destruct (Nat.ltb_spec k m) as [_|]; [|lia].
    cbn [option_map]. do 2 f_equal. lia.
  - assert (k < m)%nat by lia.
    assert (Hdiv : (m * 2000 <= String.length t + 1999)%nat).
    { rewrite Hm. rewrite Nat.mul_comm. apply Nat.Div0.mul_div_le. }
    nia.
  - apply Forall_forall. intros chunk Hin.
    apply firstn_In in Hin. apply in_map_iff in Hin as (i & <- & _).
    apply substring_length_le.
Qed.


(** *** Errors and the later stages *)


End WorkflowClaims.

(** *** The claims on the example backends *)

Section WorkflowExamples.
Import Timestamp Citation Workflows Workflows.QA RankSpec RankFacts WorkflowSpec
  CitationFacts.

(** C2.  The single-lecture paths omit a chunk that no segment overlaps:
    [extract_sources_node] and [ask_question] return as many sources as
    there are chunks with a match, so fewer than the chunks whenever one
    has none.  On the chunks ["Hello"; "Goodbye"] over the transcript
    [[00:00:01.00 - 00:00:02.50] Hello] both return the one source of
    ["Hello"].  The multi-lecture search, whose loop has the [else] branch,
    appends one result for every document, with the empty citation when no
    segment overlaps: for the same two documents it returns two results,
    the second with the empty citation. *)
Theorem unmatched_chunk_gets_no_citation :
  (forall segments chunks out,
      collect_sources segments chunks [] = Ok out ->
      List.length out = List.length (filter (has_match segments) chunks))
  /\ (forall lecture_id segments docs out,
         collect_results lecture_id segments docs [] = (out, None) ->
         List.length out = List.length docs)
  /\ (forall lecture_id segments doc,
         first_match (page_content doc) segments = None ->
         exists r, result_of lecture_id segments doc = Ok r /\ empty_citation r)
  /\ extract_sources_node two_chunk_state
     = (set_sources [hello_source] two_chunk_state, [])
  /\ fst (Rag.ask_question transcript_found vector_store_finds model_answers
            "What is said?" "L1")
     = Ok ("An answer.", [hello_source])
  /\ fst (search_lecture_node transcript_found unit every_collection store_finds
            ranking_state "A")
     = [result_of_lecture "A" (9 # 10);
        mkResult "A" "Goodbye" 0 0 "00:00:00.00" "00:00:00.00" "0s" (Some (7 # 10))].
Proof.
  split; [|split; [|split; [|repeat split; vm_compute; reflexivity]]].
  - intros segments chunks out H.
    now rewrite (collect_sources_length _ _ _ _ H).
  - intros lecture_id segments docs out H.
    now rewrite (collect_results_length _ _ _ _ _ H).
  - exact result_of_unmatched.
Qed.



Lemma search_all_lectures_pools_sorts_truncates_witness :
  Multi.results (fst (search_all_lectures_node transcript_found unit every_collection
                  scores_by_lecture ranking_state))
  = [result_of_lecture "A" (9 # 10); result_of_lecture "B" (7 # 10)]
  /\ (0 < 1)%nat.
Proof.
  pose proof (search_all_lectures_pools_sorts_truncates transcript_found unit
                every_collection scores_by_lecture ranking_state)
    as (Hfound & _ & _ & _ & _ & _ & Horder & _).
  split.
  - rewrite Hfound. vm_compute. reflexivity.
  - apply (Horder 0%nat 1%nat (result_of_lecture "A" (9 # 10))
                  (result_of_lecture "B" (7 # 10)));
      vm_compute; reflexivity.
Defined.


Lemma consolidate_short_circuits_without_results_witness :
  consolidate_answer_node model_answers ranking_state
  = (Multi.mkMulti "Hello" ["B"; "A"] []
       (Some "No relevant information found across the lectures.") None, []).
Proof.
  destruct (consolidate_short_circuits_without_results model_answers ranking_state)
    as (Hempty & _).
  apply Hempty. reflexivity.
Defined.

End WorkflowExamples.

(** ** The chunked summary *)

Module SummaryFacts.
Import Summary SummarySpec.

(** An iteration that does not break moves [start] forward by at least
    503, and only runs when more than 3500 characters remain. *)
Lemma chunk_step_advances (transcript : string) (start next : Z) (chunk : string) :
  0 <= start ->
  chunk_step transcript start = (chunk, Some next) ->
  start + 503 <= next /\ start + 3500 < PyStr.len transcript.
Proof.
  intros Hstart. unfold chunk_step.
  destruct (Z.leb_spec (PyStr.len transcript) (start + 3500)) as [|Hlong]; [discriminate|].
  set (break_point := Z.max _ _).
  destruct (Z.ltb_spec (start + 1000) break_point); intros [= _ <-]; lia.
Qed.

(** With fuel for the characters that remain the loop ends, and it
    appends at most one chunk for every 503 of them, and one more. *)
Lemma chunk_loop_ends (transcript : string) (fuel : nat) :
  forall start chunks,
    0 <= start ->
    PyStr.len transcript - start <= Z.of_nat fuel ->
    exists out,
      chunk_loop fuel transcript start chunks = Some out
      /\ 503 * (Z.of_nat (List.length out) - Z.of_nat (List.length chunks) - 1)
         <= Z.max 0 (PyStr.len transcript - start).
Proof.
  induction fuel as [|fuel IH]; intros start chunks Hstart Hfuel; cbn [chunk_loop].
  - destruct (Z.ltb_spec start (PyStr.len transcript)); [lia|].
    exists chunks. split; [reflexivity | lia].
  - destruct (Z.ltb_spec start (PyStr.len transcript)) as [Hlt|Hge].
    + destruct (chunk_step transcript start) as [chunk [next|]] eqn:Hstep.
      * destruct (chunk_step_advances _ _ _ _ Hstart Hstep) as [Hadv Hlong].
        destruct (IH next (chunks ++ [chunk])%list) as (out & Hout & Hbound); [lia|lia|].
        exists out. split; [assumption|].
        rewrite length_app in Hbound. cbn [List.length] in Hbound. lia.
      * exists (chunks ++ [chunk])%list. split; [reflexivity|].
        rewrite length_app. cbn [List.length]. lia.
    + exists chunks. split; [reflexivity | lia].
Qed.

Lemma split_transcript_ends (transcript : string) :
  exists chunks,
    split_transcript transcript = Some chunks
    /\ 503 * (Z.of_nat (List.length chunks) - 1) <= PyStr.len transcript.
Proof.
  destruct (chunk_loop_ends transcript (String.length transcript) 0 [])
    as (out & Hout & Hbound); [lia | unfold PyStr.len; lia |].
  exists out. split; [assumption|].
  cbn [List.length] in Hbound. unfold PyStr.len in *. lia.
Qed.

Lemma enumerate_length {A} (l : list A) : List.length (enumerate l) = List.length l.
Proof. unfold enumerate. rewrite length_combine, length_seq. apply Nat.min_id. Qed.

Lemma groups_of_length (l : list string) :
  List.length (groups_of l) = ((List.length l + 2) / 3)%nat.
Proof.
  unfold groups_of, PyStr.range0, group_size.
  rewrite !length_map, length_seq. f_equal. lia.
Qed.

Section Backends.

Variable llm_invoke : string -> result string.

(** A pass makes at most one call for each prompt, and exactly one when
    no call raises. *)
Lemma invoke_all_calls (prompts : list string) :
  forall answers calls outcome calls',
    invoke_all llm_invoke prompts answers calls = (outcome, calls') ->
    (List.length calls' <= List.length calls + List.length prompts)%nat
    /\ (forall out, outcome = Ok out ->
          calls' = (calls ++ map LlmInvoke prompts)%list
          /\ List.length out = (List.length answers + List.length prompts)%nat).
Proof.
  induction prompts as [|prompt prompts IH]; intros answers calls outcome calls';
    cbn [invoke_all].
  - intros [= <- <-]. cbn [List.length map]. split; [lia|].
    intros out [= <-]. rewrite app_nil_r. split; [reflexivity | lia].
  - destruct (llm_invoke prompt) as [response|msg].
    + intros H. destruct (IH _ _ _ _ H) as [Hle Hok].
      rewrite !length_app in *. cbn [List.length] in *. split; [lia|].
      intros out Hout. destruct (Hok out Hout) as [-> Hlen].
      cbn [map]. rewrite <- app_assoc. split; [reflexivity | lia].
    + intros [= <- <-]. rewrite length_app. cbn [List.length]. split; [lia|].
      discriminate.
Qed.

(** The calls of [generate_chunked_summary], pass by pass. *)
Lemma generate_chunked_summary_calls (transcript : string) (chunks : list string) :
  split_transcript transcript = Some chunks ->
  exists outcome calls,
    generate_chunked_summary llm_invoke transcript = Some (outcome, calls)
    /\ (List.length calls
        <= List.length chunks + (List.length chunks + 2) / 3 + 1)%nat
    /\ (forall summary, outcome = Ok summary -> three_passes (List.length chunks) calls).
Proof.
  intros Hsplit. unfold generate_chunked_summary. rewrite Hsplit.
  destruct (PyStr.len transcript <=? 4000).
  { unfold invoke_one. eexists _, _. split; [reflexivity|].
    cbn [app List.length]. split; [lia|]. intros _ _.
    exists [], [], (short_prompt transcript). repeat split; auto. }
  set (chunk_prompts := map _ (enumerate chunks)).
  assert (Hn : List.length chunk_prompts = List.length chunks)
    by (subst chunk_prompts; now rewrite length_map, enumerate_length).
  destruct (invoke_all llm_invoke chunk_prompts [] []) as [[chunk_summaries|msg] calls]
    eqn:Hpass1.
  2:{ destruct (invoke_all_calls _ _ _ _ _ Hpass1) as [Hle _].
      cbn [List.length] in Hle.
      eexists _, _. split; [reflexivity|]. split; [lia | discriminate]. }
  destruct (invoke_all_calls _ _ _ _ _ Hpass1) as [_ Hok].
  destruct (Hok _ eq_refl) as [-> Hsummaries]. cbn [List.length app] in *.
  destruct (PyStr.len (PyStr.join Workflows.para chunk_summaries) <=? 4000).
  { unfold invoke_one. eexists _, _. split; [reflexivity|].
    rewrite length_app, length_map. cbn [List.length].
    split; [lia|]. intros _ _.
    exists chunk_prompts, [], (combine_prompt (PyStr.join Workflows.para chunk_summaries)).
    cbn [app]. rewrite map_app. repeat split; auto. }
  set (group_prompts := map _ (groups_of chunk_summaries)).
  assert (Hg : List.length group_prompts = ((List.length chunks + 2) / 3)%nat).
  { subst group_prompts. rewrite length_map, groups_of_length. do 2 f_equal. lia. }
  destruct (invoke_all llm_invoke group_prompts [] (map LlmInvoke chunk_prompts))
    as [[mid_summaries|msg] calls2] eqn:Hpass2.
  2:{ destruct (invoke_all_calls _ _ _ _ _ Hpass2) as [Hle _].
      rewrite length_map in Hle.
      eexists _, _. split; [reflexivity|]. split; [lia | discriminate]. }
  destruct (invoke_all_calls _ _ _ _ _ Hpass2) as [_ Hok2].
  destruct (Hok2 _ eq_refl) as [-> _].
  unfold invoke_one. eexists _, _. split; [reflexivity|].
  rewrite !length_app, !length_map. cbn [List.length].
  split; [lia|]. intros _ _.
  eexists chunk_prompts, group_prompts, _.
  rewrite !map_app, <- app_assoc. repeat split; auto.
Qed.

End Backends.

End SummaryFacts.

Section SummaryClaims.
Import Summary SummaryFacts SummarySpec Workflows.

Variable llm_invoke : string -> result string.

(** C10.  [generate_chunked_summary] returns for every transcript and
    every language model.  Each iteration of its chunking loop that does
    not break moves the start of the window strictly forward (by at least
    503 characters), so the loop ends, with at most one chunk for every
    503 characters and one more.  The calls to the language model are at
    most one for each chunk, then at most one for each group of three
    partial summaries, then one: when nothing raises they are a pass over
    the [n] chunks or none, then a pass over the [ceil(n / 3)] groups or
    none, then the one final call.  The [generate_summary_node] of the
    workflow makes at most one call. *)
Theorem chunked_summary_ends_in_bounded_passes (transcript : string) :
  (forall start chunk next,
      0 <= start -> chunk_step transcript start = (chunk, Some next) -> start < next)
  /\ (exists chunks,
        split_transcript transcript = Some chunks
        /\ 503 * (Z.of_nat (List.length chunks) - 1) <= PyStr.len transcript
        /\ exists outcome calls,
             generate_chunked_summary llm_invoke transcript = Some (outcome, calls)
             /\ (List.length calls
                 <= List.length chunks + (List.length chunks + 2) / 3 + 1)%nat
             /\ (forall summary, outcome = Ok summary ->
                   three_passes (List.length chunks) calls))
  /\ (forall state,
        (List.length (snd (generate_summary_node llm_invoke state)) <= 1)%nat).
Proof.
  split; [|split].
  - intros start chunk next Hstart Hstep.
    destruct (chunk_step_advances _ _ _ _ Hstart Hstep). lia.
  - destruct (split_transcript_ends transcript) as (chunks & Hsplit & Hbound).
    exists chunks. repeat split; try assumption.
    now apply generate_chunked_summary_calls.
  - intros state. unfold generate_summary_node.
    destruct (Summarization.transcript state) as [[|c t]|];
      cbn [PyStr.falsy snd List.length];
      try lia.
    destruct (llm_invoke _); cbn [snd List.length]; lia.
Qed.

End SummaryClaims.

(** On 5000 characters without a sentence boundary the first window ends
    at 3500 and the next starts at 3000; the second window reaches the end
    and breaks the loop: two chunks, then three calls to the model. *)
Lemma chunked_summary_ends_in_bounded_passes_witness :
  Summary.chunk_step WorkflowSpec.long_transcript 0
  = (WorkflowSpec.repeat_char "a" 3500, Some 3000)
  /\ 0 < 3000.
Proof.
  assert (Hstep : Summary.chunk_step WorkflowSpec.long_transcript 0
                  = (WorkflowSpec.repeat_char "a" 3500, Some 3000))
    by (vm_compute; reflexivity).
  split; [exact Hstep|].
  destruct (chunked_summary_ends_in_bounded_passes WorkflowSpec.model_answers
              WorkflowSpec.long_transcript) as (Hadvance & _).
  apply (Hadvance 0 (WorkflowSpec.repeat_char "a" 3500) 3000); [lia | exact Hstep].
Defined.

(** ** From [transcribe] to the parser *)

Module StripFacts.
Import TimestampSpec TimestampFacts TextSpec.

Lemma all_chars_app (p : ascii -> bool) (a b : string) :
  all_chars p (a ++ b) = all_chars p a && all_chars p b.
Proof.
  induction a as [|c a IH]; cbn [append all_chars]; [reflexivity|].
  now rewrite IH, andb_assoc.
Qed.

Lemma solid_free_of_nl (s : string) :
  all_chars solid s = true -> free_of PyStr.nl s = true.
Proof.
  induction s as [|c s IH]; cbn [all_chars free_of]; [reflexivity|].
  intros H. apply andb_true_iff in H as [Hc Hs]. rewrite (IH Hs), andb_true_r.
  destruct (Ascii.eqb_spec c PyStr.nl) as [->|]; [discriminate Hc | reflexivity].
Qed.

(** [rstrip] takes nothing off a string that ends in text. *)
Lemma rstrip_app (a s : string) :
  PyStr.rstrip s <> EmptyString -> PyStr.rstrip (a ++ s) = a ++ PyStr.rstrip s.
Proof.
  intros Hs. induction a as [|c a IH]; cbn [append PyStr.rstrip]; [reflexivity|].
  rewrite IH. destruct (a ++ PyStr.rstrip s) eqn:E; [|reflexivity].
  destruct a; cbn [append] in E; [contradiction | discriminate].
Qed.

Lemma rstrip_solid_head (c : ascii) (s : string) :
  solid c = true -> PyStr.rstrip (String c s) = String c (PyStr.rstrip s).
Proof.
  intros Hc. cbn [PyStr.rstrip]. apply negb_true_iff in Hc. rewrite Hc.
  now destruct (PyStr.rstrip s).
Qed.

Lemma rstrip_solid_prefix (p s : string) :
  all_chars solid p = true -> PyStr.rstrip (p ++ s) = p ++ PyStr.rstrip s.
Proof.
  induction p as [|c p IH]; cbn [append all_chars]; [reflexivity|].
  intros H. apply andb_true_iff in H as [Hc Hp].
  now rewrite rstrip_solid_head, IH.
Qed.

Lemma lstrip_solid_head (c : ascii) (s : string) :
  solid c = true -> PyStr.lstrip (String c s) = String c s.
Proof. intros Hc. cbn [PyStr.lstrip]. apply negb_true_iff in Hc. now rewrite Hc. Qed.

(** [rstrip] gives a prefix. *)
Lemma rstrip_prefix (s : string) : exists w, s = PyStr.rstrip s ++ w.
Proof.
  induction s as [|c s [w IH]]; [now exists EmptyString|].
  cbn [PyStr.rstrip]. destruct (PyStr.rstrip s) eqn:E.
  - destruct (PyStr.is_space c).
    + now exists (String c s).
    + exists w. cbn [append] in *. now rewrite <- IH.
  - exists w. cbn [append] in *. now rewrite <- IH.
Qed.

Lemma free_of_rstrip (sep : ascii) (s : string) :
  free_of sep s = true -> free_of sep (PyStr.rstrip s) = true.
Proof.
  destruct (rstrip_prefix s) as [w Hw]. intros H. rewrite Hw in H.
  rewrite free_of_app in H. now apply andb_true_iff in H as [H _].
Qed.

Lemma lstrip_suffix (s : string) : exists w, s = w ++ PyStr.lstrip s.
Proof.
  induction s as [|c s [w IH]]; [now exists EmptyString|].
  cbn [PyStr.lstrip]. destruct (PyStr.is_space c).
  - exists (String c w). cbn [append]. now rewrite <- IH.
  - now exists EmptyString.
Qed.

Lemma free_of_lstrip (sep : ascii) (s : string) :
  free_of sep s = true -> free_of sep (PyStr.lstrip s) = true.
Proof.
  destruct (lstrip_suffix s) as [w Hw]. intros H. rewrite Hw in H.
  rewrite free_of_app in H. now apply andb_true_iff in H as [_ H].
Qed.

Lemma free_of_strip (sep : ascii) (s : string) :
  free_of sep s = true -> free_of sep (PyStr.strip s) = true.
Proof. intros H. now apply free_of_rstrip, free_of_lstrip. Qed.

(** What [lstrip] leaves is empty or begins with text. *)
Lemma lstrip_cases (s : string) :
  PyStr.lstrip s = EmptyString
  \/ exists c r, PyStr.lstrip s = String c r /\ solid c = true.
Proof.
  induction s as [|c s IH]; [now left|].
  cbn [PyStr.lstrip]. destruct (PyStr.is_space c) eqn:Hc; [assumption|].
  right. exists c, s. split; [reflexivity|]. unfold solid. now rewrite Hc.
Qed.

Lemma rstrip_idem (s : string) : PyStr.rstrip (PyStr.rstrip s) = PyStr.rstrip s.
Proof.
  induction s as [|c s IH]; [reflexivity|].
  cbn [PyStr.rstrip]. destruct (PyStr.rstrip s) as [|c' r'] eqn:E.
  - destruct (PyStr.is_space c) eqn:Hc; [reflexivity|].
    cbn [PyStr.rstrip]. now rewrite Hc.
  - cbn [PyStr.rstrip] in *. now rewrite IH.
Qed.

(** A stripped string has nothing left to strip. *)
Lemma strip_idem (s : string) : PyStr.strip (PyStr.strip s) = PyStr.strip s.
Proof.
  unfold PyStr.strip.
  destruct (lstrip_cases s) as [->|(c & r & -> & Hc)]; [reflexivity|].
  rewrite (rstrip_solid_head c r Hc), (lstrip_solid_head _ _ Hc).
  rewrite <- (rstrip_solid_head c r Hc). apply rstrip_idem.
Qed.

(** [s.split(c)] gives one piece more than [s] has separators. *)
Lemma split_length (sep : ascii) (s : string) :
  List.length (PyStr.split sep s) = S (PyText.count sep s).
Proof.
  induction s as [|c s IH]; [reflexivity|].
  cbn [PyStr.split PyText.count]. destruct (Ascii.eqb c sep).
  - cbn [List.length]. now rewrite IH.
  - destruct (PyStr.split sep s); [discriminate IH|]. exact IH.
Qed.

End StripFacts.

Module TranscribeFacts.
Import Timestamp TimestampSpec TimestampFacts Transcription TranscriptionFacts.
Import TextSpec StripFacts.

Lemma string_of_uint_solid (d : Decimal.uint) :
  all_chars solid (NilEmpty.string_of_uint d) = true.
Proof. induction d; cbn [NilEmpty.string_of_uint all_chars]; auto. Qed.

Lemma of_Z_solid (n : Z) : all_chars solid (PyStr.of_Z n) = true.
Proof.
  unfold PyStr.of_Z, NilZero.string_of_int.
  assert (Hu : forall d, all_chars solid (NilZero.string_of_uint d) = true).
  { intros d. unfold NilZero.string_of_uint.
    destruct d; try reflexivity; apply (string_of_uint_solid (_ d)). }
  destruct (Z.to_int n) as [d|d]; [apply Hu|].
  cbn [all_chars]. now rewrite Hu.
Qed.

Lemma of_Z_02d_solid (n : Z) : all_chars solid (PyStr.of_Z_02d n) = true.
Proof.
  unfold PyStr.of_Z_02d. destruct ((0 <=? n) && (n <? 10)).
  - cbn [append all_chars]. now rewrite of_Z_solid.
  - apply of_Z_solid.
Qed.

(** A float printed with [.2f] holds no whitespace. *)
Lemma fmt_2f_solid (x : float) : all_chars solid (PyFloat.fmt_2f x) = true.
Proof.
  unfold PyFloat.fmt_2f.
  destruct (Prim2SF x) as [s|s| |s m e];
    [destruct s; reflexivity | destruct s; reflexivity | reflexivity |].
  cbv zeta. rewrite !all_chars_app, of_Z_solid, of_Z_02d_solid.
  now destruct s.
Qed.

(** Stripped on the right, a line of [transcribe] still begins with its
    bracket and its first time. *)
Lemma rstrip_transcript_line (seg : WhisperSegment) :
  exists r, PyStr.rstrip (transcript_line seg)
            = String "[" (PyFloat.fmt_2f (seg_start seg) ++ r).
Proof.
  unfold transcript_line. cbn [append].
  rewrite rstrip_solid_head by reflexivity.
  rewrite rstrip_solid_prefix by apply fmt_2f_solid.
  eexists. reflexivity.
Qed.

Lemma bracket_no_match (x : float) (r : string) :
  match_line (String "[" (PyFloat.fmt_2f x ++ r)) = None.
Proof.
  unfold match_line. cbn [lit Ascii.eqb Bool.eqb obind].
  now rewrite fmt_2f_no_timestamp.
Qed.

Lemma transcript_line_free (seg : WhisperSegment) :
  free_of PyStr.nl (seg_text seg) = true ->
  free_of PyStr.nl (transcript_line seg) = true.
Proof.
  intros H. unfold transcript_line.
  repeat (cbn [append free_of]; rewrite ?free_of_app).
  rewrite H, !(solid_free_of_nl _ (fmt_2f_solid _)). reflexivity.
Qed.

Lemma join_cons (sep l : string) (ls : list string) :
  ls <> [] -> PyStr.join sep (l :: ls) = l ++ sep ++ PyStr.join sep ls.
Proof. destruct ls; [contradiction | reflexivity]. Qed.

(** The lines of a stripped transcript of [transcribe]: as many as the
    segments, none of the pattern. *)
Lemma rstrip_transcribe (seg : WhisperSegment) (segs : list WhisperSegment) :
  Forall (fun s => free_of PyStr.nl (seg_text s) = true) (seg :: segs) ->
  exists lines,
    PyStr.rstrip (transcribe (seg :: segs)) = PyStr.join NL lines
    /\ PyStr.rstrip (transcribe (seg :: segs)) <> EmptyString
    /\ List.length lines = List.length (seg :: segs)
    /\ Forall (fun l => free_of PyStr.nl l = true) lines
    /\ Forall (fun l => match_line l = None) lines.
Proof.
  revert seg. induction segs as [|seg' segs IH]; intros seg Hfree.
  - destruct (rstrip_transcript_line seg) as [r Hr].
    exists [PyStr.rstrip (transcript_line seg)].
    unfold transcribe. cbn [map PyStr.join String.concat].
    repeat split.
    + rewrite Hr. discriminate.
    + constructor; [|constructor]. apply free_of_rstrip, transcript_line_free.
      now inversion Hfree.
    + constructor; [|constructor]. rewrite Hr. apply bracket_no_match.
  - inversion Hfree as [|? ? Hseg Hrest]; subst.
    destruct (IH seg' Hrest) as (lines & Hjoin & Hne & Hlen & Hfl & Hnone).
    exists (transcript_line seg :: lines).
    assert (Hlines : lines <> []) by (destruct lines; [discriminate Hlen | discriminate]).
    unfold transcribe in *. cbn [map] in *.
    rewrite join_cons by discriminate.
    set (J := PyStr.join _ (_ :: _)) in *.
    assert (Hne2 : PyStr.rstrip (NL ++ J) <> EmptyString)
      by (rewrite rstrip_app by assumption; discriminate).
    change (String PyStr.nl EmptyString) with NL.
    rewrite (rstrip_app _ _ Hne2), (rstrip_app _ _ Hne).
    repeat split.
    + rewrite join_cons by assumption. now rewrite Hjoin.
    + unfold transcript_line. discriminate.
    + cbn [List.length] in *. now rewrite Hlen.
    + constructor; [now apply transcript_line_free | assumption].
    + constructor; [apply transcript_line_no_match | assumption].
Qed.

Lemma parse_lines_none (lines : list string) (acc : list TimestampSegment) :
  Forall (fun l => match_line l = None) lines -> parse_lines acc lines = Ok acc.
Proof.
  induction 1 as [|l lines Hl _ IH]; [reflexivity|].
  cbn [parse_lines]. unfold parse_line. rewrite Hl. exact IH.
Qed.

Lemma transcribe_parse (segs : list WhisperSegment) :
  Forall (fun seg => free_of PyStr.nl (seg_text seg) = true) segs ->
  parse_transcript_with_timestamps (transcribe segs) = Ok [].
Proof.
  intros Hfree. destruct segs as [|seg segs]; [reflexivity|].
  destruct (rstrip_transcribe seg segs Hfree) as (lines & Hjoin & _ & Hlen & Hfl & Hnone).
  unfold parse_transcript_with_timestamps, lines_of, PyStr.strip.
  assert (Hl : PyStr.lstrip (transcribe (seg :: segs)) = transcribe (seg :: segs)).
  { unfold transcribe. cbn [map]. destruct segs as [|seg' segs].
    - reflexivity.
    - rewrite join_cons by discriminate. reflexivity. }
  rewrite Hl, Hjoin, split_join; [now apply parse_lines_none| |assumption].
  destruct lines; [discriminate Hlen | discriminate].
Qed.

Lemma transcribe_nonempty (seg : WhisperSegment) (segs : list WhisperSegment) :
  PyStr.falsy (transcribe (seg :: segs)) = false.
Proof.
  unfold transcribe. cbn [map]. destruct segs as [|seg' segs].
  - reflexivity.
  - rewrite join_cons by discriminate. reflexivity.
Qed.

End TranscribeFacts.

(** ** The chunks of the chunked summary *)

Module ChunkFacts.
Import Summary ChunkSpec TimestampFacts.

Lemma substring_nil (a n : nat) : String.substring a n EmptyString = EmptyString.
Proof. now destruct a, n. Qed.

Lemma substring_none (a : nat) (t : string) : String.substring a 0 t = EmptyString.
Proof.
  revert a. induction t as [|c t IH]; intros a; [apply substring_nil|].
  destruct a; [reflexivity | apply IH].
Qed.

Lemma substring_all (t : string) : String.substring 0 (String.length t) t = t.
Proof. induction t as [|c t IH]; [reflexivity|]. cbn. now rewrite IH. Qed.

(** Two slices that meet are one slice. *)
Lemma substring_app (a n m : nat) (t : string) :
  String.substring a n t ++ String.substring (a + n) m t = String.substring a (n + m) t.
Proof.
  revert a n. induction t as [|c t IH]; intros a n.
  - now rewrite !substring_nil.
  - destruct a as [|a].
    + destruct n as [|n]; [reflexivity|].
      cbn [String.substring Nat.add append]. f_equal. apply (IH 0%nat).
    + cbn [String.substring Nat.add]. apply IH.
Qed.

Lemma substring_length (a n : nat) (t : string) :
  String.length (String.substring a n t) = Nat.min n (String.length t - a).
Proof.
  revert a n. induction t as [|c t IH]; intros a n.
  - rewrite substring_nil. cbn. lia.
  - destruct a as [|a].
    + destruct n as [|n]; [reflexivity|].
      cbn [String.substring String.length]. rewrite IH. lia.
    + cbn [String.substring String.length]. rewrite IH. lia.
Qed.

(** A slice of a slice is a slice. *)
Lemma substring_substring (a n k m : nat) (t : string) :
  (k + m <= n)%nat ->
  String.substring k m (String.substring a n t) = String.substring (a + k) m t.
Proof.
  revert a n k m. induction t as [|c t IH]; intros a n k m Hle.
  - now rewrite !substring_nil.
  - destruct a as [|a].
    + destruct n as [|n].
      * assert (k = 0 /\ m = 0)%nat as [-> ->] by lia. reflexivity.
      * cbn [String.substring Nat.add]. destruct k as [|k].
        -- destruct m as [|m]; [reflexivity|].
           cbn [String.substring]. f_equal. apply (IH 0%nat n 0%nat m). lia.
        -- cbn [String.substring]. apply (IH 0%nat n k m). lia.
    + cbn [String.substring Nat.add]. now apply IH.
Qed.

(** [s[a:b]] for [0 <= a <= b <= len(s)]. *)
Lemma slice_Z_inside (a b : Z) (t : string) :
  0 <= a <= b -> b <= PyStr.len t ->
  PyStr.slice_Z a b t = String.substring (Z.to_nat a) (Z.to_nat (b - a)) t.
Proof.
  intros Ha Hb. unfold PyStr.slice_Z, PyStr.clamp_index, PyStr.slice, PyStr.len in *.
  destruct (Z.ltb_spec a 0); [lia|]. destruct (Z.ltb_spec b 0); [lia|].
  f_equal; lia.
Qed.

Lemma prefix_length (a b : string) :
  String.prefix a b = true -> (String.length a <= String.length b)%nat.
Proof.
  revert b. induction a as [|x a IH]; intros b; [cbn; lia|].
  destruct b as [|y b]; cbn [String.prefix]; [discriminate|].
  destruct (ascii_dec x y); [|discriminate]. intros H. apply IH in H. cbn. lia.
Qed.

(** Where [rfind] finds [sub], [sub] fits. *)
Lemma rfind_from_bound (i : Z) (sub s : string) :
  PyStr.rfind_from i sub s = -1
  \/ (i <= PyStr.rfind_from i sub s
      /\ PyStr.rfind_from i sub s + PyStr.len sub <= i + PyStr.len s).
Proof.
  revert i. induction s as [|c s IH]; intros i; cbn [PyStr.rfind_from].
  - destruct (String.prefix sub EmptyString) eqn:E; [|now left].
    apply prefix_length in E. unfold PyStr.len. cbn in *. right. lia.
  - destruct (Z.leb_spec 0 (PyStr.rfind_from (i + 1) sub s)) as [Hfound|Hnot].
    + destruct (IH (i + 1)) as [E|[H1 H2]]; [lia|].
      right. unfold PyStr.len in *. cbn [String.length]. lia.
    + destruct (String.prefix sub (String c s)) eqn:E; [|now left].
      apply prefix_length in E. unfold PyStr.len. right. lia.
Qed.

(** One iteration of the chunking loop, in slices of the transcript: the
    last chunk runs to the end; any other is between 1003 and 3500
    characters long, and the next one starts 500 before its end.  From
    position 2498 on no sentence boundary moves the end. *)
Lemma chunk_step_spec (t : string) (start : Z) :
  0 <= start < PyStr.len t ->
  (PyStr.len t <= start + 3500
   /\ chunk_step t start
      = (String.substring (Z.to_nat start) (Z.to_nat (PyStr.len t - start)) t, None))
  \/ (start + 3500 < PyStr.len t
      /\ exists end_,
           start + 1003 <= end_ <= start + 3500
           /\ (2498 <= start -> end_ = start + 3500)
           /\ chunk_step t start
              = (String.substring (Z.to_nat start) (Z.to_nat (end_ - start)) t,
                 Some (end_ - 500))).
Proof.
  intros Hstart. unfold chunk_step.
  destruct (Z.leb_spec (PyStr.len t) (start + 3500)) as [Hshort|Hlong].
  - left. split; [assumption|]. now rewrite slice_Z_inside by lia.
  - right. split; [assumption|].
    set (chunk_text := PyStr.slice_Z start (start + 3500) t).
    assert (Hlen : PyStr.len chunk_text = 3500).
    { unfold chunk_text. rewrite slice_Z_inside by lia.
      unfold PyStr.len in *. rewrite substring_length. lia. }
    set (break_point := Z.max _ _).
    assert (Hbp : break_point <= 3498).
    { unfold break_point, PyStr.rfind.
      destruct (rfind_from_bound 0 ". " chunk_text) as [->|[_ H1]];
        destruct (rfind_from_bound 0 "? " chunk_text) as [->|[_ H2]];
        destruct (rfind_from_bound 0 "! " chunk_text) as [->|[_ H3]];
        rewrite ?Hlen in *; unfold PyStr.len in *; cbn [String.length] in *; lia. }
    destruct (Z.ltb_spec (start + 1000) break_point) as [Hcut|Hkeep].
    + exists (start + break_point + 2).
      repeat split; try lia. now rewrite slice_Z_inside by lia.
    + exists (start + 3500).
      repeat split; try lia. now rewrite slice_Z_inside by lia.
Qed.

Lemma concat_snoc (l : list string) (x : string) :
  String.concat EmptyString (l ++ [x]) = String.concat EmptyString l ++ x.
Proof.
  induction l as [|a l IH]; [reflexivity|].
  destruct l as [|b l].
  - cbn. reflexivity.
  - change (String.concat EmptyString ((a :: b :: l) ++ [x]))
      with (a ++ String.concat EmptyString ((b :: l) ++ [x])).
    rewrite IH. cbn [String.concat append]. now rewrite append_assoc.
Qed.

Lemma reassemble_snoc (chunks : list string) (chunk : string) :
  chunks <> [] ->
  reassemble (chunks ++ [chunk]) = reassemble chunks ++ after_overlap chunk.
Proof.
  destruct chunks as [|c rest]; [contradiction|]. intros _.
  cbn [app reassemble]. rewrite map_app. cbn [map].
  now rewrite concat_snoc, append_assoc.
Qed.

(** A chunk without its first 500 characters is the slice of the
    transcript that follows them. *)
Lemma after_overlap_slice (a n : nat) (t : string) :
  (500 <= n)%nat -> (a + n <= String.length t)%nat ->
  after_overlap (String.substring a n t) = String.substring (a + 500) (n - 500) t.
Proof.
  intros Hn Hfit. unfold after_overlap.
  assert (Hlen : PyStr.len (String.substring a n t) = Z.of_nat n).
  { unfold PyStr.len. rewrite substring_length. lia. }
  rewrite slice_Z_inside by lia. rewrite Hlen.
  rewrite substring_substring by lia. f_equal. lia.
Qed.

Lemma covered_snoc (t : string) (start : Z) (acc : list string) (chunk : string) :
  reassemble (acc ++ [chunk]) = String.substring 0 (Z.to_nat (start + 500)) t ->
  start + 500 <= PyStr.len t ->
  covered t start (acc ++ [chunk]).
Proof. intros H1 H2. unfold covered. now destruct acc. Qed.

Lemma append_empty (s : string) : s ++ EmptyString = s.
Proof. induction s; cbn; congruence. Qed.

(** The loop keeps [covered], and ends with the whole transcript. *)
Lemma chunk_loop_covers (t : string) (fuel : nat) :
  forall start acc out,
    0 <= start -> covered t start acc ->
    chunk_loop fuel t start acc = Some out ->
    reassemble out = t.
Proof.
  induction fuel as [|fuel IH]; intros start acc out Hstart Hcov; cbn [chunk_loop];
    destruct (Z.ltb_spec start (PyStr.len t)) as [Hlt|Hge]; try discriminate.
  - intros [= <-]. destruct acc as [|c acc].
    + cbn in Hcov. subst start.
      unfold PyStr.len in Hge. destruct t; [reflexivity | cbn in Hge; lia].
    + destruct Hcov as [_ Hfit]. lia.
  - destruct (chunk_step_spec t start ltac:(lia))
      as [[Hshort ->]|(Hlong & end_ & Hend & _ & ->)].
    + intros [= <-]. destruct acc as [|c acc].
      * cbn in Hcov. subst start. cbn [app reassemble map String.concat].
        rewrite Z.sub_0_r. unfold PyStr.len. rewrite Nat2Z.id.
        change (Z.to_nat 0) with 0%nat. rewrite substring_all.
        apply append_empty.
      * destruct Hcov as [Hre Hfit].
        rewrite reassemble_snoc by discriminate. rewrite Hre.
        unfold PyStr.len in *.
        rewrite after_overlap_slice by lia.
        replace (Z.to_nat start + 500)%nat with (0 + Z.to_nat (start + 500))%nat by lia.
        rewrite substring_app.
        replace (Z.to_nat (start + 500)
                 + (Z.to_nat (Z.of_nat (String.length t) - start) - 500))%nat
          with (String.length t) by lia.
        apply substring_all.
    + apply IH; [lia|].
      apply covered_snoc; [|lia]. destruct acc as [|c acc].
      * cbn in Hcov. subst start. cbn [app reassemble map String.concat].
        rewrite Z.sub_0_r. change (Z.to_nat 0) with 0%nat.
        replace (end_ - 500 + 500) with end_ by lia.
        apply append_empty.
      * destruct Hcov as [Hre Hfit].
        rewrite reassemble_snoc by discriminate. rewrite Hre.
        unfold PyStr.len in *.
        rewrite after_overlap_slice by lia.
        replace (Z.to_nat start + 500)%nat with (0 + Z.to_nat (start + 500))%nat by lia.
        rewrite substring_app. f_equal. lia.
  - intros [= <-]. destruct acc as [|c acc].
    + cbn in Hcov. subst start.
      unfold PyStr.len in Hge. destruct t; [reflexivity | cbn in Hge; lia].
    + destruct Hcov as [_ Hfit]. lia.
Qed.

(** No chunk is longer than 3500 characters. *)
Lemma chunk_loop_sizes (t : string) (fuel : nat) :
  forall start acc out,
    0 <= start ->
    Forall (fun c => (String.length c <= 3500)%nat) acc ->
    chunk_loop fuel t start acc = Some out ->
    Forall (fun c => (String.length c <= 3500)%nat) out.
Proof.
  induction fuel as [|fuel IH]; intros start acc out Hstart Hacc; cbn [chunk_loop];
    destruct (Z.ltb_spec start (PyStr.len t)) as [Hlt|Hge]; try discriminate;
    try (now intros [= <-]).
  destruct (chunk_step_spec t start ltac:(lia))
    as [[Hshort ->]|(Hlong & end_ & Hend & _ & ->)].
  - intros [= <-]. apply Forall_app. split; [assumption|].
    constructor; [|constructor]. rewrite substring_length. unfold PyStr.len in *. lia.
  - apply IH; [lia|]. apply Forall_app. split; [assumption|].
    constructor; [|constructor]. rewrite substring_length. lia.
Qed.

(** After five chunks the loop is past position 2498: every further
    chunk, the last apart, is a window of 3500 characters. *)
Lemma chunk_loop_windows (t : string) (fuel : nat) :
  forall start acc out,
    0 <= start ->
    503 * Z.of_nat (List.length acc) <= start ->
    (forall i, (5 <= i < List.length acc)%nat ->
               String.length (nth i acc EmptyString) = 3500%nat) ->
    chunk_loop fuel t start acc = Some out ->
    forall i, (5 <= i)%nat -> (i + 1 < List.length out)%nat ->
              String.length (nth i out EmptyString) = 3500%nat.
Proof.
  induction fuel as [|fuel IH]; intros start acc out Hstart Hcount Hacc; cbn [chunk_loop];
    destruct (Z.ltb_spec start (PyStr.len t)) as [Hlt|Hge]; try discriminate;
    try (intros [= <-] i Hi Hlast; apply Hacc; lia).
  destruct (chunk_step_spec t start ltac:(lia))
    as [[Hshort ->]|(Hlong & end_ & Hend & Hwindow & ->)].
  - intros [= <-] i Hi Hlast. rewrite length_app in Hlast. cbn [List.length] in Hlast.
    rewrite app_nth1 by lia. apply Hacc. lia.
  - apply IH; [lia| |].
    + rewrite length_app. cbn [List.length]. lia.
    + intros i Hi. rewrite length_app in Hi. cbn [List.length] in Hi.
      destruct (Nat.eq_dec i (List.length acc)) as [->|Hne].
      * rewrite app_nth2 by lia. rewrite Nat.sub_diag. cbn [nth].
        rewrite Hwindow by lia. rewrite substring_length. unfold PyStr.len in *. lia.
      * rewrite app_nth1 by lia. apply Hacc. lia.
Qed.

(** A chunk starts at most 3000 characters after the one before it, so
    the chunks are at least as many as that stride needs. *)
Lemma chunk_loop_reach (t : string) (fuel : nat) :
  forall start acc out,
    0 <= start < PyStr.len t ->
    start <= 3000 * Z.of_nat (List.length acc) ->
    chunk_loop fuel t start acc = Some out ->
    PyStr.len t <= 3000 * (Z.of_nat (List.length out) - 1) + 3500.
Proof.
  induction fuel as [|fuel IH]; intros start acc out Hstart Hcount; cbn [chunk_loop];
    destruct (Z.ltb_spec start (PyStr.len t)) as [Hlt|Hge]; try discriminate; try lia.
  destruct (chunk_step_spec t start ltac:(lia))
    as [[Hshort ->]|(Hlong & end_ & Hend & _ & ->)].
  - intros [= <-]. rewrite length_app. cbn [List.length]. lia.
  - apply IH; [lia|]. rewrite length_app. cbn [List.length]. lia.
Qed.

End ChunkFacts.

(** ** Sorting by an integer key, and the keyword search *)

Module SortFacts.

Section Key.

Context {A : Type} (key : A -> nat).

#[local] Abbreviation falling := (fun a b : A => (key b <= key a)%nat).

Lemma insert_by_key_perm (x : A) (l : list A) :
  Permutation (x :: l) (PyList.insert_desc key x l).
Proof.
  induction l as [|y l IH]; cbn [PyList.insert_desc]; [reflexivity|].
  destruct (key x <? key y)%nat; [|reflexivity].
  rewrite perm_swap. now constructor.
Qed.

Lemma sort_by_key_perm (l : list A) : Permutation l (PyList.sort_desc key l).
Proof.
  induction l as [|x l IH]; cbn [PyList.sort_desc fold_right]; [constructor|].
  fold (PyList.sort_desc key l). rewrite <- insert_by_key_perm. now constructor.
Qed.

Lemma insert_by_key_sorted (x : A) (l : list A) :
  StronglySorted falling l -> StronglySorted falling (PyList.insert_desc key x l).
Proof.
  induction 1 as [|y l Hsorted IH Hall]; cbn [PyList.insert_desc].
  - repeat constructor.
  - destruct (Nat.ltb_spec (key x) (key y)) as [Hxy|Hxy].
    + constructor; [assumption|].
      apply (Permutation_Forall (insert_by_key_perm x l)).
      constructor; [lia | assumption].
    + constructor; [now constructor|].
      constructor; [assumption|].
      eapply Forall_impl; [|exact Hall]. cbn. intros z Hz. lia.
Qed.

Lemma sort_by_key_sorted (l : list A) : StronglySorted falling (PyList.sort_desc key l).
Proof.
  induction l as [|x l IH]; cbn [PyList.sort_desc fold_right]; [constructor|].
  now apply insert_by_key_sorted.
Qed.

(** The sort is stable: the elements of one key keep their order. *)
Lemma insert_desc_stable (k : nat) (x : A) (l : list A) :
  filter (fun a => (key a =? k)%nat) (PyList.insert_desc key x l)
  = filter (fun a => (key a =? k)%nat) (x :: l).
Proof.
  induction l as [|y l IH]; cbn [PyList.insert_desc]; [reflexivity|].
  destruct (Nat.ltb_spec (key x) (key y)) as [Hxy|Hxy]; [|reflexivity].
  cbn [filter] in *. rewrite IH.
  destruct (Nat.eqb_spec (key y) k) as [Hy|Hy];
    destruct (Nat.eqb_spec (key x) k) as [Hx|Hx]; try reflexivity. lia.
Qed.

Lemma sort_desc_stable (k : nat) (l : list A) :
  filter (fun a => (key a =? k)%nat) (PyList.sort_desc key l)
  = filter (fun a => (key a =? k)%nat) l.
Proof.
  induction l as [|x l IH]; cbn [PyList.sort_desc fold_right]; [reflexivity|].
  fold (PyList.sort_desc key l). rewrite insert_desc_stable. cbn [filter].
  now rewrite IH.
Qed.

(** In a sorted list, what [firstn] takes stands before what it leaves. *)
Lemma sorted_firstn_skipn (n : nat) (l : list A) :
  StronglySorted falling l ->
  forall a b, In a (firstn n l) -> In b (skipn n l) -> (key b <= key a)%nat.
Proof.
  intros Hs. revert n. induction Hs as [|x l Hs IH Hall]; intros n a b Ha Hb.
  - now destruct n.
  - destruct n as [|n]; [contradiction|].
    cbn [firstn skipn] in *. destruct Ha as [<-|Ha].
    + rewrite Forall_forall in Hall. apply Hall.
      rewrite <- (firstn_skipn n l). apply in_or_app. now right.
    + now apply (IH n).
Qed.

Lemma firstn_by_key_sorted (n : nat) (l : list A) :
  StronglySorted falling l -> StronglySorted falling (firstn n l).
Proof.
  intros H. revert n. induction H as [|x l Hs IH Hall]; intros [|n]; cbn [firstn];
    try constructor; auto.
  apply Forall_forall. intros y Hy.
  rewrite Forall_forall in Hall. apply Hall.
  rewrite <- (firstn_skipn n l). apply in_or_app. now left.
Qed.

End Key.

(** Sorting pairs by a key that is a function of the first component. *)
Lemma sort_desc_map {A B} (key : B -> nat) (g : A -> B) (l : list A) :
  PyList.sort_desc key (map g l) = map g (PyList.sort_desc (fun a => key (g a)) l).
Proof.
  induction l as [|x l IH]; [reflexivity|].
  cbn [map PyList.sort_desc fold_right].
  fold (PyList.sort_desc key (map g l)). fold (PyList.sort_desc (fun a => key (g a)) l).
  rewrite IH. generalize (PyList.sort_desc (fun a => key (g a)) l). intros s.
  induction s as [|y s IHs]; [reflexivity|].
  cbn [map PyList.insert_desc]. destruct (key (g x) <? key (g y))%nat; [|reflexivity].
  cbn [map]. now rewrite IHs.
Qed.

(** [l[:k]] is a [firstn]. *)
Lemma take_firstn {A} (k : Z) (l : list A) :
  exists n, PyList.take k l = firstn n l /\ (0 <= k -> n = Z.to_nat k).
Proof.
  unfold PyList.take. eexists. split; [reflexivity|].
  intros Hk. destruct (Z.ltb_spec k 0); [lia | reflexivity].
Qed.

Lemma take_map {A B} (g : A -> B) (k : Z) (l : list A) :
  PyList.take k (map g l) = map g (PyList.take k l).
Proof. unfold PyList.take. now rewrite length_map, firstn_map. Qed.

Lemma take_length {A} (k : Z) (l : list A) :
  0 <= k -> Z.of_nat (List.length (PyList.take k l)) <= k.
Proof.
  intros Hk. destruct (take_firstn k l) as (n & -> & Hn).
  rewrite (Hn Hk). pose proof (firstn_le_length (Z.to_nat k) l). lia.
Qed.

End SortFacts.

Module KeywordFacts.
Import Timestamp Keyword KeywordSpec SortFacts.

(** The loop over the segments is a filter. *)
Lemma score_segments_filter (query_words : list string) (segments : list TimestampSegment) :
  score_segments query_words segments
  = map (fun segment => (segment, overlap query_words segment))
        (filter (fun segment => (0 <? overlap query_words segment)%nat) segments).
Proof.
  induction segments as [|s l IH]; [reflexivity|].
  cbn [score_segments filter]. destruct (0 <? overlap query_words s)%nat; [|assumption].
  cbn [map]. now rewrite IH.
Qed.

(** [find_relevant_segments] in one line: the segments that share a word
    with the query, sorted by falling overlap, cut. *)
Lemma find_relevant_segments_eq (query : string) (segments : list TimestampSegment)
  (max_segments : Z) :
  find_relevant_segments query segments max_segments
  = PyList.take max_segments
      (PyList.sort_desc (shared query)
         (filter (fun segment => (0 <? shared query segment)%nat) segments)).
Proof.
  unfold find_relevant_segments. rewrite score_segments_filter.
  rewrite (sort_desc_map snd), take_map, map_map. cbn [fst snd].
  apply map_id.
Qed.

Lemma filter_firstn_prefix {A} (p : A -> bool) (n : nat) (l : list A) :
  exists rest, filter p l = (filter p (firstn n l) ++ rest)%list.
Proof.
  exists (filter p (skipn n l)). now rewrite <- filter_app, firstn_skipn.
Qed.

Lemma filter_comm {A} (p q : A -> bool) (l : list A) :
  filter p (filter q l) = filter q (filter p l).
Proof.
  induction l as [|x l IH]; [reflexivity|].
  cbn [filter]. destruct (p x) eqn:Hp, (q x) eqn:Hq; cbn [filter];
    rewrite ?Hp, ?Hq, ?IH; reflexivity.
Qed.

Lemma lower_char_space (c : ascii) :
  PyStr.is_space c = true -> PyText.lower_char c = c.
Proof.
  destruct c as [[] [] [] [] [] [] [] []]; intros H; try discriminate H; reflexivity.
Qed.

(** A text of whitespace only has no word, in whatever case. *)
Lemma words_blank (s : string) :
  TextSpec.all_chars PyStr.is_space s = true -> PyText.words (PyText.lower s) = [].
Proof.
  unfold PyText.words. induction s as [|c s IH]; [reflexivity|].
  cbn [TextSpec.all_chars PyText.lower PyText.words_from]. intros H.
  apply andb_true_iff in H as [Hc Hs].
  rewrite (lower_char_space c Hc), Hc. cbn [PyStr.falsy]. now apply IH.
Qed.

Lemma score_segments_blank (segments : list TimestampSegment) :
  score_segments [] segments = [].
Proof. induction segments as [|s l IH]; [reflexivity | exact IH]. Qed.

Lemma sharing_positive (query : string) (k : nat) (segments : list TimestampSegment) :
  (0 < k)%nat ->
  sharing query k (filter (fun segment => (0 <? shared query segment)%nat) segments)
  = sharing query k segments.
Proof.
  intros Hk. unfold sharing. induction segments as [|s l IH]; [reflexivity|].
  cbn [filter]. destruct (Nat.ltb_spec 0 (shared query s)) as [Hpos|Hzero]; cbn [filter].
  - now rewrite IH.
  - rewrite IH. destruct (Nat.eqb_spec (shared query s) k); [lia | reflexivity].
Qed.

End KeywordFacts.

(** ** The question-answering workflow, end to end *)

Section QAFacts.
Import Timestamp Citation Workflows Workflows.QA TraceSpec.

Variable load_transcript : string -> result (option string).
Variable CollectionInfo : Type.
Variable get_collection_info : string -> option CollectionInfo.
Variable similarity_search : string -> string -> nat -> result (list Document).
Variable llm_invoke : string -> result string.

#[local] Abbreviation run_qa :=
  (run_lecture_qa load_transcript CollectionInfo get_collection_info similarity_search
     llm_invoke).

(** A run that ends without an error loaded the transcript, had a
    question and got its answer from the one call to the model. *)
Lemma run_lecture_qa_success (lecture asked : string) :
  error (fst (run_qa lecture asked)) = None ->
  exists t prompt response,
    load_transcript lecture = Ok (Some t) /\ t <> EmptyString
    /\ asked <> EmptyString
    /\ transcript (fst (run_qa lecture asked)) = Some t
    /\ llm_invoke prompt = Ok response
    /\ answer (fst (run_qa lecture asked)) = Some (PyStr.strip response)
    /\ llm_calls (snd (run_qa lecture asked)) = [LlmInvoke prompt].
Proof.
  unfold run_lecture_qa, lecture_qa_workflow, seq_stage, initial_qa_state.
  unfold load_transcript_node. cbn [lecture_id].
  destruct (load_transcript lecture) as [[[|c t]|]|msg] eqn:Hload.
  all: unfold retrieve_relevant_chunks; cbn [question lecture_id set_error set_transcript];
    destruct asked as [|qc q]; cbn [PyStr.falsy].
  all: unfold generate_answer_node;
    cbn [question lecture_id set_error set_transcript PyStr.falsy].
  all: try (destruct (get_collection_info _));
    try (destruct (similarity_search _ _ _));
    cbn [question lecture_id set_error set_transcript set_context_chunks PyStr.falsy
         transcript];
    try (destruct (llm_invoke _) eqn:Hllm);
    unfold extract_sources_node;
    cbn [question lecture_id set_error set_transcript set_context_chunks set_answer
         PyStr.falsy transcript];
    try (destruct (rbind _ _));
    cbn [fst snd error set_error set_sources set_answer set_context_chunks set_transcript
         transcript answer];
    try discriminate.
  all: intros _; eexists _, _, _; repeat split; try eassumption; try discriminate;
    reflexivity.
Qed.

(** The trace of a run: the transcript is loaded first and once, the
    model is called at most once, and there are at most four calls. *)
Lemma run_lecture_qa_calls (lecture asked : string) :
  exists rest,
    snd (run_qa lecture asked) = LoadTranscript lecture :: rest
    /\ transcript_loads rest = []
    /\ (List.length (llm_calls rest) <= 1)%nat
    /\ (List.length rest <= 3)%nat.
Proof.
  unfold run_lecture_qa, lecture_qa_workflow, seq_stage, initial_qa_state.
  unfold load_transcript_node. cbn [lecture_id].
  destruct (load_transcript lecture) as [[[|c t]|]|msg] eqn:Hload.
  all: unfold retrieve_relevant_chunks; cbn [QA.question lecture_id set_error set_transcript];
    destruct asked as [|qc q]; cbn [PyStr.falsy].
  all: unfold generate_answer_node;
    cbn [QA.question lecture_id set_error set_transcript PyStr.falsy].
  all: try (destruct (get_collection_info _));
    try (destruct (similarity_search _ _ _));
    cbn [QA.question lecture_id set_error set_transcript set_context_chunks PyStr.falsy
         transcript];
    try (destruct (llm_invoke _) eqn:Hllm);
    unfold extract_sources_node;
    cbn [QA.question lecture_id set_error set_transcript set_context_chunks set_answer
         PyStr.falsy transcript];
    try (destruct (rbind _ _));
    cbn [fst snd app].
  all: eexists; repeat split; cbn; lia.
Qed.

(** No stage changes the lecture or the question. *)
Lemma run_lecture_qa_keeps (lecture asked : string) :
  lecture_id (fst (run_qa lecture asked)) = lecture
  /\ QA.question (fst (run_qa lecture asked)) = Some asked.
Proof.
  unfold run_lecture_qa, lecture_qa_workflow, seq_stage, initial_qa_state.
  unfold load_transcript_node. cbn [lecture_id].
  destruct (load_transcript lecture) as [[[|c t]|]|msg] eqn:Hload.
  all: unfold retrieve_relevant_chunks; cbn [QA.question lecture_id set_error set_transcript];
    destruct asked as [|qc q]; cbn [PyStr.falsy].
  all: unfold generate_answer_node;
    cbn [QA.question lecture_id set_error set_transcript PyStr.falsy].
  all: try (destruct (get_collection_info _));
    try (destruct (similarity_search _ _ _));
    cbn [QA.question lecture_id set_error set_transcript set_context_chunks PyStr.falsy
         transcript];
    try (destruct (llm_invoke _) eqn:Hllm);
    unfold extract_sources_node;
    cbn [QA.question lecture_id set_error set_transcript set_context_chunks set_answer
         PyStr.falsy transcript];
    try (destruct (rbind _ _));
    split; reflexivity.
Qed.

(** An error, when one is set, is a text that is not empty. *)
Lemma run_lecture_qa_error_text (lecture asked : string) :
  PyStr.falsy_opt (error (fst (run_qa lecture asked))) = true ->
  error (fst (run_qa lecture asked)) = None.
Proof.
  unfold run_lecture_qa, lecture_qa_workflow, seq_stage, initial_qa_state.
  unfold load_transcript_node. cbn [lecture_id].
  destruct (load_transcript lecture) as [[[|c t]|]|msg] eqn:Hload.
  all: unfold retrieve_relevant_chunks; cbn [QA.question lecture_id set_error set_transcript];
    destruct asked as [|qc q]; cbn [PyStr.falsy].
  all: unfold generate_answer_node;
    cbn [QA.question lecture_id set_error set_transcript PyStr.falsy].
  all: try (destruct (get_collection_info _));
    try (destruct (similarity_search _ _ _));
    cbn [QA.question lecture_id set_error set_transcript set_context_chunks PyStr.falsy
         transcript];
    try (destruct (llm_invoke _) eqn:Hllm);
    unfold extract_sources_node;
    cbn [QA.question lecture_id set_error set_transcript set_context_chunks set_answer
         PyStr.falsy transcript];
    try (destruct (rbind _ _));
    cbn [fst snd error set_error set_sources set_answer set_context_chunks set_transcript
         transcript answer PyStr.falsy_opt PyStr.falsy append];
    try discriminate; reflexivity.
Qed.

(** Every source gathered is the citation of a segment that overlaps
    one of the chunks. *)
Lemma collect_sources_from (segments : list TimestampSegment) (chunks : list string) :
  forall acc out,
    collect_sources segments chunks acc = Ok out ->
    forall src, In src out ->
      In src acc
      \/ exists chunk seg, In chunk chunks /\ In seg segments
                           /\ overlaps chunk seg = true /\ source_of seg = Ok src.
Proof.
  induction chunks as [|chunk chunks IH]; intros acc out; cbn [collect_sources].
  - intros [= <-] src Hin. now left.
  - destruct (first_match chunk segments) as [seg|] eqn:Hm.
    + destruct (source_of seg) as [source|msg] eqn:Hs; cbn [rbind]; [|discriminate].
      intros Hout src Hin.
      destruct (IH _ _ Hout src Hin) as [Hacc|(c & sg & Hc & Hsg & Ho & Hsrc)].
      * apply in_app_or in Hacc as [Hacc|[<-|[]]]; [now left|].
        right. exists chunk, seg. apply find_some in Hm as [Hseg Hov].
        repeat split; auto. now left.
      * right. exists c, sg. repeat split; auto. now right.
    + intros Hout src Hin.
      destruct (IH _ _ Hout src Hin) as [Hacc|(c & sg & Hc & Hsg & Ho & Hsrc)];
        [now left|].
      right. exists c, sg. repeat split; auto. now right.
Qed.

(** In a run without an error, every source is the citation of a segment
    of the loaded transcript. *)
Lemma run_lecture_qa_sources (lecture asked t : string) :
  error (fst (run_qa lecture asked)) = None ->
  load_transcript lecture = Ok (Some t) ->
  exists segments,
    parse_transcript_with_timestamps t = Ok segments
    /\ forall src, In src (sources (fst (run_qa lecture asked))) ->
         exists seg, In seg segments /\ source_of seg = Ok src.
Proof.
  intros Herr Hload. revert Herr.
  unfold run_lecture_qa, lecture_qa_workflow, seq_stage, initial_qa_state.
  unfold load_transcript_node. cbn [lecture_id]. rewrite Hload.
  destruct t as [|c t]; cbn [PyStr.falsy].
  all: unfold retrieve_relevant_chunks; cbn [QA.question lecture_id set_error set_transcript];
    destruct asked as [|qc q]; cbn [PyStr.falsy].
  all: unfold generate_answer_node;
    cbn [QA.question lecture_id set_error set_transcript PyStr.falsy].
  all: try (destruct (get_collection_info _));
    try (destruct (similarity_search _ _ _));
    cbn [QA.question lecture_id set_error set_transcript set_context_chunks PyStr.falsy
         transcript];
    try (destruct (llm_invoke _) eqn:Hllm);
    unfold extract_sources_node;
    cbn [QA.question lecture_id set_error set_transcript set_context_chunks set_answer
         PyStr.falsy transcript context_chunks];
    try (destruct (rbind _ _) as [found|] eqn:Hsrc);
    cbn [fst snd error set_error set_sources set_answer set_context_chunks set_transcript
         transcript answer sources];
    try discriminate.
  all: intros _;
    destruct (parse_transcript_with_timestamps (String c t)) as [segments|] eqn:Hparse;
    [|discriminate Hsrc]; cbn [rbind] in Hsrc;
    exists segments; split; [reflexivity|];
    intros src Hin;
    destruct (collect_sources_from _ _ _ _ Hsrc src Hin) as [[]|(ch & seg & _ & Hseg & _ & Hs)];
    now exists seg.
Qed.

End QAFacts.

(** ** The multi-lecture search, end to end *)

Section MultiFacts.
Import Timestamp Citation Workflows RankSpec RankFacts TraceSpec.

Variable load_transcript : string -> result (option string).
Variable CollectionInfo : Type.
Variable get_collection_info : string -> option CollectionInfo.
Variable similarity_search : string -> string -> nat -> result (list Document).
Variable llm_invoke : string -> result string.

#[local] Abbreviation search_lecture :=
  (search_lecture_node load_transcript CollectionInfo get_collection_info similarity_search).
#[local] Abbreviation run_search :=
  (Insights.run_multi_lecture_search load_transcript CollectionInfo get_collection_info
     similarity_search llm_invoke).

Lemma collect_results_lecture (id : string) (segments : list TimestampSegment)
  (docs : list Document) :
  forall acc, Forall (fun r => res_lecture_id r = id) acc ->
    Forall (fun r => res_lecture_id r = id) (fst (collect_results id segments docs acc)).
Proof.
  induction docs as [|doc docs IH]; intros acc Hacc; cbn [collect_results]; [assumption|].
  destruct (result_of id segments doc) as [r|msg] eqn:Hr; [|assumption].
  apply IH. apply Forall_app. split; [assumption|].
  constructor; [|constructor].
  unfold result_of in Hr. destruct (first_match _ _).
  - destruct (format_timestamp_for_video _); [|discriminate]. cbn [rbind] in Hr.
    now injection Hr as <-.
  - now injection Hr as <-.
Qed.

(** What a lecture contributes carries the id of that lecture. *)
Lemma search_lecture_node_lecture (state : Multi.MultiLectureState) (id : string) :
  Forall (fun r => res_lecture_id r = id) (fst (search_lecture state id)).
Proof.
  unfold search_lecture_node.
  destruct (get_collection_info _); [|constructor].
  destruct (similarity_search _ _ _) as [docs|]; [|constructor].
  destruct (load_transcript id) as [[t|]|]; try constructor.
  destruct (PyStr.falsy t); [constructor|].
  destruct (parse_transcript_with_timestamps t) as [segments|]; [|constructor].
  pose proof (collect_results_lecture id segments docs [] (Forall_nil _)) as H.
  destruct (collect_results id segments docs []) as [found [msg|]];
    [constructor | exact H].
Qed.

Lemma llm_calls_app (a b : list call) :
  llm_calls (a ++ b) = (llm_calls a ++ llm_calls b)%list.
Proof. apply filter_app. Qed.

(** The search of the lectures never calls the model. *)
Lemma search_lectures_no_llm (state : Multi.MultiLectureState) (ids : list string) :
  forall acc calls,
    llm_calls (snd (search_lectures load_transcript CollectionInfo get_collection_info
                      similarity_search state ids acc calls))
    = llm_calls calls.
Proof.
  induction ids as [|id ids IH]; intros acc calls; cbn [search_lectures]; [reflexivity|].
  destruct (search_lecture state id) as [found made] eqn:Hs.
  rewrite IH, llm_calls_app.
  assert (Hmade : llm_calls made = []).
  { revert Hs. unfold search_lecture_node.
    destruct (get_collection_info _); [|now intros [= _ <-]].
    destruct (similarity_search _ _ _) as [docs|]; [|now intros [= _ <-]].
    destruct (load_transcript id) as [[t|]|]; try (now intros [= _ <-]).
    destruct (PyStr.falsy t); [now intros [= _ <-]|].
    destruct (parse_transcript_with_timestamps t) as [segments|]; [|now intros [= _ <-]].
    destruct (collect_results id segments docs []) as [f [msg|]]; now intros [= _ <-]. }
  rewrite Hmade. apply app_nil_r.
Qed.

(** The run of the search workflow: the results are at most 20, sorted
    by falling score, each of a lecture that was asked for; the model is
    called at most once, and only when there are results; the run ends
    with an error or with a consolidated answer. *)
Lemma run_multi_lecture_search_spec (asked : string) (ids : list string) :
  let final := fst (run_search asked ids) in
  Forall (fun r => In (res_lecture_id r) ids) (Multi.results final)
  /\ (List.length (Multi.results final) <= 20)%nat
  /\ StronglySorted by_score_desc (Multi.results final)
  /\ (List.length (llm_calls (snd (run_search asked ids))) <= 1)%nat
  /\ (Multi.results final = [] -> llm_calls (snd (run_search asked ids)) = [])
  /\ (PyStr.falsy_opt (Multi.error final) = true ->
      Multi.error final = None /\ Multi.consolidated_answer final <> None)
  /\ Multi.query final = asked /\ Multi.lecture_ids final = ids.
Proof.
  unfold Insights.run_multi_lecture_search, multi_lecture_search_workflow, seq_stage.
  set (state := Insights.initial_search_state asked ids).
  unfold search_all_lectures_node.
  pose proof (search_lectures_pools load_transcript CollectionInfo get_collection_info
                similarity_search state (Multi.lecture_ids state) [] []) as Hpool.
  pose proof (search_lectures_no_llm state (Multi.lecture_ids state) [] []) as Hcalls.
  destruct (search_lectures _ _ _ _ state (Multi.lecture_ids state) [] [])
    as [all_results calls] eqn:Hsearch.
  cbn [fst snd app] in Hpool, Hcalls.
  assert (Hids : Forall (fun r => In (res_lecture_id r) ids) (rank all_results 20)).
  { apply Forall_forall. intros r Hr. apply rank_incl in Hr.
    rewrite Hpool in Hr. apply in_flat_map in Hr as (id & Hid & Hr).
    pose proof (search_lecture_node_lecture state id) as Hl.
    rewrite Forall_forall in Hl. now rewrite (Hl r Hr). }
  unfold consolidate_answer_node. cbn [Multi.results Multi.set_results Multi.query].
  destruct (rank all_results 20) as [|r rs] eqn:Hrank.
  - cbn [fst snd Multi.results Multi.set_consolidated_answer Multi.set_results
         Multi.error Multi.consolidated_answer Multi.query Multi.lecture_ids].
    rewrite app_nil_r, Hcalls.
    repeat split; try constructor; try discriminate; cbn; lia.
  - assert (Hlen : (List.length (r :: rs) <= 20)%nat)
      by (rewrite <- Hrank; apply rank_length).
    assert (Hsorted : StronglySorted by_score_desc (r :: rs))
      by (rewrite <- Hrank; apply rank_sorted).
    destruct (llm_invoke _);
      cbn [fst snd Multi.results Multi.set_consolidated_answer Multi.set_results
           Multi.set_error Multi.error Multi.consolidated_answer Multi.query
           Multi.lecture_ids PyStr.falsy_opt PyStr.falsy append];
      rewrite llm_calls_app, Hcalls;
      repeat split; try assumption; try discriminate; cbn; lia.
Qed.

End MultiFacts.

(** ** The routes *)

Module SetFacts.

Lemma mem_In (x : string) (l : list string) : PyList.mem x l = true <-> In x l.
Proof.
  unfold PyList.mem. rewrite existsb_exists. split.
  - intros (y & Hy & He). apply String.eqb_eq in He. now subst.
  - intros H. exists x. split; [assumption | apply String.eqb_refl].
Qed.

(** [set(a) - set(b)] is empty exactly when every element of [a] is in [b]. *)
Lemma set_minus_empty (a b : list string) :
  PyList.set_minus a b = [] <-> forall x, In x a -> In x b.
Proof.
  unfold PyList.set_minus, PyList.set_of. split.
  - intros H x Hx.
    destruct (PyList.mem x b) eqn:Hm; [now apply mem_In|].
    assert (Hin : In x (filter (fun y => negb (PyList.mem y b)) (nodup string_dec a))).
    { apply filter_In. split; [now apply nodup_In | now rewrite Hm]. }
    rewrite H in Hin. contradiction.
  - intros H. destruct (filter _ _) as [|x l] eqn:E; [reflexivity|].
    assert (Hin : In x (filter (fun y => negb (PyList.mem y b)) (nodup string_dec a)))
      by (rewrite E; now left).
    apply filter_In in Hin as [Hx Hm]. apply nodup_In in Hx.
    apply H, mem_In in Hx. now rewrite Hx in Hm.
Qed.

Lemma take_opt_firstn {A} (k : option Z) (l : list A) :
  exists n, PyList.take_opt k l = firstn n l
            /\ (forall z, k = Some z -> 0 <= z -> n = Z.to_nat z).
Proof.
  destruct k as [k|]; cbn [PyList.take_opt].
  - destruct (SortFacts.take_firstn k l) as (n & Hn & Hk). exists n.
    split; [assumption|]. now intros z [= ->].
  - exists (List.length l). split; [now rewrite firstn_all | discriminate].
Qed.

End SetFacts.

(** ** [ask_question] *)

Section RagFacts.
Import Timestamp Citation TraceSpec.

Variable load_transcript : string -> result (option string).
Variable llm_invoke : string -> result string.

Lemma ask_question_missing (store : string -> nat -> result (list Document))
  (asked lecture : string) (loaded : option string) :
  load_transcript lecture = Ok loaded -> PyStr.falsy_opt loaded = true ->
  Rag.ask_question load_transcript store llm_invoke asked lecture
  = (Ok ("Transcript not found for this lecture.", []), [LoadTranscript lecture]).
Proof. intros Hload Hfalsy. unfold Rag.ask_question. now rewrite Hload, Hfalsy. Qed.

Lemma ask_question_unreadable (store : string -> nat -> result (list Document))
  (asked lecture msg : string) :
  load_transcript lecture = Raise msg ->
  Rag.ask_question load_transcript store llm_invoke asked lecture
  = (Raise msg, [LoadTranscript lecture]).
Proof. intros Hload. unfold Rag.ask_question. now rewrite Hload. Qed.

(** The trace of [ask_question]: one load, at most one call to the model. *)
Lemma ask_question_trace (store : string -> nat -> result (list Document))
  (asked lecture : string) :
  transcript_loads (snd (Rag.ask_question load_transcript store llm_invoke asked lecture))
  = [LoadTranscript lecture]
  /\ (List.length
        (llm_calls (snd (Rag.ask_question load_transcript store llm_invoke asked lecture)))
      <= 1)%nat.
Proof.
  unfold Rag.ask_question.
  destruct (load_transcript lecture) as [loaded|]; [destruct (PyStr.falsy_opt loaded)|];
    cbn; split; (reflexivity || lia).
Qed.

(** With a transcript, the answer is made from the whole transcript and
    the question alone. *)
Lemma ask_question_answer (store : string -> nat -> result (list Document))
  (asked lecture t answer : string) (sources : list Source) :
  load_transcript lecture = Ok (Some t) -> t <> EmptyString ->
  fst (Rag.ask_question load_transcript store llm_invoke asked lecture) = Ok (answer, sources) ->
  answer = match llm_invoke (Rag.ask_prompt t asked) with
           | Ok response => PyStr.strip response
           | Raise msg => "Error generating answer: " ++ msg
           end
  /\ exists segments,
       parse_transcript_with_timestamps t = Ok segments
       /\ collect_sources segments
            match store asked 5%nat with
            | Ok docs => map page_content docs
            | Raise _ => fallback_chunks t
            end [] = Ok sources.
Proof.
  intros Hload Hne. unfold Rag.ask_question. rewrite Hload.
  destruct t as [|c t]; [contradiction|]. cbn [PyStr.falsy_opt PyStr.falsy fst].
  destruct (parse_transcript_with_timestamps (String c t)) as [segments|]; [|discriminate].
  cbn [rbind]. destruct (collect_sources segments _ []) as [found|] eqn:Hc; [|discriminate].
  cbn [rbind]. intros [= <- <-]. split; [reflexivity|].
  exists segments. split; [reflexivity | exact Hc].
Qed.

End RagFacts.

(* ================================================================== *)
(** * Further properties of the code *)

Section TranscribedLectures.
Import Timestamp TimestampSpec Transcription TranscribeFacts Citation Routes RouteSpec.

(** X1.  Whatever segments the speech-to-text engine yields, as long as
    their texts hold no newline, the transcript that [transcribe] builds
    from them parses to no segment at all: every line it writes carries
    its times as seconds with two decimals, and stripping the transcript
    does not change that.  The transcript itself is not empty when there
    is a segment. *)
Theorem transcribed_transcript_parses_to_nothing (segs : list WhisperSegment) :
  Forall (fun seg => free_of PyStr.nl (seg_text seg) = true) segs ->
  parse_transcript_with_timestamps (transcribe segs) = Ok []
  /\ (segs <> [] -> PyStr.falsy (transcribe segs) = false).
Proof.
  intros Hfree. split; [now apply transcribe_parse|].
  destruct segs as [|seg segs]; [intros H; now contradiction H|].
  intros _. apply transcribe_nonempty.
Qed.

Lemma transcribed_transcript_parses_to_nothing_witness :
  parse_transcript_with_timestamps (transcribe whisper_segments) = Ok []
  /\ PyStr.falsy (transcribe whisper_segments) = false.
Proof.
  assert (Hfree : Forall (fun seg => free_of PyStr.nl (seg_text seg) = true)
                         whisper_segments)
    by (repeat constructor).
  destruct (transcribed_transcript_parses_to_nothing whisper_segments Hfree) as [H1 H2].
  split; [exact H1 | apply H2; discriminate].
Defined.

Variable verify_lecture_ownership : string -> nat -> bool.
Variable load_transcript : string -> result (option string).


End TranscribedLectures.


Section KeywordProperties.
Import Timestamp Citation Keyword KeywordSpec SortFacts KeywordFacts Routes.

(** X3.  [find_relevant_segments], for every query, list of segments and
    limit: every segment found is one of the given segments and shares
    at least one word with the query; the segments found stand by
    non-increasing number of shared words; a limit that is not negative
    bounds their number; among segments that share the same number of
    words the order of the transcript is kept and the earlier ones are
    taken first; no segment left out shares more words than one that was
    found; a query without a word (empty, or whitespace only) finds
    nothing; and two queries that differ only in the case of their
    letters find the same. *)
Theorem find_relevant_segments_ranks
  (query : string) (segments : list TimestampSegment) (max_segments : Z) :
  let found := find_relevant_segments query segments max_segments in
  (forall seg, In seg found -> In seg segments /\ (0 < shared query seg)%nat)
  /\ StronglySorted (by_overlap_desc query) found
  /\ (0 <= max_segments -> Z.of_nat (List.length found) <= max_segments)
  /\ (forall k, (0 < k)%nat ->
        exists rest, sharing query k segments = (sharing query k found ++ rest)%list)
  /\ (forall seg best, In seg segments -> In best found -> ~ In seg found ->
        (shared query seg <= shared query best)%nat)
  /\ (TextSpec.all_chars PyStr.is_space query = true -> found = [])
  /\ (forall other, PyText.lower other = PyText.lower query ->
        find_relevant_segments other segments max_segments = found).
Proof.
  intros found.
  assert (Hfound : found
                   = PyList.take max_segments
                       (PyList.sort_desc (shared query)
                          (filter (fun s => (0 <? shared query s)%nat) segments)))
    by apply find_relevant_segments_eq.
  set (pool := filter (fun s => (0 <? shared query s)%nat) segments) in *.
  set (sorted := PyList.sort_desc (shared query) pool) in *.
  destruct (take_firstn max_segments sorted) as (n & Hn & Hmax).
  rewrite Hn in Hfound.
  assert (Hperm : Permutation pool sorted) by apply sort_by_key_perm.
  assert (Hsorted : StronglySorted (by_overlap_desc query) sorted)
    by apply (sort_by_key_sorted (shared query)).
  repeat split.
  - rewrite Hfound in H. apply RankFacts.firstn_In in H.
    apply (Permutation_in _ (Permutation_sym Hperm)) in H.
    now apply filter_In in H as [H _].
  - rewrite Hfound in H. apply RankFacts.firstn_In in H.
    apply (Permutation_in _ (Permutation_sym Hperm)) in H.
    apply filter_In in H as [_ H]. now apply Nat.ltb_lt.
  - rewrite Hfound. now apply (firstn_by_key_sorted (shared query)).
  - intros Hk. rewrite Hfound, (Hmax Hk).
    pose proof (firstn_le_length (Z.to_nat max_segments) sorted). lia.
  - intros k Hk. rewrite Hfound.
    destruct (filter_firstn_prefix (fun s => (shared query s =? k)%nat) n sorted)
      as [rest Hrest].
    exists rest. unfold sharing at 2. rewrite <- Hrest.
    unfold sorted. rewrite (sort_desc_stable (shared query)).
    symmetry. now apply sharing_positive.
  - intros seg best Hseg Hbest Hout.
    destruct (Nat.ltb_spec 0 (shared query seg)) as [Hpos|]; [|lia].
    assert (Hin : In seg sorted).
    { apply (Permutation_in _ Hperm). apply filter_In. split; [assumption|].
      now apply Nat.ltb_lt. }
    rewrite <- (firstn_skipn n sorted) in Hin. rewrite Hfound in Hout, Hbest.
    apply in_app_or in Hin as [Hin|Hin]; [contradiction|].
    exact (sorted_firstn_skipn (shared query) n sorted Hsorted best seg Hbest Hin).
  - intros Hblank. subst found. unfold find_relevant_segments, word_set.
    rewrite (words_blank query Hblank). cbn [PyList.set_of nodup].
    rewrite score_segments_blank. cbn [PyList.sort_desc fold_right].
    unfold PyList.take. now rewrite firstn_nil.
  - intros other Hother. subst found. unfold find_relevant_segments, word_set.
    now rewrite Hother.
Qed.

End KeywordProperties.

Section RouteProperties.
Import Timestamp TimestampSpec TimestampFacts Citation Workflows Routes RouteSpec.
Import KeywordSpec SortFacts KeywordFacts TraceSpec RankSpec SetFacts.

Variable verify_lecture_ownership : string -> nat -> bool.
Variable get_user_lecture_ids : nat -> list string.
Variable set_order : list string -> list string.
Variable load_transcript : string -> result (option string).
Variable CollectionInfo : Type.
Variable get_collection_info : string -> option CollectionInfo.
Variable similarity_search : string -> string -> nat -> result (list Document).
Variable llm_invoke : string -> result string.

#[local] Abbreviation transcript_of := (get_transcript verify_lecture_ownership load_transcript).
#[local] Abbreviation search_in :=
  (search_transcript verify_lecture_ownership load_transcript).
#[local] Abbreviation ask_route :=
  (ask verify_lecture_ownership load_transcript CollectionInfo get_collection_info
     similarity_search llm_invoke).
#[local] Abbreviation multi_route :=
  (multi_lecture_search get_user_lecture_ids set_order load_transcript CollectionInfo
     get_collection_info similarity_search llm_invoke).

Lemma last_cons {A} (l : list A) :
  forall x d, List.last (x :: l) d = List.last l x.
Proof.
  induction l as [|y l IH]; intros x d; [reflexivity|].
  change (List.last (x :: y :: l) d) with (List.last (y :: l) d).
  now rewrite (IH y d), (IH y x).
Qed.

Lemma duration_of_last (segs : list TimestampSegment) :
  duration_of segs = match last_of segs with
                     | Some seg => end_time seg
                     | None => 0%float
                     end.
Proof.
  destruct segs as [|seg segs]; [reflexivity|].
  unfold duration_of, last_of. f_equal. apply last_cons.
Qed.

(** X4.  [get_transcript], for every lecture, user and backend: without
    ownership it raises 403 and does not load the transcript; with it the
    transcript is loaded once, and then the route raises 404 when there
    is no transcript or an empty one, and otherwise always responds (the
    parser raises nothing) with the parsed segments and, as total
    duration, the end time of the last segment in the transcript ([0.0]
    without segments), whether or not a segment before it ends later.
    Only an exception of [load_transcript] itself leaves the route. *)
Theorem get_transcript_outcomes (lecture_id : string) (user_id : nat) :
  (verify_lecture_ownership lecture_id user_id = false ->
   transcript_of lecture_id user_id = (HTTPException 403 "Access denied", []))
  /\ (verify_lecture_ownership lecture_id user_id = true ->
      snd (transcript_of lecture_id user_id) = [LoadTranscript lecture_id]
      /\ (forall msg, load_transcript lecture_id = Raise msg ->
                      fst (transcript_of lecture_id user_id) = Uncaught msg)
      /\ (forall loaded, load_transcript lecture_id = Ok loaded ->
            PyStr.falsy_opt loaded = true ->
            fst (transcript_of lecture_id user_id)
            = HTTPException 404 "Transcript not found")
      /\ (forall t, load_transcript lecture_id = Ok (Some t) -> t <> EmptyString ->
            exists segs,
              parse_transcript_with_timestamps t = Ok segs
              /\ line_by_line (lines_of t) segs
              /\ fst (transcript_of lecture_id user_id)
                 = Respond (mkTranscriptResponse segs
                              match last_of segs with
                              | Some seg => end_time seg
                              | None => 0%float
                              end))).
Proof.
  unfold get_transcript. split; [now intros ->|].
  intros ->. cbn [negb].
  repeat split.
  - destruct (load_transcript lecture_id) as [loaded|]; [|reflexivity].
    destruct (PyStr.falsy_opt loaded); [reflexivity|].
    now destruct (parse_transcript_with_timestamps _).
  - now intros msg ->.
  - now intros loaded -> ->.
  - intros t -> Hne. destruct (parse_spec t) as (segs & Hparse & Hlines).
    exists segs. repeat split; try assumption.
    destruct t; [contradiction|]. cbn [PyStr.falsy_opt PyStr.falsy].
    now rewrite Hparse, duration_of_last.
Qed.

(** X5.  [search_transcript], for every lecture, query, limit, user and
    backend: 403 without ownership, with no transcript loaded; 404 for a
    missing or empty transcript; otherwise a response that always comes
    (the parser raises nothing) with the segments [find_relevant_segments]
    picks from the parsed transcript, in its order, [total_found] being
    their number, at most [limit] when that is not negative.  Each result
    carries as [video_timestamp] the [HH:MM:SS.cc] text of its start, the
    same string as [start_str]. *)
Theorem search_transcript_outcomes (lecture_id q : string) (limit : Z) (user_id : nat) :
  (verify_lecture_ownership lecture_id user_id = false ->
   search_in lecture_id q limit user_id = (HTTPException 403 "Access denied", []))
  /\ (verify_lecture_ownership lecture_id user_id = true ->
      snd (search_in lecture_id q limit user_id) = [LoadTranscript lecture_id]
      /\ (forall msg, load_transcript lecture_id = Raise msg ->
                      fst (search_in lecture_id q limit user_id) = Uncaught msg)
      /\ (forall loaded, load_transcript lecture_id = Ok loaded ->
            PyStr.falsy_opt loaded = true ->
            fst (search_in lecture_id q limit user_id)
            = HTTPException 404 "Transcript not found")
      /\ (forall t, load_transcript lecture_id = Ok (Some t) -> t <> EmptyString ->
            exists segs,
              let found := Keyword.find_relevant_segments q segs limit in
              parse_transcript_with_timestamps t = Ok segs
              /\ fst (search_in lecture_id q limit user_id)
                 = Respond (mkTranscriptSearch (map hit_of found) q (List.length found))
              /\ (0 <= limit -> Z.of_nat (List.length found) <= limit)
              /\ Forall (fun hit => src_video_timestamp hit = src_start_str hit
                                    /\ timestamp_shape (src_video_timestamp hit))
                        (map hit_of found))).
Proof.
  unfold search_transcript. split; [now intros ->|].
  intros ->. cbn [negb].
  repeat split.
  - destruct (load_transcript lecture_id) as [loaded|]; [|reflexivity].
    destruct (PyStr.falsy_opt loaded); [reflexivity|].
    now destruct (parse_transcript_with_timestamps _).
  - now intros msg ->.
  - now intros loaded -> ->.
  - intros t -> Hne. destruct (parse_spec t) as (segs & Hparse & Hlines).
    exists segs. cbv zeta.
    assert (Hfound : forall seg,
               In seg (Keyword.find_relevant_segments q segs limit) -> In seg segs).
    { intros seg Hin. rewrite find_relevant_segments_eq in Hin.
      destruct (take_firstn limit
                  (PyList.sort_desc (shared q)
                     (filter (fun s => (0 <? shared q s)%nat) segs))) as (n & Hn & _).
      rewrite Hn in Hin. apply RankFacts.firstn_In in Hin.
      apply (Permutation_in _ (Permutation_sym (sort_by_key_perm (shared q) _))) in Hin.
      now apply filter_In in Hin as [Hin _]. }
    repeat split.
    + assumption.
    + destruct t; [contradiction|]. cbn [PyStr.falsy_opt PyStr.falsy].
      now rewrite Hparse, length_map.
    + intros Hlimit. rewrite find_relevant_segments_eq. now apply take_length.
    + apply Forall_forall. intros hit Hhit.
      apply in_map_iff in Hhit as (seg & <- & Hseg). cbn [hit_of src_video_timestamp
        src_start_str]. split; [reflexivity|].
      destruct (line_by_line_in _ _ Hlines seg (Hfound seg Hseg))
        as (a & b & txt & _ & Ha & _ & _ & _ & _ & _ & <- & _).
      exact Ha.
Qed.

End RouteProperties.

Section AnswerProperties.
Import Timestamp Citation Workflows Routes TraceSpec.

Variable verify_lecture_ownership : string -> nat -> bool.
Variable load_transcript : string -> result (option string).
Variable CollectionInfo : Type.
Variable get_collection_info : string -> option CollectionInfo.
Variable similarity_search : string -> string -> nat -> result (list Document).
Variable llm_invoke : string -> result string.

#[local] Abbreviation ask_with store := (Rag.ask_question load_transcript store llm_invoke).
#[local] Abbreviation run_qa :=
  (run_lecture_qa load_transcript CollectionInfo get_collection_info similarity_search
     llm_invoke).
#[local] Abbreviation ask_route :=
  (ask verify_lecture_ownership load_transcript CollectionInfo get_collection_info
     similarity_search llm_invoke).



End AnswerProperties.


Section SearchProperties.
Import Timestamp Citation Workflows Routes TraceSpec RankSpec RankFacts SetFacts.

Variable get_user_lecture_ids : nat -> list string.
Variable set_order : list string -> list string.
Variable load_transcript : string -> result (option string).
Variable CollectionInfo : Type.
Variable get_collection_info : string -> option CollectionInfo.
Variable similarity_search : string -> string -> nat -> result (list Document).
Variable llm_invoke : string -> result string.

#[local] Abbreviation run_search :=
  (Insights.run_multi_lecture_search load_transcript CollectionInfo get_collection_info
     similarity_search llm_invoke).
#[local] Abbreviation multi_route :=
  (multi_lecture_search get_user_lecture_ids set_order load_transcript CollectionInfo
     get_collection_info similarity_search llm_invoke).



End SearchProperties.

Section WorkflowProperties.
Import Timestamp Citation Workflows TraceSpec TimestampSpec TimestampFacts StripFacts.

Variable load_transcript : string -> result (option string).
Variable CollectionInfo : Type.
Variable get_collection_info : string -> option CollectionInfo.
Variable similarity_search : string -> string -> nat -> result (list Document).
Variable llm_invoke : string -> result string.
Variable json_loads : string -> option (list (string * string)).

#[local] Abbreviation run_qa :=
  (run_lecture_qa load_transcript CollectionInfo get_collection_info similarity_search
     llm_invoke).
#[local] Abbreviation topics := (Insights.extract_key_topics_node llm_invoke).
#[local] Abbreviation important_timestamps :=
  (Insights.extract_important_timestamps_node llm_invoke json_loads).


(** X11.  [extract_key_topics_node], for every state and model.  Without
    a transcript (none, or an empty one) it returns the state unchanged
    and calls nothing.  Otherwise it calls the model once; on an answer
    the topics become the pieces of the answer between its commas, each
    stripped: one topic more than the answer has commas (so never an
    empty list, an empty answer giving the one empty topic), none holding
    a comma or having whitespace at either end; the error field is left
    as it was.  Summary, transcript, and timestamps are never touched. *)
Theorem key_topics_are_the_stripped_pieces (state : Summarization.SummarizationState) :
  let after := fst (topics state) in
  Summarization.summary after = Summarization.summary state
  /\ Summarization.transcript after = Summarization.transcript state
  /\ Summarization.timestamps after = Summarization.timestamps state
  /\ (PyStr.falsy_opt (Summarization.transcript state) = true ->
      topics state = (state, []))
  /\ (forall t, Summarization.transcript state = Some t -> t <> EmptyString ->
        snd (topics state) = [LlmInvoke (Insights.topics_prompt t)]
        /\ forall response, llm_invoke (Insights.topics_prompt t) = Ok response ->
             Summarization.error after = Summarization.error state
             /\ List.length (Summarization.key_topics after)
                = S (PyText.count "," response)
             /\ Forall (fun topic => PyStr.strip topic = topic
                                     /\ free_of "," topic = true)
                       (Summarization.key_topics after)).
Proof.
  unfold Insights.extract_key_topics_node.
  destruct (Summarization.transcript state) as [[|c t]|] eqn:Ht;
    cbn [PyStr.falsy PyStr.falsy_opt fst snd].
  1,3: refine (conj eq_refl (conj Ht (conj eq_refl (conj (fun _ => eq_refl) _))));
    intros t' Ht' Hne; try discriminate Ht'; injection Ht' as <-; now contradiction Hne.
  destruct (llm_invoke (Insights.topics_prompt (String c t))) as [response|msg] eqn:Hllm;
    cbn [fst snd Insights.set_key_topics Summarization.set_error Summarization.summary
         Summarization.transcript Summarization.timestamps Summarization.key_topics
         Summarization.error].
  - refine (conj eq_refl (conj Ht (conj eq_refl (conj _ _)))); [discriminate|].
    intros t' [= <-] _. split; [reflexivity|].
    rewrite Hllm. intros r [= <-]. split; [reflexivity|]. split.
    + now rewrite length_map, split_length.
    + apply Forall_forall. intros topic Hin.
      apply in_map_iff in Hin as (piece & <- & Hpiece).
      split; [apply strip_idem|].
      apply free_of_strip.
      pose proof (split_pieces_free "," response) as Hfree.
      rewrite Forall_forall in Hfree. now apply Hfree.
  - refine (conj eq_refl (conj Ht (conj eq_refl (conj _ _)))); [discriminate|].
    intros t' [= <-] _. split; [reflexivity|].
    rewrite Hllm. discriminate.
Qed.

(** X12.  [extract_important_timestamps_node] never reaches the language
    model.  Its prompt is an f-string in which the JSON example
    [{"timestamp": "MM:SS", "description": "Description"}] stands in
    single braces, so Python reads it as a replacement field: the string
    ["timestamp"] with the format specification
    [ "MM:SS", "description": "Description"], which no string accepts.
    Evaluating the prompt raises [ValueError] whatever the segments, the
    stage catches it, and so for every state with a transcript that is
    not empty the stage ends with an error that begins with
    ["Error extracting timestamps: "], has called nothing and has left
    the timestamps as they were. *)
Theorem timestamp_stage_never_reaches_the_model (state : Summarization.SummarizationState) :
  snd (important_timestamps state) = []
  /\ Summarization.timestamps (fst (important_timestamps state))
     = Summarization.timestamps state
  /\ (forall segment_texts, exists msg, Insights.timestamps_prompt segment_texts = Raise msg)
  /\ (forall t, Summarization.transcript state = Some t -> t <> EmptyString ->
        exists msg,
          Summarization.error (fst (important_timestamps state))
          = Some ("Error extracting timestamps: " ++ msg)).
Proof.
  assert (Hprompt : forall segment_texts,
             Insights.timestamps_prompt segment_texts
             = Raise ("Invalid format specifier '" ++ Insights.json_example_spec
                      ++ "' for object of type 'str'")).
  { intros segment_texts. unfold Insights.timestamps_prompt.
    assert (Hfield : PyFormat.format_str Insights.json_example_value
                       Insights.json_example_spec
                     = Raise ("Invalid format specifier '" ++ Insights.json_example_spec
                              ++ "' for object of type 'str'"))
      by (vm_compute; reflexivity).
    now rewrite Hfield. }
  unfold Insights.extract_important_timestamps_node.
  destruct (Summarization.transcript state) as [[|c t]|] eqn:Ht;
    cbn [PyStr.falsy fst snd].
  1,3: refine (conj eq_refl (conj eq_refl (conj _ _)));
    [ intros l; eexists; apply Hprompt
    | intros t' Ht' Hne; try discriminate Ht'; injection Ht' as <-; now contradiction Hne ].
  destruct (parse_transcript_with_timestamps (String c t)) as [segments|msg];
    cbn [rbind]; rewrite ?Hprompt; cbn [fst snd Summarization.set_error
                                          Summarization.timestamps Summarization.error].
  all: refine (conj eq_refl (conj eq_refl (conj _ _)));
    [ intros l; eexists; apply Hprompt | intros t' _ _; eexists; reflexivity ].
Qed.

End WorkflowProperties.

Section ChunkProperties.
Import Summary ChunkSpec ChunkFacts SummaryFacts.

(** X13.  The chunking loop of [generate_chunked_summary], for every
    transcript: it ends, and the chunks it gives cover the transcript
    with an overlap of exactly 500 characters between neighbours: the
    first chunk followed by every later chunk without its first 500
    characters is the transcript again, so no character is left out and
    none is moved.  No chunk is longer than 3500 characters, and for a
    transcript of [n] characters ([n > 0]) the number of chunks [k]
    satisfies [503 (k - 1) <= n <= 3000 (k - 1) + 3500]. *)
Theorem chunks_cover_the_transcript (transcript : string) :
  exists chunks,
    split_transcript transcript = Some chunks
    /\ reassemble chunks = transcript
    /\ Forall (fun chunk => (String.length chunk <= 3500)%nat) chunks
    /\ 503 * (Z.of_nat (List.length chunks) - 1) <= PyStr.len transcript
    /\ (transcript <> EmptyString ->
        PyStr.len transcript <= 3000 * (Z.of_nat (List.length chunks) - 1) + 3500).
Proof.
  destruct (split_transcript_ends transcript) as (chunks & Hsplit & Hbound).
  exists chunks. unfold split_transcript in *.
  refine (conj Hsplit (conj _ (conj _ (conj Hbound _)))).
  - apply (chunk_loop_covers transcript (String.length transcript) 0 [] chunks);
      [lia | reflexivity | assumption].
  - apply (chunk_loop_sizes transcript (String.length transcript) 0 [] chunks);
      [lia | constructor | assumption].
  - intros Hne.
    apply (chunk_loop_reach transcript (String.length transcript) 0 [] chunks);
      [|cbn; lia | assumption].
    destruct transcript; [contradiction|]. unfold PyStr.len. cbn [String.length]. lia.
Qed.

(** X14.  Sentence boundaries stop counting after position 2498.  The
    loop compares the position of the last sentence end inside the window,
    which is at most 3498, with [start + 1000]; so for a window that
    starts at 2498 or later the comparison fails whatever the text, the
    chunk is the full window of 3500 characters and the next window
    starts 3000 further.  Since every chunk advances by at least 503, this
    holds from the sixth chunk on: in every transcript each chunk from
    the sixth on, the last one apart, is exactly 3500 characters long. *)
Theorem later_chunks_ignore_sentence_boundaries (transcript : string) :
  (forall start,
      2498 <= start -> start + 3500 < PyStr.len transcript ->
      chunk_step transcript start
      = (PyStr.slice_Z start (start + 3500) transcript, Some (start + 3000)))
  /\ exists chunks,
       split_transcript transcript = Some chunks
       /\ forall i, (5 <= i)%nat -> (i + 1 < List.length chunks)%nat ->
                    String.length (nth i chunks EmptyString) = 3500%nat.
Proof.
  split.
  - intros start Hstart Hlong.
    destruct (chunk_step_spec transcript start ltac:(lia))
      as [[Hshort _]|(_ & end_ & _ & Hwindow & ->)]; [lia|].
    rewrite (Hwindow Hstart), slice_Z_inside by lia.
    do 2 f_equal; lia.
  - destruct (split_transcript_ends transcript) as (chunks & Hsplit & _).
    exists chunks. split; [assumption|]. unfold split_transcript in Hsplit.
    apply (chunk_loop_windows transcript (String.length transcript) 0 [] chunks);
      try assumption.
    + lia.
    + cbn. lia.
    + intros i Hi. cbn [List.length] in Hi. lia.
Qed.

End ChunkProperties.

Module SpellFacts.
Import SpellSpec TimestampSpec.

Lemma join_chars_cons (c d : ascii) (r : string) :
  PyStr.join_chars NL (String c (String d r))
  = String c (String PyStr.nl (PyStr.join_chars NL (String d r))).
Proof. reflexivity. Qed.

(** [chr(10).join(s)] for a string [s] puts every character of [s] on a
    line of its own. *)
Lemma join_chars_spelled (s : string) :
  every_other (PyStr.join_chars NL s) = s
  /\ String.length (PyStr.join_chars NL s) = (2 * String.length s - 1)%nat
  /\ one_per_line (PyStr.join_chars NL s).
Proof.
  induction s as [|c s IH]; [repeat split; intros k Hk; cbn in Hk; lia|].
  destruct s as [|d r].
  - repeat split. intros k Hk. cbn in Hk. lia.
  - destruct IH as (Hother & Hlen & Hline). rewrite join_chars_cons.
    refine (conj _ (conj _ _)).
    + cbn [every_other]. now rewrite Hother.
    + cbn [String.length] in *. lia.
    + intros [|k] Hk; [reflexivity|].
      replace (2 * S k + 1)%nat with (S (S (2 * k + 1))) by lia.
      cbn [String.get]. apply Hline. cbn [String.length] in Hk. lia.
Qed.

End SpellFacts.

Section SpellProperties.
Import Summary SpellSpec SpellFacts TimestampSpec.

Variable llm_invoke : string -> result string.

(** X15.  The last prompt of [generate_chunked_summary] on its longest
    path spells the section summaries one character per line.  When the
    transcript is longer than 4000 characters, the partial summaries
    joined are longer than 4000 as well and no call raises, the function
    ends with one call whose prompt holds
    [chr(10).join(chr(10).join(mid_summaries))]: the inner join gives a
    string, and the outer join then puts a newline between every two of
    its characters.  That text has a newline at every second place and
    twice the length less one; only every second character of it is text
    of the summaries. *)
Theorem final_prompt_spells_the_summaries
  (transcript : string) (chunks chunk_summaries mid_summaries : list string)
  (calls calls' : list call) :
  4000 < PyStr.len transcript ->
  split_transcript transcript = Some chunks ->
  invoke_all llm_invoke (chunk_prompts chunks) [] [] = (Ok chunk_summaries, calls) ->
  4000 < PyStr.len (PyStr.join Workflows.para chunk_summaries) ->
  invoke_all llm_invoke (group_prompts chunk_summaries) [] calls
  = (Ok mid_summaries, calls') ->
  exists sections,
    generate_chunked_summary llm_invoke transcript
    = Some (invoke_one llm_invoke (final_prompt sections) calls')
    /\ every_other sections = PyStr.join NL mid_summaries
    /\ String.length sections
       = (2 * String.length (PyStr.join NL mid_summaries) - 1)%nat
    /\ one_per_line sections.
Proof.
  intros Hlong Hsplit Hpass1 Hcombined Hpass2.
  exists (PyStr.join_chars NL (PyStr.join NL mid_summaries)).
  split; [|apply join_chars_spelled].
  unfold generate_chunked_summary.
  destruct (Z.leb_spec (PyStr.len transcript) 4000); [lia|].
  rewrite Hsplit. fold (chunk_prompts chunks). rewrite Hpass1.
  destruct (Z.leb_spec (PyStr.len (PyStr.join Workflows.para chunk_summaries)) 4000);
    [lia|].
  fold (group_prompts chunk_summaries). now rewrite Hpass2.
Qed.

End SpellProperties.

Lemma final_prompt_spells_the_summaries_witness :
  exists sections,
    Summary.generate_chunked_summary SpellSpec.model_rambles WorkflowSpec.long_transcript
    = Some (Summary.invoke_one SpellSpec.model_rambles (Summary.final_prompt sections)
              (map LlmInvoke
                 (SpellSpec.chunk_prompts
                    [WorkflowSpec.repeat_char "a" 3500; WorkflowSpec.repeat_char "a" 2000]
                  ++ SpellSpec.group_prompts
                       [WorkflowSpec.repeat_char "b" 2500;
                        WorkflowSpec.repeat_char "b" 2500])))
    /\ String.length sections = 4999%nat.
Proof.
  set (chunks := [WorkflowSpec.repeat_char "a" 3500; WorkflowSpec.repeat_char "a" 2000]).
  set (summaries := [WorkflowSpec.repeat_char "b" 2500; WorkflowSpec.repeat_char "b" 2500]).
  assert (H1 : 4000 < PyStr.len WorkflowSpec.long_transcript) by (vm_compute; reflexivity).
  assert (H2 : Summary.split_transcript WorkflowSpec.long_transcript = Some chunks)
    by (vm_compute; reflexivity).
  assert (H3 : Summary.invoke_all SpellSpec.model_rambles (SpellSpec.chunk_prompts chunks)
                 [] []
               = (Ok summaries, map LlmInvoke (SpellSpec.chunk_prompts chunks)))
    by (vm_compute; reflexivity).
  assert (H4 : 4000 < PyStr.len (PyStr.join Workflows.para summaries))
    by (vm_compute; reflexivity).
  assert (H5 : Summary.invoke_all SpellSpec.model_rambles
                 (SpellSpec.group_prompts summaries) []
                 (map LlmInvoke (SpellSpec.chunk_prompts chunks))
               = (Ok [WorkflowSpec.repeat_char "b" 2500],
                  map LlmInvoke (SpellSpec.chunk_prompts chunks
                                 ++ SpellSpec.group_prompts summaries)))
    by (vm_compute; reflexivity).
  destruct (final_prompt_spells_the_summaries SpellSpec.model_rambles
              WorkflowSpec.long_transcript chunks summaries
              [WorkflowSpec.repeat_char "b" 2500] _ _ H1 H2 H3 H4 H5)
    as (sections & Hrun & _ & Hlen & _).
  exists sections. split; [exact Hrun|].
  rewrite Hlen. vm_compute. reflexivity.
Defined.

Module ClockFacts.
Import Timestamp ClockSpec.

Lemma holds_from_spec (f : Z -> bool) (count : nat) :
  forall n, holds_from count n f = true ->
            forall k, n <= k < n + Z.of_nat count -> f k = true.
Proof.
  induction count as [|count IH]; intros n H k Hk; [lia|].
  cbn [holds_from] in H. apply andb_true_iff in H as [Hn Hrest].
  destruct (Z.eq_dec k n) as [->|Hne]; [assumption|].
  apply (IH (n + 1) Hrest). lia.
Qed.

Lemma result_is_eq (r : result string) (s : string) : result_is r s = true -> r = Ok s.
Proof.
  destruct r as [s'|]; cbn [result_is]; [|discriminate].
  intros H. apply String.eqb_eq in H. now subst.
Qed.

(** Checked by evaluation, second by second. *)
Lemma two_hours_format_exactly : holds_from (Z.to_nat 7200) 0 formats_exactly = true.
Proof. vm_compute. reflexivity. Qed.

End ClockFacts.

Section ClockProperties.
Import Timestamp ClockSpec ClockFacts.

(** X16.  On every whole number of seconds below two hours the two
    formatters, which compute with floats ([//], [%], [int]), give
    exactly what integer arithmetic gives: [seconds_to_time] the text
    [HH:MM:SS.00] and [format_timestamp_for_video] the text [XhYmZs],
    [YmZs] or [Zs] with the leading zero fields left out.  (With
    centiseconds [seconds_to_time] is not exact.) *)
Theorem whole_seconds_format_exactly (n : Z) :
  0 <= n < 7200 ->
  exists x,
    PyFloat.of_int n = Ok x
    /\ seconds_to_time x = Ok (clock_of n)
    /\ format_timestamp_for_video x = Ok (video_of n).
Proof.
  intros Hn.
  pose proof (holds_from_spec formats_exactly _ 0 two_hours_format_exactly n) as H.
  rewrite Z2Nat.id in H by lia. specialize (H ltac:(lia)).
  unfold formats_exactly in H.
  destruct (PyFloat.of_int n) as [x|]; [|discriminate].
  apply andb_true_iff in H as [Hclock Hvideo].
  exists x. auto using result_is_eq.
Qed.

End ClockProperties.

Lemma whole_seconds_format_exactly_witness :
  exists x,
    PyFloat.of_int 3725 = Ok x
    /\ Timestamp.seconds_to_time x = Ok "01:02:05.00"
    /\ Timestamp.format_timestamp_for_video x = Ok "1h2m5s".
Proof.
  assert (Hn : 0 <= 3725 < 7200) by lia.
  destruct (whole_seconds_format_exactly 3725 Hn) as (x & Hx & Hclock & Hvideo).
  exists x. repeat split; assumption.
Defined.

Module FieldFacts.
Import Timestamp TimestampSpec TimestampFacts TextSpec StripFacts FieldSpec.

Lemma digit_solid (c : ascii) : PyStr.is_digit c = true -> solid c = true.
Proof.
  intros H. apply digit_cases in H.
  repeat (destruct H as [<-|H]; [reflexivity|]). contradiction.
Qed.

Lemma digits_solid (s : string) :
  all_chars PyStr.is_digit s = true -> all_chars solid s = true.
Proof.
  induction s as [|c s IH]; cbn [all_chars]; [reflexivity|].
  intros H. apply andb_true_iff in H as [Hc Hs].
  now rewrite (digit_solid c Hc), (IH Hs).
Qed.

Lemma digits_free (sep : ascii) (s : string) :
  PyStr.is_digit sep = false -> all_chars PyStr.is_digit s = true -> free_of sep s = true.
Proof.
  intros Hsep. induction s as [|c s IH]; cbn [all_chars free_of]; [reflexivity|].
  intros H. apply andb_true_iff in H as [Hc Hs].
  now rewrite (digit_not c sep Hc Hsep), (IH Hs).
Qed.

Lemma strip_solid (s : string) : all_chars solid s = true -> PyStr.strip s = s.
Proof.
  intros H. unfold PyStr.strip.
  assert (Hl : PyStr.lstrip s = s).
  { destruct s as [|c s]; [reflexivity|]. cbn [all_chars] in H.
    apply andb_true_iff in H as [Hc _]. now apply lstrip_solid_head. }
  rewrite Hl. rewrite <- (ChunkFacts.append_empty s) at 1.
  rewrite rstrip_solid_prefix by assumption. apply ChunkFacts.append_empty.
Qed.

Lemma int_digits_value (s : string) :
  all_chars PyStr.is_digit s = true ->
  forall acc after, s <> EmptyString \/ after = true ->
    PyStr.int_digits acc after s = Some (digits_value acc s).
Proof.
  induction s as [|c s IH]; cbn [all_chars PyStr.int_digits digits_value].
  - intros _ acc after [H | -> ]; [contradiction | reflexivity].
  - intros H acc after _. apply andb_true_iff in H as [Hc Hs].
    rewrite Hc. apply IH; [assumption | now right].
Qed.

(** [int] reads a field of digits as the number it writes. *)
Lemma int_number (s : string) : digits s -> PyStr.int s = Ok (number s).
Proof.
  intros [Hne Hd]. unfold PyStr.int, number.
  rewrite (strip_solid s (digits_solid s Hd)).
  destruct s as [|c s]; [contradiction|].
  assert (Hv : PyStr.int_digits 0 false (String c s) = Some (digits_value 0 (String c s)))
    by (apply int_digits_value; [assumption | now left]).
  cbn [all_chars] in Hd. apply andb_true_iff in Hd as [Hc _].
  apply digit_cases in Hc.
  repeat (destruct Hc as [<-|Hc]; [now rewrite Hv|]). contradiction.
Qed.

(** With fewer than two colons there is no third part to read. *)
Lemma time_to_seconds_needs_two_colons (s : string) :
  (PyText.count ":" s < 2)%nat -> exists msg, time_to_seconds s = Raise msg.
Proof.
  intros Hcount. pose proof (split_length ":" s) as Hlen.
  unfold time_to_seconds.
  destruct (PyStr.split ":" s) as [|p0 [|p1 [|p2 rest]]]; cbn [List.length] in Hlen;
    try lia; cbn [PyStr.index nth_error rbind].
  - destruct (PyStr.int p0); cbn [rbind]; eauto.
  - destruct (PyStr.int p0); cbn [rbind]; [|eauto].
    destruct (PyStr.int p1); cbn [rbind]; eauto.
Qed.

End FieldFacts.

Section FieldProperties.
Import Timestamp TimestampSpec TimestampFacts TextSpec FieldSpec FieldFacts.


End FieldProperties.

Module PdfFacts.
Import Timestamp TimestampSpec TimestampFacts Pdf PdfSpec.

Lemma headers_app (a b : list effect) : headers (a ++ b) = (headers a ++ headers b)%list.
Proof. apply flat_map_app. Qed.

Lemma body_lines_app (a b : list effect) :
  body_lines (a ++ b) = (body_lines a ++ body_lines b)%list.
Proof. apply flat_map_app. Qed.

Lemma page_breaks_app (a b : list effect) :
  page_breaks (a ++ b) = (page_breaks a + page_breaks b)%nat.
Proof. unfold page_breaks. now rewrite filter_app, length_app. Qed.

(** What is pending is written as one body, line by line. *)
Lemma flush_body (current_segment : list string) (effects : list effect) :
  Forall (fun l => free_of PyStr.nl l = true) current_segment ->
  let flushed :=
    match current_segment with
    | [] => effects
    | _ => (effects ++ chapter_body (PyStr.join NL current_segment))%list
    end in
  body_lines flushed = (body_lines effects ++ current_segment)%list
  /\ headers flushed = headers effects
  /\ page_breaks flushed = page_breaks effects.
Proof.
  intros Hfree. destruct current_segment as [|l ls]; cbv zeta.
  - now rewrite app_nil_r.
  - rewrite body_lines_app, headers_app, page_breaks_app.
    cbn [chapter_body body_lines headers page_breaks flat_map filter List.length app].
    rewrite !app_nil_r, Nat.add_0_r.
    now rewrite split_join by (assumption || discriminate).
Qed.

(** The loop over the lines, beside the loop of the parser. *)
Lemma pdf_loop (lines : list string) :
  Forall (fun l => free_of PyStr.nl l = true) lines ->
  forall acc current_segment segment_count effects,
    Forall (fun l => free_of PyStr.nl l = true) current_segment ->
    exists segs current_segment' effects',
      parse_lines acc lines = Ok (acc ++ segs)%list
      /\ fold_left pdf_line lines (current_segment, segment_count, effects)
         = (current_segment', segment_count + Z.of_nat (List.length segs), effects')
      /\ Forall (fun l => free_of PyStr.nl l = true) current_segment'
      /\ headers effects' = (headers effects ++ map header_of segs)%list
      /\ (body_lines effects' ++ current_segment'
          = body_lines effects ++ current_segment ++ map line_text lines)%list
      /\ Z.of_nat (page_breaks effects')
         - (segment_count + Z.of_nat (List.length segs)) / 10
         = Z.of_nat (page_breaks effects) - segment_count / 10
      /\ exists more, effects' = (effects ++ more)%list.
Proof.
  induction 1 as [|line lines Hline _ IH];
    intros acc current_segment segment_count effects Hcur.
  - exists [], current_segment, effects. cbn [parse_lines fold_left map List.length].
    rewrite !app_nil_r, Z.add_0_r.
    repeat split; auto. exists []. now rewrite app_nil_r.
  - cbn [parse_lines fold_left]. unfold parse_line, pdf_line at 2, parse_timestamp_line.
    unfold line_text at 1. cbn [map].
    destruct (match_line line) as [[[a b] t]|] eqn:Hm.
    + destruct (match_line_inv line a b t Hline Hm) as (Ha & Hb & [Hne Ht] & ->).
      destruct (time_to_seconds_total a Ha) as [ts Hts].
      destruct (time_to_seconds_total b Hb) as [te Hte].
      rewrite Hts, Hte. cbn [rbind].
      destruct (flush_body current_segment effects Hcur) as (Hbody & Hhead & Hbreaks).
      cbv zeta in Hbody, Hhead, Hbreaks.
      change (String PyStr.nl EmptyString) with NL.
      set (flushed := match current_segment with
                      | [] => effects
                      | _ => (effects ++ chapter_body (PyStr.join NL current_segment))%list
                      end) in *.
      set (header := [SetFont "Arial" "B" 10; SetFillColor 240 240 240;
                      Cell 0 8 ("Timestamp: " ++ a ++ " - " ++ b) 0 1 "L" true;
                      SetFont "Arial" EmptyString 11]).
      set (effects1 := if (segment_count + 1) mod 10 =? 0
                       then ((flushed ++ header) ++ [AddPage])%list
                       else (flushed ++ header)%list).
      assert (H1 : headers effects1
                   = (headers effects ++ [("Timestamp: " ++ a ++ " - " ++ b)%string])%list).
      { subst effects1. destruct ((segment_count + 1) mod 10 =? 0);
          rewrite ?headers_app, Hhead; cbn; now rewrite ?app_nil_r. }
      assert (H2 : body_lines effects1 = (body_lines effects ++ current_segment)%list).
      { subst effects1. destruct ((segment_count + 1) mod 10 =? 0);
          rewrite ?body_lines_app, Hbody; cbn; now rewrite ?app_nil_r. }
      assert (H3 : Z.of_nat (page_breaks effects1) - (segment_count + 1) / 10
                   = Z.of_nat (page_breaks effects) - segment_count / 10).
      { subst effects1. destruct (Z.eqb_spec ((segment_count + 1) mod 10) 0) as [Hz|Hz];
          rewrite ?page_breaks_app, Hbreaks; cbn [page_breaks header filter List.length];
          Z.to_euclidean_division_equations; lia. }
      destruct (IH (acc ++ [mkSegment ts te t a b])%list [t] (segment_count + 1) effects1)
        as (segs & cur' & effects' & Hparse & Hfold & Hfree & Hh & Hb' & Hp & more & Hmore).
      { now repeat constructor. }
      exists (mkSegment ts te t a b :: segs), cur', effects'.
      cbn [List.length map]. rewrite Nat2Z.inj_succ.
      replace (segment_count + Z.succ (Z.of_nat (List.length segs)))
        with (segment_count + 1 + Z.of_nat (List.length segs)) by lia.
      refine (conj _ (conj Hfold (conj Hfree (conj _ (conj _ (conj _ _)))))).
      * rewrite Hparse, <- app_assoc. reflexivity.
      * rewrite Hh, H1, <- app_assoc. reflexivity.
      * rewrite Hb', H2, <- !app_assoc. reflexivity.
      * lia.
      * rewrite Hmore. subst effects1 flushed.
        destruct ((segment_count + 1) mod 10 =? 0), current_segment;
          rewrite <- ?app_assoc; eexists; reflexivity.
    + cbn [rbind].
      destruct (IH acc (current_segment ++ [line])%list segment_count effects)
        as (segs & cur' & effects' & Hparse & Hfold & Hfree & Hh & Hb' & Hp & Hmore).
      { apply Forall_app. split; [assumption | now repeat constructor]. }
      exists segs, cur', effects'.
      refine (conj Hparse (conj Hfold (conj Hfree (conj Hh (conj _ (conj Hp Hmore)))))).
      rewrite Hb', <- !app_assoc. reflexivity.
Qed.

End PdfFacts.

Section PdfProperties.
Import Timestamp TimestampSpec TimestampFacts Pdf PdfSpec PdfFacts.

(** X18.  [generate_transcript_pdf], for every transcript.  The document
    has one timestamp header for each segment the parser finds, in
    order and with the same two timestamps; every line of the transcript
    is in a body, in order: a line of the pattern with its text, any
    other line whole (the parser drops those, the document keeps them);
    the pages are the title page and one more for every ten segments.
    The break comes right after the header of the tenth segment, while
    its text is still pending, so that header closes a page and its text
    opens the next.  The calls begin with the directory and the title
    page and end with the output to the returned path, which is
    [data/pdfs/lecture_<id>_<time>.pdf] when no file name is given. *)
Theorem transcript_pdf_keeps_every_line
  (stamp_name stamp_title transcript lecture_id : string) (filename : option string) :
  let pdf_path :=
    fst (generate_transcript_pdf stamp_name stamp_title transcript lecture_id filename) in
  let effects :=
    snd (generate_transcript_pdf stamp_name stamp_title transcript lecture_id filename) in
  (exists segs,
      parse_transcript_with_timestamps transcript = Ok segs
      /\ headers effects = map header_of segs
      /\ body_lines effects = map line_text (lines_of transcript)
      /\ page_breaks effects = (1 + List.length segs / 10)%nat)
  /\ (exists between,
        effects = (MakeDirs PDF_DIR :: AddPage :: between ++ [Output pdf_path])%list)
  /\ (filename = None ->
      pdf_path = "data/pdfs/lecture_" ++ lecture_id ++ "_" ++ stamp_name ++ ".pdf")
  /\ (forall current_segment segment_count written line a b text,
        match_line line = Some (a, b, text) ->
        (segment_count + 1) mod 10 = 0 ->
        exists before,
          pdf_line (current_segment, segment_count, written) line
          = ([text], segment_count + 1,
             (before ++ [Cell 0 8 ("Timestamp: " ++ a ++ " - " ++ b)%string 0 1 "L" true;
                         SetFont "Arial" EmptyString 11; AddPage])%list)).
Proof.
  intros pdf_path effects. subst pdf_path effects.
  unfold generate_transcript_pdf.
  set (name := if PyStr.falsy_opt filename then _ else _).
  set (title := [MakeDirs PDF_DIR; _; _; _; _; _; _]).
  destruct (pdf_loop (lines_of transcript) (split_pieces_free _ _) [] [] 0 title
              (Forall_nil _))
    as (segs & cur & effects & Hparse & Hfold & Hfree & Hh & Hb & Hp & more & Hmore).
  rewrite Hfold. cbn [fst snd].
  destruct (flush_body cur effects Hfree) as (Hbody & Hhead & Hbreaks).
  cbv zeta in Hbody, Hhead, Hbreaks.
  change (String PyStr.nl EmptyString) with NL.
  set (flushed := match cur with
                  | [] => effects
                  | _ => (effects ++ chapter_body (PyStr.join NL cur))%list
                  end) in *.
  refine (conj _ (conj _ (conj _ _))).
  - exists segs. refine (conj Hparse (conj _ (conj _ _))).
    + rewrite headers_app, Hhead, Hh. cbn. now rewrite app_nil_r.
    + rewrite body_lines_app, Hbody, Hb. cbn. now rewrite app_nil_r.
    + rewrite page_breaks_app, Hbreaks.
      assert (Htitle : page_breaks title = 1%nat) by reflexivity.
      rewrite Htitle in Hp. cbn [page_breaks filter List.length].
      rewrite Nat.add_0_r. change (0 / 10) with 0 in Hp. rewrite Z.add_0_l in Hp.
      apply Nat2Z.inj. rewrite Nat2Z.inj_add, Nat2Z.inj_div.
      change (Z.of_nat 1) with 1 in *. change (Z.of_nat 10) with 10. lia.
  - subst flushed. rewrite Hmore.
    destruct cur as [|l cur].
    + exists (skipn 2 title ++ more)%list. subst title. reflexivity.
    + exists (skipn 2 title ++ more ++ chapter_body (PyStr.join NL (l :: cur)))%list.
      subst title. cbn [skipn app]. rewrite <- ?app_assoc. reflexivity.
  - intros ->. reflexivity.
  - intros current_segment segment_count written line a b text Hm Hten.
    unfold pdf_line, parse_timestamp_line. rewrite Hm.
    apply Z.eqb_eq in Hten. rewrite Hten.
    destruct current_segment as [|l rest].
    + exists (written ++ [SetFont "Arial" "B" 10; SetFillColor 240 240 240])%list.
      now rewrite <- !app_assoc.
    + exists (written ++ chapter_body (PyStr.join NL (l :: rest))
                      ++ [SetFont "Arial" "B" 10; SetFillColor 240 240 240])%list.
      now rewrite <- !app_assoc.
Qed.

End PdfProperties.

Module BlankFacts.
Import TextSpec.

Lemma lstrip_blank (s : string) :
  all_chars PyStr.is_space s = true -> PyStr.lstrip s = EmptyString.
Proof.
  induction s as [|c s IH]; cbn [all_chars PyStr.lstrip]; [reflexivity|].
  intros H. apply andb_true_iff in H as [Hc Hs]. now rewrite Hc, IH.
Qed.

Lemma strip_blank (s : string) :
  all_chars PyStr.is_space s = true -> PyStr.strip s = EmptyString.
Proof. intros H. unfold PyStr.strip. now rewrite lstrip_blank. Qed.

(** The empty string occurs in every string. *)
Lemma contains_empty (s : string) : PyStr.contains EmptyString s = true.
Proof. now destruct s. Qed.

End BlankFacts.

Section BlankProperties.
Import Timestamp Citation TextSpec BlankFacts.

(** X19.  The overlap test of the citation loops,
    [chunk.strip() in segment.text or segment.text.strip() in chunk],
    holds whenever one side is blank, since the empty string occurs in
    every string.  So a chunk that is empty or whitespace only is cited
    with the first segment of the transcript, whatever that segment
    says; and a segment whose text is whitespace only overlaps every
    chunk.  In [collect_sources] each blank chunk therefore adds the
    citation of the first segment. *)
Theorem blank_chunk_cites_the_first_segment :
  (forall chunk segment rest,
      all_chars PyStr.is_space chunk = true ->
      first_match chunk (segment :: rest) = Some segment)
  /\ (forall chunk segment,
        all_chars PyStr.is_space (text segment) = true -> overlaps chunk segment = true)
  /\ (forall chunk segment rest chunks sources,
        all_chars PyStr.is_space chunk = true ->
        collect_sources (segment :: rest) (chunk :: chunks) sources
        = (do source <- source_of segment;
           collect_sources (segment :: rest) chunks (sources ++ [source]))).
Proof.
  assert (Hfirst : forall chunk segment rest,
             all_chars PyStr.is_space chunk = true ->
             first_match chunk (segment :: rest) = Some segment).
  { intros chunk segment rest Hblank. unfold first_match, overlaps. cbn [find].
    now rewrite (strip_blank chunk Hblank), contains_empty. }
  refine (conj Hfirst (conj _ _)).
  - intros chunk segment Hblank. unfold overlaps.
    rewrite (strip_blank _ Hblank), contains_empty. apply orb_true_r.
  - intros chunk segment rest chunks sources Hblank.
    cbn [collect_sources]. now rewrite (Hfirst chunk segment rest Hblank).
Qed.

End BlankProperties.

Section UncitedProperties.
Import Timestamp TimestampSpec Transcription TranscribeFacts Citation Workflows
  WorkflowSpec.

Variable load_transcript : string -> result (option string).
Variable CollectionInfo : Type.
Variable get_collection_info : string -> option CollectionInfo.
Variable similarity_search : string -> string -> nat -> result (list Document).
Variable llm_invoke : string -> result string.

#[local] Abbreviation run_qa :=
  (run_lecture_qa load_transcript CollectionInfo get_collection_info similarity_search
     llm_invoke).
#[local] Abbreviation search_lecture :=
  (search_lecture_node load_transcript CollectionInfo get_collection_info similarity_search).

Lemma collect_sources_nil (chunks : list string) (acc : list Source) :
  collect_sources [] chunks acc = Ok acc.
Proof. induction chunks as [|chunk chunks IH]; [reflexivity | exact IH]. Qed.

Lemma collect_results_nil (lecture : string) (docs : list Document) :
  forall acc, Forall empty_citation acc ->
    snd (collect_results lecture [] docs acc) = None
    /\ Forall empty_citation (fst (collect_results lecture [] docs acc)).
Proof.
  induction docs as [|doc docs IH]; intros acc Hacc; cbn [collect_results].
  - now split.
  - unfold result_of. cbn [first_match find]. apply IH.
    apply Forall_app. split; [assumption|]. repeat constructor.
Qed.

(** A transcript in which the parser finds nothing gives no source. *)
Lemma unparsed_transcript_sources (lecture asked t : string) :
  load_transcript lecture = Ok (Some t) ->
  parse_transcript_with_timestamps t = Ok [] ->
  QA.sources (fst (run_qa lecture asked)) = [].
Proof.
  intros Hload Hparse.
  unfold run_lecture_qa, lecture_qa_workflow, seq_stage, initial_qa_state.
  unfold load_transcript_node. cbn [QA.lecture_id]. rewrite Hload.
  destruct t as [|c t]; cbn [PyStr.falsy].
  all: unfold retrieve_relevant_chunks;
    cbn [QA.question QA.lecture_id QA.set_error QA.set_transcript];
    destruct asked as [|qc q]; cbn [PyStr.falsy].
  all: unfold generate_answer_node;
    cbn [QA.question QA.lecture_id QA.set_error QA.set_transcript PyStr.falsy].
  all: try (destruct (get_collection_info _));
    try (destruct (similarity_search _ _ _));
    cbn [QA.question QA.lecture_id QA.set_error QA.set_transcript QA.set_context_chunks
         PyStr.falsy QA.transcript];
    try (destruct (llm_invoke _));
    unfold extract_sources_node;
    cbn [QA.question QA.lecture_id QA.set_error QA.set_transcript QA.set_context_chunks
         QA.set_answer PyStr.falsy QA.transcript QA.context_chunks];
    rewrite ?Hparse; cbn [rbind]; rewrite ?collect_sources_nil;
    cbn [fst QA.sources QA.set_sources QA.set_error QA.set_answer QA.set_context_chunks
         QA.set_transcript];
    reflexivity.
Qed.


End UncitedProperties.

